(** * Cityscope backend: posts, likes, replies and feeds

    A shallow embedding of the post model (models/Post.ts), the user model
    (models/User.ts) and the post service (services/post.service.ts), with
    the parts of Mongoose and MongoDB they run on written out as explicit
    state passing over the two collections. *)

From stdpp Require Import gmap strings list fin_maps sorting.
From Stdlib Require Import NArith ZArith Ascii String.

Open Scope string_scope.
Open Scope list_scope.

(** ** JavaScript strings

    A string is a sequence of code units; the model keeps the code units
    below 256, one [ascii] each, so [String.length] is [.length]. *)

Module JS.

(** White space as [String.prototype.trim] sees it, restricted to the
    code units of the model: TAB, LF, VT, FF, CR, SP and NBSP. *)
Definition isWhiteSpace (c : ascii) : bool :=
  let n := N_of_ascii c in
  ((9 <=? n) && (n <=? 13) || (n =? 32) || (n =? 160))%N.

Fixpoint trimStart (s : string) : string :=
  match s with
  | EmptyString => EmptyString
  | String c s' => if isWhiteSpace c then trimStart s' else s
  end.

Fixpoint trimEnd (s : string) : string :=
  match s with
  | EmptyString => EmptyString
  | String c s' =>
      match trimEnd s' with
      | EmptyString => if isWhiteSpace c then EmptyString else String c EmptyString
      | t => String c t
      end
  end.

Definition trim (s : string) : string := trimEnd (trimStart s).

(** Truthiness of a string: every string but the empty one. *)
Definition truthy (s : string) : bool :=
  match s with EmptyString => false | _ => true end.

(** [a || b] where [a] may be undefined. *)
Definition or_else (a : option string) (b : string) : string :=
  match a with
  | Some s => if truthy s then s else b
  | None => b
  end.

(** [a || undefined]. *)
Definition or_undefined (a : option string) : option string :=
  match a with
  | Some s => if truthy s then Some s else None
  | None => None
  end.

(** [a?.trim()] as a condition. *)
Definition truthy_trim (a : option string) : bool :=
  match a with
  | Some s => truthy (trim s)
  | None => false
  end.

Definition toLower (c : ascii) : ascii :=
  let n := N_of_ascii c in
  if ((65 <=? n) && (n <=? 90))%N then ascii_of_N (n + 32) else c.

Fixpoint lowerCase (s : string) : string :=
  match s with
  | EmptyString => EmptyString
  | String c s' => String (toLower c) (lowerCase s')
  end.

Definition startsWith (p s : string) : bool := String.prefix p s.

Definition endsWith (p s : string) : bool :=
  String.prefix (String.rev p) (String.rev s).

(** What [.] refuses in a regular expression without the [s] flag. *)
Definition isLineTerminator (c : ascii) : bool :=
  let n := N_of_ascii c in ((n =? 10) || (n =? 13))%N.

Fixpoint noLineTerminator (s : string) : bool :=
  match s with
  | EmptyString => true
  | String c s' => negb (isLineTerminator c) && noLineTerminator s'
  end.

Fixpoint repeat (c : ascii) (n : nat) : string :=
  match n with
  | O => EmptyString
  | S n' => String c (repeat c n')
  end.

End JS.

(** ** ObjectId

    An ObjectId is its 96-bit value; [fromString] is the cast Mongoose and
    the [Types.ObjectId] constructor apply to a string: exactly 24
    hexadecimal digits, anything else is refused. *)

Module ObjectId.

Abbreviation t := N (only parsing).

Definition hexDigit (c : ascii) : option N :=
  let n := N_of_ascii c in
  if ((48 <=? n) && (n <=? 57))%N then Some (n - 48)%N
  else if ((97 <=? n) && (n <=? 102))%N then Some (n - 87)%N
  else if ((65 <=? n) && (n <=? 70))%N then Some (n - 55)%N
  else None.

Fixpoint parseHex (s : string) (acc : N) : option N :=
  match s with
  | EmptyString => Some acc
  | String c s' =>
      match hexDigit c with
      | Some d => parseHex s' (16 * acc + d)%N
      | None => None
      end
  end.

Definition fromString (s : string) : option t :=
  if Nat.eqb (String.length s) 24 then parseHex s 0%N else None.

End ObjectId.

(** ** The documents *)

Module PostType.

Inductive t := RECOMMEND | HELP | UPDATE | EVENT.

#[global] Instance eq_dec : EqDecision t.
Proof. solve_decision. Defined.

Definition toString (x : t) : string :=
  match x with
  | RECOMMEND => "recommend"
  | HELP => "help"
  | UPDATE => "update"
  | EVENT => "event"
  end.

Definition values : list t := [RECOMMEND; HELP; UPDATE; EVENT].

(** [Object.values(PostType).includes(s)], with the member found. *)
Definition ofString (s : string) : option t :=
  List.find (fun x => String.eqb (toString x) s) values.

End PostType.

Module User.

(** The [_id] of a document is its key in the collection. *)
Record t := mk {
  email : string;
  password : string;
  firstName : string;
  lastName : string;
  city : string;
  bio : string;
  isVerified : bool;
  postsCount : Z;
  isActive : bool;
  userStatus : Z;
  createdAt : N;
  updatedAt : N
}.

Definition inc_postsCount (n : Z) (u : t) : t :=
  mk (email u) (password u) (firstName u) (lastName u) (city u)
     (bio u) (isVerified u) (postsCount u + n)%Z (isActive u)
     (userStatus u) (createdAt u) (updatedAt u).

End User.

Module Reply.

Record t := mk {
  _id : option ObjectId.t;
  content : string;
  author : ObjectId.t;
  createdAt : N;
  updatedAt : N
}.

#[global] Instance eq_dec : EqDecision t.
Proof. solve_decision. Defined.

End Reply.

Module Post.

(** [image = None] is an absent image; the empty [city] stands for an
    absent city (createPost turns the one into the other, and the
    [required] validator refuses both). *)
Record t := mk {
  content : string;
  postType : PostType.t;
  image : option string;
  author : ObjectId.t;
  city : string;
  likes : list ObjectId.t;
  dislikes : list ObjectId.t;
  replies : list Reply.t;
  isActive : bool;
  createdAt : N;
  updatedAt : N
}.

#[global] Instance eq_dec : EqDecision t.
Proof. solve_decision. Defined.

Definition with_likes (l : list ObjectId.t) (p : t) : t :=
  mk (content p) (postType p) (image p) (author p) (city p)
     l (dislikes p) (replies p) (isActive p) (createdAt p) (updatedAt p).

Definition with_dislikes (l : list ObjectId.t) (p : t) : t :=
  mk (content p) (postType p) (image p) (author p) (city p)
     (likes p) l (replies p) (isActive p) (createdAt p) (updatedAt p).

Definition with_replies (l : list Reply.t) (p : t) : t :=
  mk (content p) (postType p) (image p) (author p) (city p)
     (likes p) (dislikes p) l (isActive p) (createdAt p) (updatedAt p).

Definition with_createdAt (n : N) (p : t) : t :=
  mk (content p) (postType p) (image p) (author p) (city p)
     (likes p) (dislikes p) (replies p) (isActive p) n (updatedAt p).

Definition with_updatedAt (n : N) (p : t) : t :=
  mk (content p) (postType p) (image p) (author p) (city p)
     (likes p) (dislikes p) (replies p) (isActive p) (createdAt p) n.

End Post.

(** ** The database and the computations over it *)

Record DB := mkDB {
  users : gmap N User.t;
  posts : gmap N Post.t
}.

Inductive Exn :=
| ValidationError (errors : list string)
| CastError
| BSONError
| MongoServerError (code : N).

(** A computation reads and writes the collections and either returns or
    throws; what it wrote before throwing stays written. *)
Definition M (A : Type) : Type := DB -> (Exn + A) * DB.

Definition ret {A} (a : A) : M A := fun db => (inr a, db).

Definition throw {A} (e : Exn) : M A := fun db => (inl e, db).

Definition bind {A B} (k : A -> M B) (c : M A) : M B :=
  fun db =>
    match c db with
    | (inl e, db') => (inl e, db')
    | (inr a, db') => k a db'
    end.

#[global] Instance M_ret : MRet M := @ret.
#[global] Instance M_bind : MBind M := @bind.

Definition get : M DB := fun db => (inr db, db).

Definition put (db' : DB) : M unit := fun _ => (inr tt, db').

(** [return await service(...)]: a service never throws, its response is
    the result. *)
Definition await {A} (service : DB -> A * DB) : M A :=
  fun db => (inr (service db).1, (service db).2).

(** [try { body } catch (error) { handler }] around a service body. *)
Definition try_catch {A} (body : M A) (handler : Exn -> A) : DB -> A * DB :=
  fun db =>
    match body db with
    | (inl e, db') => (handler e, db')
    | (inr a, db') => (a, db')
    end.

(** ** Mongoose: the Post and User models

    A document in memory is the values it holds now ([this]) and the
    values it was loaded with ([loaded]), which Mongoose keeps to know what
    was modified.  A document built with [new Post] was never loaded: that
    is [isNew]; once the insert is issued Mongoose clears the flag. *)

Record Doc := mkDoc {
  _id : ObjectId.t;
  this : Post.t;
  loaded : option Post.t
}.

Definition isNew (d : Doc) : bool :=
  match loaded d with
  | None => true
  | Some _ => false
  end.

Definition isModified (d : Doc) : bool :=
  match loaded d with
  | None => true
  | Some p => bool_decide (this d ≠ p)
  end.

Module Schema.

(** [/^https?:\/\/.+\.(jpg|jpeg|png|gif|webp)$/i]: a scheme, at least one
    character that is no line terminator, a dot and an extension. *)
Definition urlRegex_test (url : string) : bool :=
  let u := JS.lowerCase url in
  JS.noLineTerminator url &&
  existsb (fun scheme =>
    existsb (fun ext =>
      JS.startsWith scheme u && JS.endsWith ext u &&
      (String.length scheme + String.length ext <? String.length u)%nat)
      [".jpg"; ".jpeg"; ".png"; ".gif"; ".webp"])
    ["http://"; "https://"].

Definition image_validator (url : string) : bool :=
  if negb (JS.truthy url) then true else urlRegex_test url.

(** The first validator of a path that fails gives the path's message. *)
Definition content_error (required tooLong tooShort content : string)
  : option string :=
  if negb (JS.truthy content) then Some required
  else if (280 <? String.length content)%nat then Some tooLong
  else if (String.length content <? 1)%nat then Some tooShort
  else None.

Definition post_content_error : string -> option string :=
  content_error "Post content is required"
                "Post content cannot exceed 280 characters"
                "Post content cannot be empty".

Definition reply_content_error : string -> option string :=
  content_error "Reply content is required"
                "Reply cannot exceed 280 characters"
                "Reply cannot be empty".

Definition image_error (image : option string) : option string :=
  match image with
  | Some url => if image_validator url then None
                else Some "Invalid image URL format"
  | None => None
  end.

Definition city_error (city : string) : option string :=
  if JS.truthy city then None else Some "Path `city` is required.".

(** The validators [save] runs, for a document whose loaded paths pass
    them, as those of every post that [save] stored do: all the paths of a
    new document, and of a loaded one the replies pushed since ([likes]
    and [dislikes] carry no validator; the paths as loaded are validated
    again, and pass). *)
Definition errors (d : Doc) : list string :=
  match loaded d with
  | None =>
      omap id [post_content_error (Post.content (this d));
               image_error (Post.image (this d));
               city_error (Post.city (this d))]
      ++ omap (fun r => reply_content_error (Reply.content r))
              (Post.replies (this d))
  | Some p =>
      omap (fun r => reply_content_error (Reply.content r))
           (filter (fun r => r ∉ Post.replies p) (Post.replies (this d)))
  end.

End Schema.

Definition validate (d : Doc) : M unit :=
  match Schema.errors d with
  | [] => mret tt
  | es => throw (ValidationError es)
  end.

(** [timestamps: true]: a new document gets both dates, a modified one a
    new [updatedAt]. *)
Definition timestamps (now : N) (d : Doc) : Doc :=
  if isNew d then
    mkDoc (_id d) (Post.with_updatedAt now (Post.with_createdAt now (this d)))
          (loaded d)
  else if isModified d then
    mkDoc (_id d) (Post.with_updatedAt now (this d)) (loaded d)
  else d.

(** [postSchema.pre('save')]. *)
Definition preSave (p : Post.t) : Post.t :=
  let likeSet : gset N := list_to_set (Post.likes p) in
  let dislikeSet : gset N := list_to_set (Post.dislikes p) in
  let p1 := Post.with_likes
              (filter (fun id => id ∉ dislikeSet) (Post.likes p)) p in
  Post.with_dislikes
    (filter (fun id => id ∉ likeSet) (Post.dislikes p1)) p1.

(** [mongoose.model('User').findByIdAndUpdate(id, { $inc: { postsCount: n } })]. *)
Definition User_findByIdAndUpdate_inc (id : ObjectId.t) (n : Z) : M unit :=
  db ← get;
  put (mkDB (alter (User.inc_postsCount n) id (users db)) (posts db)).

(** [postSchema.post('save')]. *)
Definition postSave (d : Doc) : M unit :=
  if isNew d then User_findByIdAndUpdate_inc (Post.author (this d)) 1
  else mret tt.

(** The write of [save]: an insert for a new document (a taken [_id] is
    the duplicate key error 11000), an update of the stored document
    otherwise.  Either way the document in memory is afterwards the stored
    one, and no longer new. *)
Definition write (d : Doc) : M Doc :=
  db ← get;
  if isNew d && bool_decide (is_Some (posts db !! _id d))
  then throw (MongoServerError 11000)
  else
    _ ← put (mkDB (users db) (<[_id d := this d]> (posts db)));
    mret (mkDoc (_id d) (this d) (Some (this d))).

(** [doc.save()]: validation, the timestamps, the schema's pre hook, the
    write, the schema's post hook. *)
Definition save (now : N) (d : Doc) : M Doc :=
  _ ← validate d;
  d' ← write (mkDoc (_id d) (preSave (this (timestamps now d))) (loaded d));
  _ ← postSave d';
  mret d'.

(** *** Instance methods of the post schema *)

Definition addLike (now : N) (userId : ObjectId.t) (d : Doc) : M Doc :=
  let p := this d in
  let p1 := Post.with_dislikes
              (filter (fun id => id ≠ userId) (Post.dislikes p)) p in
  let p2 := if bool_decide (userId ∈ Post.likes p1) then p1
            else Post.with_likes (Post.likes p1 ++ [userId]) p1 in
  save now (mkDoc (_id d) p2 (loaded d)).

Definition removeLike (now : N) (userId : ObjectId.t) (d : Doc) : M Doc :=
  let p := this d in
  save now (mkDoc (_id d) (Post.with_likes
                     (filter (fun id => id ≠ userId) (Post.likes p)) p)
                  (loaded d)).

Definition addDislike (now : N) (userId : ObjectId.t) (d : Doc) : M Doc :=
  let p := this d in
  let p1 := Post.with_likes
              (filter (fun id => id ≠ userId) (Post.likes p)) p in
  let p2 := if bool_decide (userId ∈ Post.dislikes p1) then p1
            else Post.with_dislikes (Post.dislikes p1 ++ [userId]) p1 in
  save now (mkDoc (_id d) p2 (loaded d)).

Definition removeDislike (now : N) (userId : ObjectId.t) (d : Doc) : M Doc :=
  let p := this d in
  save now (mkDoc (_id d) (Post.with_dislikes
                     (filter (fun id => id ≠ userId) (Post.dislikes p)) p)
                  (loaded d)).

(** What [addReply] is given: a reply without [_id] and dates. *)
Record ReplyInput := mkReplyInput {
  ri_content : string;
  ri_author : ObjectId.t
}.

(** [this.replies.push(reply)] casts the value to a subdocument: the
    [trim] setter runs and the subdocument gets an [_id] of its own,
    [replyId], from the driver's generator; its dates are those of the save
    that follows. *)
Definition addReply (now : N) (replyId : ObjectId.t) (reply : ReplyInput)
    (d : Doc) : M Doc :=
  let p := this d in
  let sub := Reply.mk (Some replyId) (JS.trim (ri_content reply))
                      (ri_author reply) now now in
  save now (mkDoc (_id d) (Post.with_replies (Post.replies p ++ [sub]) p) (loaded d)).

Definition removeReply (now : N) (replyId : ObjectId.t) (d : Doc) : M Doc :=
  let p := this d in
  save now (mkDoc (_id d) (Post.with_replies
                     (filter (fun reply => Reply._id reply ≠ Some replyId)
                             (Post.replies p)) p)
                  (loaded d)).

Definition getLikesCount (p : Post.t) : nat := List.length (Post.likes p).
Definition getDislikesCount (p : Post.t) : nat := List.length (Post.dislikes p).
Definition getRepliesCount (p : Post.t) : nat := List.length (Post.replies p).

Definition isLikedBy (userId : ObjectId.t) (p : Post.t) : bool :=
  bool_decide (userId ∈ Post.likes p).

Definition isDislikedBy (userId : ObjectId.t) (p : Post.t) : bool :=
  bool_decide (userId ∈ Post.dislikes p).

(** *** Queries *)

Definition User_findById (id : string) : M (option User.t) :=
  match ObjectId.fromString id with
  | None => throw CastError
  | Some oid => db ← get; mret (users db !! oid)
  end.

Definition Post_findById (id : string) : M (option Doc) :=
  match ObjectId.fromString id with
  | None => throw CastError
  | Some oid => db ← get; mret ((fun p => mkDoc oid p (Some p)) <$> posts db !! oid)
  end.

(** [new Types.ObjectId(s)]. *)
Definition ObjectId_new (s : string) : M ObjectId.t :=
  match ObjectId.fromString s with
  | None => throw BSONError
  | Some oid => mret oid
  end.

Module Populated.

(** The fields [populate] selects of a referenced user. *)
Record Author := mkAuthor {
  author_id : ObjectId.t;
  firstName : string;
  lastName : string;
  email : string;
  bio : option string;
  isVerified : option bool
}.

(** A post as a response carries it: the document, the author's fields in
    place of the reference (none when the user is gone) and, in a feed,
    the same for each reply. *)
Record t := mk {
  _id : ObjectId.t;
  doc : Post.t;
  author : option Author;
  replyAuthors : option (list (option Author))
}.

End Populated.

(** [.populate('author', 'firstName lastName email bio isVerified')]. *)
Definition populate_author (db : DB) (oid : ObjectId.t) (p : Post.t)
    : Populated.t :=
  Populated.mk oid p
    ((fun u => Populated.mkAuthor (Post.author p) (User.firstName u)
                 (User.lastName u) (User.email u) (Some (User.bio u))
                 (Some (User.isVerified u)))
       <$> users db !! Post.author p)
    None.

(** [.populate('replies.author', 'firstName lastName email')] on top. *)
Definition populate_replies (db : DB) (pp : Populated.t) : Populated.t :=
  Populated.mk (Populated._id pp) (Populated.doc pp) (Populated.author pp)
    (Some (map (fun r =>
            (fun u => Populated.mkAuthor (Reply.author r) (User.firstName u)
                        (User.lastName u) (User.email u) None None)
              <$> users db !! Reply.author r)
          (Post.replies (Populated.doc pp)))).

Definition Post_findById_populate (oid : ObjectId.t) : M (option Populated.t) :=
  db ← get; mret (populate_author db oid <$> posts db !! oid).

(** ** The post service *)

Inductive ResponseData :=
| DataPost (post : option Populated.t)
| DataPosts (posts : list Populated.t).

Record PostResponse := mkResponse {
  success : bool;
  message : string;
  data : option ResponseData;
  error : option string
}.

Definition failure (message error : string) : PostResponse :=
  mkResponse false message None (Some error).

Definition internal_error : PostResponse :=
  failure "Internal server error" "Something went wrong".

Module CreatePostRequest.
Record t := mk {
  content : string;
  postType : string;
  image : option string;
  city : option string
}.
End CreatePostRequest.

(** [new Post({ content, postType, image, author, city })]: the schema's
    [trim] setters and defaults, and an [_id] from the driver's generator. *)
Definition Post_new (newId : ObjectId.t) (content : string)
    (postType : PostType.t) (image : option string) (author : ObjectId.t)
    (city : option string) : Doc :=
  mkDoc newId
        (Post.mk (JS.trim content) postType (JS.trim <$> image) author
                 (default "" city) [] [] [] true 0 0)
        None.

Definition createPost (now : N) (newId : ObjectId.t) (userId : string)
    (postData : CreatePostRequest.t) : DB -> PostResponse * DB :=
  try_catch
    (if negb (JS.truthy userId)
     then mret (failure "User ID is required" "Missing user ID")
     else
       user ← User_findById userId;
       match user with
       | None => mret (failure "User not found" "User does not exist")
       | Some user =>
         if negb (User.isActive user)
         then mret (failure "Account is deactivated" "Account status inactive")
         else if negb (JS.truthy (JS.trim (CreatePostRequest.content postData)))
         then mret (failure "Post content is required" "Missing post content")
         else
           match PostType.ofString (CreatePostRequest.postType postData) with
           | None =>
             mret (failure "Valid post type is required" "Invalid post type")
           | Some postType =>
             if (280 <? String.length
                          (JS.trim (CreatePostRequest.content postData)))%nat
             then mret (failure "Post content cannot exceed 280 characters"
                                "Content too long")
             else
               author ← ObjectId_new userId;
               let newPost :=
                 Post_new newId
                   (JS.trim (CreatePostRequest.content postData))
                   postType
                   (JS.or_undefined
                      (JS.trim <$> CreatePostRequest.image postData))
                   author
                   (JS.or_undefined (CreatePostRequest.city postData)) in
               savedPost ← save now newPost;
               populatedPost ← Post_findById_populate (_id savedPost);
               mret (mkResponse true "Post created successfully"
                                (Some (DataPost populatedPost)) None)
           end
       end)
    (fun e =>
       match e with
       | ValidationError errors =>
           failure "Validation failed" (String.concat ", " errors)
       | _ => internal_error
       end).

Definition cast_handler (message : string) (e : Exn) : PostResponse :=
  match e with
  | CastError => failure message "Invalid ObjectId"
  | _ => internal_error
  end.

Definition togglePostLike (now : N) (postId userId : string)
    : DB -> PostResponse * DB :=
  try_catch
    (if negb (JS.truthy postId) || negb (JS.truthy userId)
     then mret (failure "Post ID and User ID are required"
                        "Missing required parameters")
     else
       post ← Post_findById postId;
       match post with
       | None => mret (failure "Post not found" "Post does not exist")
       | Some post =>
         if negb (Post.isActive (this post))
         then mret (failure "Cannot like inactive post" "Post inactive")
         else
           userObjectId ← ObjectId_new userId;
           let isLiked := isLikedBy userObjectId (this post) in
           _ ← (if isLiked then removeLike now userObjectId post
                else addLike now userObjectId post);
           populatedPost ← Post_findById_populate (_id post);
           mret (mkResponse true
                   (if isLiked then "Post unliked successfully"
                    else "Post liked successfully")
                   (Some (DataPost populatedPost)) None)
       end)
    (cast_handler "Invalid post ID format").

Definition togglePostDislike (now : N) (postId userId : string)
    : DB -> PostResponse * DB :=
  try_catch
    (if negb (JS.truthy postId) || negb (JS.truthy userId)
     then mret (failure "Post ID and User ID are required"
                        "Missing required parameters")
     else
       post ← Post_findById postId;
       match post with
       | None => mret (failure "Post not found" "Post does not exist")
       | Some post =>
         if negb (Post.isActive (this post))
         then mret (failure "Cannot dislike inactive post" "Post inactive")
         else
           userObjectId ← ObjectId_new userId;
           let isDisliked := isDislikedBy userObjectId (this post) in
           _ ← (if isDisliked then removeDislike now userObjectId post
                else addDislike now userObjectId post);
           populatedPost ← Post_findById_populate (_id post);
           mret (mkResponse true
                   (if isDisliked then "Post undisliked successfully"
                    else "Post disliked successfully")
                   (Some (DataPost populatedPost)) None)
       end)
    (cast_handler "Invalid post ID format").

(** *** Feeds *)

Module PostQueryParams.
Record t := mk {
  postType : option string;
  author : option string;
  city : option string;
  sortBy : option string;
  search : option string
}.

Definition with_city (c : option string) (q : t) : t :=
  mk (postType q) (author q) c (sortBy q) (search q).
End PostQueryParams.

(** The [filter] object handed to [Post.find]. *)
Module Filter.
Record t := mk {
  isActive : bool;
  city : option string;
  postType : option PostType.t;
  author : option ObjectId.t;
  content : option string
}.
End Filter.

(** The keys of a [sort] object. *)
Inductive SortField := SortLikes | SortCreatedAt.

Definition array_max (l : list N) : option N :=
  foldr (fun x acc => Some (match acc with Some y => N.max x y | None => x end))
        None l.

Definition array_min (l : list N) : option N :=
  foldr (fun x acc => Some (match acc with Some y => N.min x y | None => x end))
        None l.

(** The value MongoDB sorts a document by.  For an array field it is one
    element of the array: the largest in a descending sort, the smallest in
    an ascending one; an empty array sorts below every value ([None]).
    ObjectIds compare as their 12 bytes, that is as numbers. *)
Definition sortKey (f : SortField) (dir : Z) (p : Post.t) : option N :=
  match f with
  | SortCreatedAt => Some (Post.createdAt p)
  | SortLikes => if (dir <? 0)%Z then array_max (Post.likes p)
                 else array_min (Post.likes p)
  end.

Definition compare_key (a b : option N) : comparison :=
  match a, b with
  | None, None => Eq
  | None, Some _ => Lt
  | Some _, None => Gt
  | Some x, Some y => N.compare x y
  end.

(** Documents compare key by key, each in its direction. *)
Fixpoint sort_compare (sort : list (SortField * Z)) (p q : Post.t) : comparison :=
  match sort with
  | [] => Eq
  | (f, dir) :: rest =>
      match compare_key (sortKey f dir p) (sortKey f dir q) with
      | Eq => sort_compare rest p q
      | c => if (dir <? 0)%Z then CompOpp c else c
      end
  end.

Definition sort_le (sort : list (SortField * Z)) (p q : N * Post.t) : Prop :=
  sort_compare sort p.2 q.2 ≠ Gt.

#[global] Instance sort_le_dec sort p q : Decision (sort_le sort p q).
Proof. unfold sort_le. apply _. Defined.

(** [.sort(sort)] over the documents a query selected. *)
Definition Query_sort (sort : list (SortField * Z)) (l : list (N * Post.t))
    : list (N * Post.t) :=
  merge_sort (sort_le sort) l.

Section Feed.

(** The database server compiling [{ $regex: pattern, $options: 'i' }]:
    the matcher of the pattern, or the error the server answers a pattern
    that is no regular expression with. *)
Variable regexCompile : string -> Exn + (string -> bool).

(** [regexTest pattern text]: whether the pattern selects [text]; a
    pattern that does not compile selects nothing. *)
Definition regexTest (pattern text : string) : bool :=
  match regexCompile pattern with
  | inr test => test text
  | inl _ => false
  end.

Definition matches (f : Filter.t) (p : Post.t) : bool :=
  bool_decide (Post.isActive p = Filter.isActive f)
  && match Filter.city f with
     | Some c => bool_decide (Post.city p = c)
     | None => true
     end
  && match Filter.postType f with
     | Some ty => bool_decide (Post.postType p = ty)
     | None => true
     end
  && match Filter.author f with
     | Some a => bool_decide (Post.author p = a)
     | None => true
     end
  && match Filter.content f with
     | Some pattern => regexTest pattern (Post.content p)
     | None => true
     end.

(** The documents a filter selects, in the collection's own order. *)
Definition selected (f : Filter.t) (db : DB) : list (N * Post.t) :=
  filter (fun d => matches f d.2) (map_to_list (posts db)).

(** The error of the server for the [$regex] of a filter, if it has one
    that does not compile. *)
Definition regex_error (f : Filter.t) : option Exn :=
  match Filter.content f with
  | Some pattern =>
      match regexCompile pattern with
      | inl e => Some e
      | inr _ => None
      end
  | None => None
  end.

(** [Post.find(filter)]: the query throws the server's error for a
    [$regex] that does not compile, whatever the collection holds. *)
Definition Post_find (f : Filter.t) : M (list (N * Post.t)) :=
  match regex_error f with
  | Some e => throw e
  | None => db ← get; mret (selected f db)
  end.

(** The filter object [getPostsFeed] builds; the cast of [author] throws
    on a string that is no ObjectId. *)
Definition build_filter (q : PostQueryParams.t) : M Filter.t :=
  let city := if JS.truthy_trim (PostQueryParams.city q)
              then JS.trim <$> PostQueryParams.city q else None in
  let postType := PostQueryParams.postType q ≫= PostType.ofString in
  let content := if JS.truthy_trim (PostQueryParams.search q)
                 then JS.trim <$> PostQueryParams.search q else None in
  match PostQueryParams.author q with
  | Some a =>
      if JS.truthy a
      then author ← ObjectId_new a;
           mret (Filter.mk true city postType (Some author) content)
      else mret (Filter.mk true city postType None content)
  | None => mret (Filter.mk true city postType None content)
  end.

Definition sort_of (sortBy : string) : list (SortField * Z) :=
  if String.eqb sortBy "oldest" then [(SortCreatedAt, 1%Z)]
  else if String.eqb sortBy "mostLiked"
       then [(SortLikes, (-1)%Z); (SortCreatedAt, (-1)%Z)]
       else [(SortCreatedAt, (-1)%Z)].

Definition getPostsFeed (queryParams : PostQueryParams.t)
    : DB -> PostResponse * DB :=
  try_catch
    (let sortBy := default "newest" (PostQueryParams.sortBy queryParams) in
     filter ← build_filter queryParams;
     let sort := sort_of sortBy in
     found ← Post_find filter;
     db ← get;
     let posts :=
       map (fun d => populate_replies db (populate_author db d.1 d.2))
           (Query_sort sort found) in
     mret (mkResponse true "Posts retrieved successfully"
                      (Some (DataPosts posts)) None))
    (fun _ => internal_error).

Definition getUserCityFeed (userId : string) (queryParams : PostQueryParams.t)
    : DB -> PostResponse * DB :=
  try_catch
    (if negb (JS.truthy userId)
     then mret (failure "User ID is required" "Missing user ID")
     else
       user ← User_findById userId;
       match user with
       | None => mret (failure "User not found" "User does not exist")
       | Some user =>
         if negb (User.isActive user)
         then mret (failure "Account is deactivated" "Account status inactive")
         else
           let cityFilter :=
             JS.or_else (PostQueryParams.city queryParams) (User.city user) in
           await (getPostsFeed
                    (PostQueryParams.with_city (Some cityFilter) queryParams))
       end)
    (cast_handler "Invalid user ID format").

End Feed.

(** ** Pagination: the static [getPaginatedPosts] of the post model *)

(** A JavaScript number that a division may have made infinite or
    undefined. *)
Inductive JSNumber :=
| Finite (n : N)
| Infinity
| NaN.

(** [Math.ceil(a / b)] on two counts. *)
Definition ceil_div (a b : N) : JSNumber :=
  if (b =? 0)%N then (if (a =? 0)%N then NaN else Infinity)
  else Finite ((a + b - 1) / b).

(** [a < b] for a count [a]; every comparison with [NaN] is false. *)
Definition lt_number (a : N) (b : JSNumber) : bool :=
  match b with
  | Finite n => (a <? n)%N
  | Infinity => true
  | NaN => false
  end.

Module Pagination.
Record t := mk {
  currentPage : N;
  totalPages : JSNumber;
  totalPosts : N;
  hasNext : bool;
  hasPrev : bool
}.
End Pagination.

(** [.skip(skip).limit(limit)] over the sorted documents: the server
    refuses a negative [skip], with the error code [skip_error] of its
    version, and a [limit] of 0 is no limit. *)
Definition Query_skip_limit {A} (skip_error : N) (skip : Z) (limit : N)
    (l : list A) : M (list A) :=
  if (skip <? 0)%Z then throw (MongoServerError skip_error)
  else
    let rest := drop (Z.to_nat skip) l in
    mret (if (limit =? 0)%N then rest else take (N.to_nat limit) rest).

Section Paginated.

(** The documents that the [filter] object, whatever it is, selects, and
    the code of the server's error for a negative [skip]. *)
Variable selects : Post.t -> bool.
Variable skip_error : N.

Definition getPaginatedPosts (page limit : N) (sortBy : string)
    : M (list Populated.t * Pagination.t) :=
  let skip := ((Z.of_N page - 1) * Z.of_N limit)%Z in
  let sort := sort_of sortBy in
  db ← get;
  let found := filter (fun d => selects d.2) (map_to_list (posts db)) in
  posts ← Query_skip_limit skip_error skip limit (Query_sort sort found);
  let totalPosts := N.of_nat (List.length found) in
  let totalPages := ceil_div totalPosts limit in
  mret (map (fun d => populate_replies db (populate_author db d.1 d.2)) posts,
        Pagination.mk page totalPages totalPosts
                      (lt_number page totalPages) (1 <? page)%N).

End Paginated.

(** ** The user model: saving a user, the counters, the full name *)

#[global] Instance User_eq_dec : EqDecision User.t.
Proof. solve_decision. Defined.

Definition User_with_postsCount (n : Z) (u : User.t) : User.t :=
  User.mk (User.email u) (User.password u) (User.firstName u) (User.lastName u)
          (User.city u) (User.bio u) (User.isVerified u) n (User.isActive u)
          (User.userStatus u) (User.createdAt u) (User.updatedAt u).

Definition User_with_password (s : string) (u : User.t) : User.t :=
  User.mk (User.email u) s (User.firstName u) (User.lastName u)
          (User.city u) (User.bio u) (User.isVerified u) (User.postsCount u)
          (User.isActive u) (User.userStatus u) (User.createdAt u)
          (User.updatedAt u).

Definition User_with_dates (created updated : N) (u : User.t) : User.t :=
  User.mk (User.email u) (User.password u) (User.firstName u) (User.lastName u)
          (User.city u) (User.bio u) (User.isVerified u) (User.postsCount u)
          (User.isActive u) (User.userStatus u) created updated.

(** A user document in memory, with the values it was loaded with. *)
Record UserDoc := mkUserDoc {
  user_id : ObjectId.t;
  user_this : User.t;
  user_loaded : option User.t
}.

(** [this.isModified(path)], for the path read by [f]. *)
Definition path_modified {A} `{EqDecision A} (f : User.t -> A) (d : UserDoc)
    : bool :=
  match user_loaded d with
  | None => true
  | Some u => bool_decide (f (user_this d) ≠ f u)
  end.

Section UserModel.

(** [bcrypt.hash] with a fresh salt of cost 12, and the [match] pattern of
    the [email] path: both are the libraries'. *)
Variable bcrypt_hash : string -> string.
Variable email_match : string -> bool.

Definition email_error (s : string) : option string :=
  if negb (JS.truthy s) then Some "Email is required"
  else if email_match s then None else Some "Please enter a valid email".

Definition password_error (s : string) : option string :=
  if negb (JS.truthy s) then Some "Password is required"
  else if (String.length s <? 6)%nat
       then Some "Password must be at least 6 characters" else None.

Definition maxlength_error (n : nat) (message s : string) : option string :=
  if (n <? String.length s)%nat then Some message else None.

Definition postsCount_error (n : Z) : option string :=
  if (n <? 0)%Z then Some "Posts count cannot be negative" else None.

(** The validators [save] runs: those of every path the document holds,
    loaded or set.  The password is not selected when a user is loaded
    ([select: false]), so its validators run only once it has been set. *)
Definition User_errors (d : UserDoc) : list string :=
  let u := user_this d in
  omap id
    [ email_error (User.email u);
      if path_modified User.password d
      then password_error (User.password u) else None;
      maxlength_error 50 "First name cannot exceed 50 characters"
                      (User.firstName u);
      maxlength_error 50 "Last name cannot exceed 50 characters"
                      (User.lastName u);
      maxlength_error 160 "Bio cannot exceed 160 characters" (User.bio u);
      postsCount_error (User.postsCount u) ].

(** [userSchema.pre('save')]. *)
Definition User_preSave (d : UserDoc) : UserDoc :=
  if negb (path_modified User.password d) then d
  else mkUserDoc (user_id d)
         (User_with_password (bcrypt_hash (User.password (user_this d)))
                             (user_this d))
         (user_loaded d).

Definition User_timestamps (now : N) (d : UserDoc) : UserDoc :=
  match user_loaded d with
  | None => mkUserDoc (user_id d) (User_with_dates now now (user_this d)) None
  | Some u =>
      if bool_decide (user_this d ≠ u)
      then mkUserDoc (user_id d)
             (User_with_dates (User.createdAt (user_this d)) now (user_this d))
             (user_loaded d)
      else d
  end.

(** Another user holds this email: the unique index refuses the write. *)
Definition email_taken (db : DB) (oid : ObjectId.t) (email : string) : bool :=
  existsb (fun d => negb (d.1 =? oid)%N && String.eqb (User.email d.2) email)
          (map_to_list (users db)).

Definition User_write (d : UserDoc) : M UserDoc :=
  db ← get;
  if (match user_loaded d with
      | None => bool_decide (is_Some (users db !! user_id d))
      | Some _ => false
      end)
     || (path_modified User.email d
         && email_taken db (user_id d) (User.email (user_this d)))
  then throw (MongoServerError 11000)
  else
    _ ← put (mkDB (<[user_id d := user_this d]> (users db)) (posts db));
    mret (mkUserDoc (user_id d) (user_this d) (Some (user_this d))).

(** [user.save()]. *)
Definition User_save (now : N) (d : UserDoc) : M UserDoc :=
  match User_errors d with
  | [] => User_write (User_preSave (User_timestamps now d))
  | es => throw (ValidationError es)
  end.

Definition incrementPostsCount (now : N) (d : UserDoc) : M UserDoc :=
  let u := user_this d in
  User_save now
    (mkUserDoc (user_id d) (User_with_postsCount (User.postsCount u + 1)%Z u)
               (user_loaded d)).

Definition decrementPostsCount (now : N) (d : UserDoc) : M UserDoc :=
  let u := user_this d in
  User_save now
    (mkUserDoc (user_id d)
       (if (0 <? User.postsCount u)%Z
        then User_with_postsCount (User.postsCount u - 1)%Z u else u)
       (user_loaded d)).

End UserModel.

Definition getFullName (u : User.t) : string :=
  JS.trim (User.firstName u +:+ " " +:+ User.lastName u).

(** ** Deleting a post: [postSchema.post('findOneAndDelete')] *)

(** [Post.findOneAndDelete({ _id: oid })] with the schema's hook: the
    document found, if any, is removed and its author's counter goes down
    by one. *)
Definition Post_findOneAndDelete (oid : ObjectId.t) : M (option Post.t) :=
  db ← get;
  match posts db !! oid with
  | None => mret None
  | Some doc =>
      _ ← put (mkDB (users db) (delete oid (posts db)));
      _ ← User_findByIdAndUpdate_inc (Post.author doc) (-1);
      mret (Some doc)
  end.

(** ** The profile service *)

Module UpdateProfileRequest.
Record t := mk {
  firstName : string;
  lastName : string;
  city : string;
  bio : option string
}.
End UpdateProfileRequest.

(** The user as a profile response shows it: neither password nor city. *)
Module UserResponse.
Record t := mk {
  _id : ObjectId.t;
  email : string;
  firstName : string;
  lastName : string;
  bio : string;
  isVerified : bool;
  postsCount : Z;
  isActive : bool;
  createdAt : N;
  updatedAt : N
}.
End UserResponse.

Module ProfileResponse.
Record t := mk {
  success : bool;
  message : string;
  data : option UserResponse.t;
  error : option string
}.
End ProfileResponse.

Definition profile_failure (message error : string) : ProfileResponse.t :=
  ProfileResponse.mk false message None (Some error).

Definition userResponse (oid : ObjectId.t) (u : User.t) : UserResponse.t :=
  UserResponse.mk oid (User.email u) (User.firstName u) (User.lastName u)
                  (User.bio u) (User.isVerified u) (User.postsCount u)
                  (User.isActive u) (User.createdAt u) (User.updatedAt u).

(** The [$set] of [updateUserProfile] applied to a stored user, after the
    [trim] setters of the three text paths. *)
Definition User_set_profile (firstName lastName bio city : string) (now : N)
    (u : User.t) : User.t :=
  User.mk (User.email u) (User.password u) (JS.trim firstName)
          (JS.trim lastName) city (JS.trim bio) (User.isVerified u)
          (User.postsCount u) (User.isActive u) (User.userStatus u)
          (User.createdAt u) now.

(** [User.findByIdAndUpdate(userId, { $set: updateData },
    { new: true, runValidators: true })]: the validators of the paths set,
    then the update; the updated document, or none when nobody has the
    [_id]. *)
Definition User_findByIdAndUpdate_profile (userId : string)
    (firstName lastName bio city : string) (now : N) : M (option User.t) :=
  match ObjectId.fromString userId with
  | None => throw CastError
  | Some oid =>
      match omap id
              [ maxlength_error 50 "First name cannot exceed 50 characters"
                                (JS.trim firstName);
                maxlength_error 50 "Last name cannot exceed 50 characters"
                                (JS.trim lastName);
                maxlength_error 160 "Bio cannot exceed 160 characters"
                                (JS.trim bio) ] with
      | [] =>
          db ← get;
          match users db !! oid with
          | None => mret None
          | Some u =>
              let u' := User_set_profile firstName lastName bio city now u in
              _ ← put (mkDB (<[oid := u']> (users db)) (posts db));
              mret (Some u')
          end
      | es => throw (ValidationError es)
      end
  end.

Definition profile_handler (e : Exn) : ProfileResponse.t :=
  match e with
  | ValidationError errors =>
      profile_failure "Validation failed" (String.concat ", " errors)
  | CastError => profile_failure "Invalid user ID format" "Invalid ObjectId"
  | _ => profile_failure "Internal server error" "Something went wrong"
  end.

Definition updateUserProfile (now : N) (userId : string)
    (profileData : UpdateProfileRequest.t) : DB -> ProfileResponse.t * DB :=
  try_catch
    (if negb (JS.truthy userId)
     then mret (profile_failure "User ID is required" "Missing user ID")
     else if negb (JS.truthy (JS.trim (UpdateProfileRequest.firstName profileData)))
             || negb (JS.truthy (JS.trim (UpdateProfileRequest.lastName profileData)))
     then mret (profile_failure "First name and last name are required"
                                "Missing required fields")
     else if (50 <? String.length
                      (JS.trim (UpdateProfileRequest.firstName profileData)))%nat
     then mret (profile_failure "First name cannot exceed 50 characters"
                                "Invalid first name length")
     else if (50 <? String.length
                      (JS.trim (UpdateProfileRequest.lastName profileData)))%nat
     then mret (profile_failure "Last name cannot exceed 50 characters"
                                "Invalid last name length")
     else if match UpdateProfileRequest.bio profileData with
             | Some bio => JS.truthy bio
                           && (160 <? String.length (JS.trim bio))%nat
             | None => false
             end
     then mret (profile_failure "Bio cannot exceed 160 characters"
                                "Invalid bio length")
     else
       user ← User_findById userId;
       match user with
       | None => mret (profile_failure "User not found" "User does not exist")
       | Some user =>
         if negb (User.isActive user)
         then mret (profile_failure "Account is deactivated"
                                    "Account status inactive")
         else
           let bio := match UpdateProfileRequest.bio profileData with
                      | Some bio => if JS.truthy bio then JS.trim bio
                                    else User.bio user
                      | None => User.bio user
                      end in
           updatedUser ←
             User_findByIdAndUpdate_profile userId
               (JS.trim (UpdateProfileRequest.firstName profileData))
               (JS.trim (UpdateProfileRequest.lastName profileData))
               bio (UpdateProfileRequest.city profileData) now;
           match updatedUser, ObjectId.fromString userId with
           | Some updatedUser, Some oid =>
               mret (ProfileResponse.mk true "Profile updated successfully"
                       (Some (userResponse oid updatedUser)) None)
           | _, _ =>
               mret (profile_failure "Failed to update profile"
                                     "Update operation failed")
           end
       end)
    profile_handler.

Definition getUserProfile (userId : string) : DB -> ProfileResponse.t * DB :=
  try_catch
    (if negb (JS.truthy userId)
     then mret (profile_failure "User ID is required" "Missing user ID")
     else
       user ← User_findById userId;
       match user, ObjectId.fromString userId with
       | Some user, Some oid =>
           if negb (User.isActive user)
           then mret (profile_failure "Account is deactivated"
                                      "Account status inactive")
           else mret (ProfileResponse.mk true "Profile retrieved successfully"
                        (Some (userResponse oid user)) None)
       | _, _ => mret (profile_failure "User not found" "User does not exist")
       end)
    (fun e =>
       match e with
       | CastError => profile_failure "Invalid user ID format" "Invalid ObjectId"
       | _ => profile_failure "Internal server error" "Something went wrong"
       end).

(** ** The HTTP surface: the auth middleware and the post controllers *)

(** [s.includes(sub)]. *)
Fixpoint includes (sub s : string) : bool :=
  String.prefix sub s ||
  match s with
  | EmptyString => false
  | String _ s' => includes sub s'
  end.

(** What a handler sends: [res.status(status).json(body)]. *)
Record Reply := mkReply {
  status : N;
  body : PostResponse
}.

(** [getUserById] of the auth service: the user, or null when there is
    none or the lookup throws. *)
Definition getUserById (userId : string) (db : DB) : option User.t :=
  match User_findById userId db with
  | (inr user, _) => user
  | (inl _, _) => None
  end.

(** The middleware either answers itself or calls [next()] with
    [req.userId] set. *)
Inductive AuthOutcome :=
| Rejected (reply : Reply)
| Next (userId : string).

Section Middleware.

(** [verifyToken] of the auth service: the [userId] of a token that
    [jwt.verify] accepts. *)
Variable verifyToken : string -> option string.

Definition authenticateToken (token : option string) (db : DB) : AuthOutcome :=
  match JS.or_undefined token with
  | None =>
      Rejected (mkReply 401 (failure "Access token required" "No token provided"))
  | Some token =>
      match verifyToken token with
      | None =>
          Rejected (mkReply 403 (failure "Invalid or expired token"
                                         "Token verification failed"))
      | Some userId =>
          match getUserById userId db with
          | None =>
              Rejected (mkReply 404 (failure "User not found"
                                             "User does not exist"))
          | Some user =>
              if negb (User.isActive user)
              then Rejected (mkReply 403 (failure "Account is deactivated"
                                                  "Account status inactive"))
              else Next userId
          end
      end
  end.

End Middleware.

Definition not_authenticated : Reply :=
  mkReply 401 (failure "Authentication required" "User not authenticated").

(** The status of a failed toggle. *)
Definition toggle_status (result : PostResponse) : N :=
  if bool_decide (error result = Some "Post does not exist") then 404
  else if bool_decide (error result = Some "Invalid ObjectId") then 400
  else if bool_decide (error result = Some "Post inactive") then 404
  else 500.

Definition handleTogglePostLike (now : N) (userId : option string)
    (postId : string) (db : DB) : Reply * DB :=
  match JS.or_undefined userId with
  | None => (not_authenticated, db)
  | Some userId =>
      if negb (JS.truthy postId)
      then (mkReply 400 (failure "Post ID is required" "Missing post ID parameter"),
            db)
      else
        let (result, db') := togglePostLike now postId userId db in
        if negb (success result) then (mkReply (toggle_status result) result, db')
        else (mkReply 200 result, db')
  end.

Definition handleTogglePostDislike (now : N) (userId : option string)
    (postId : string) (db : DB) : Reply * DB :=
  match JS.or_undefined userId with
  | None => (not_authenticated, db)
  | Some userId =>
      if negb (JS.truthy postId)
      then (mkReply 400 (failure "Post ID is required" "Missing post ID parameter"),
            db)
      else
        let (result, db') := togglePostDislike now postId userId db in
        if negb (success result) then (mkReply (toggle_status result) result, db')
        else (mkReply 200 result, db')
  end.

(** [req.query] of the two feed routes. *)
Module FeedQuery.
Record t := mk {
  postType : option string;
  author : option string;
  city : option string;
  sortBy : option string;
  search : option string
}.
End FeedQuery.

(** [value && !allowed.includes(value)]. *)
Definition given_but_not_in (allowed : list string) (value : option string)
    : bool :=
  match JS.or_undefined value with
  | Some v => negb (existsb (String.eqb v) allowed)
  | None => false
  end.

Definition invalid_postType : Reply :=
  mkReply 400 (failure "Invalid post type filter"
                       "Post type must be one of: recommend, help, update, event").

Definition invalid_sortBy : Reply :=
  mkReply 400 (failure "Invalid sort option"
                       "Sort by must be one of: newest, oldest, mostLiked").

Section FeedHandlers.

Variable regexCompile : string -> Exn + (string -> bool).


Definition handleGetPostsFeed (query : FeedQuery.t) (db : DB) : Reply * DB :=
  let queryParams :=
    PostQueryParams.mk (FeedQuery.postType query) (FeedQuery.author query)
      (FeedQuery.city query) (FeedQuery.sortBy query) (FeedQuery.search query) in
  if given_but_not_in (map PostType.toString PostType.values)
                      (PostQueryParams.postType queryParams)
  then (invalid_postType, db)
  else if given_but_not_in ["newest"; "oldest"; "mostLiked"]
                           (PostQueryParams.sortBy queryParams)
  then (invalid_sortBy, db)
  else
    let (result, db') := getPostsFeed regexCompile queryParams db in
    if negb (success result) then (mkReply 500 result, db')
    else (mkReply 200 result, db').

End FeedHandlers.

(** What [uploadImageToCloudinary] resolves to. *)
Record UploadResult := mkUpload {
  upload_success : bool;
  upload_secureUrl : option string;
  upload_error : option string
}.

(** The text fields of the multipart body of the create route. *)
Module CreateBody.
Record t := mk {
  content : option string;
  postType : option string;
  city : option string
}.
End CreateBody.

Section CreateHandler.

(** The upload of a file's bytes to the image host. *)
Variable Buffer : Type.
Variable uploadImageToCloudinary : Buffer -> UploadResult.

Definition handleCreatePost (now : N) (newId : ObjectId.t)
    (userId : option string) (reqBody : CreateBody.t) (file : option Buffer)
    (db : DB) : Reply * DB :=
  match JS.or_undefined userId with
  | None => (not_authenticated, db)
  | Some userId =>
      if negb (JS.truthy_trim (CreateBody.content reqBody))
      then (mkReply 400 (failure "Post content is required" "Missing post content"),
            db)
      else if negb (match JS.or_undefined (CreateBody.postType reqBody) with
                    | Some ty => bool_decide (is_Some (PostType.ofString ty))
                    | None => false
                    end)
      then (mkReply 400
              (failure "Valid post type is required (recommend, help, update, event)"
                       "Invalid post type"), db)
      else if (280 <? String.length
                        (JS.trim (default "" (CreateBody.content reqBody))))%nat
      then (mkReply 400 (failure "Post content cannot exceed 280 characters"
                                 "Content too long"), db)
      else
        let uploaded :=
          match file with
          | Some imageFile =>
              let uploadResult := uploadImageToCloudinary imageFile in
              if negb (upload_success uploadResult)
              then inl (mkReply 400
                          (mkResponse false "Failed to upload image" None
                                      (upload_error uploadResult)))
              else inr (upload_secureUrl uploadResult)
          | None => inr None
          end in
        match uploaded with
        | inl reply => (reply, db)
        | inr imageUrl =>
            let (result, db') :=
              createPost now newId userId
                (CreatePostRequest.mk
                   (JS.trim (default "" (CreateBody.content reqBody)))
                   (default "" (CreateBody.postType reqBody))
                   imageUrl (CreateBody.city reqBody)) db in
            if negb (success result)
            then (mkReply
                    (if bool_decide (error result = Some "User does not exist")
                     then 404
                     else if bool_decide
                               (error result = Some "Account status inactive")
                     then 403
                     else if includes "Invalid" (default "" (error result))
                             || bool_decide (message result = "Validation failed")
                     then 400 else 500)
                    result, db')
            else (mkReply 201 result, db')
        end
  end.

End CreateHandler.

(** * Vocabulary of the properties *)

Definition stamp (now : N) (p p0 : Post.t) : Post.t :=
  if bool_decide (p ≠ p0) then Post.with_updatedAt now p else p.

(** The post [togglePostLike] stores for user [u], from the stored [p]. *)
Definition toggled_like (now : N) (u : ObjectId.t) (p : Post.t) : Post.t :=
  preSave (stamp now
    (if bool_decide (u ∈ Post.likes p)
     then Post.with_likes (filter (fun id => id ≠ u) (Post.likes p)) p
     else Post.with_likes (Post.likes p ++ [u])
            (Post.with_dislikes (filter (fun id => id ≠ u) (Post.dislikes p)) p))
    p).

Definition toggled_dislike (now : N) (u : ObjectId.t) (p : Post.t) : Post.t :=
  preSave (stamp now
    (if bool_decide (u ∈ Post.dislikes p)
     then Post.with_dislikes (filter (fun id => id ≠ u) (Post.dislikes p)) p
     else Post.with_dislikes (Post.dislikes p ++ [u])
            (Post.with_likes (filter (fun id => id ≠ u) (Post.likes p)) p))
    p).

Definition post_inv (p : Post.t) : Prop :=
  NoDup (Post.likes p) ∧ NoDup (Post.dislikes p) ∧
  Forall (fun id => id ∉ Post.dislikes p) (Post.likes p).

#[global] Instance post_inv_dec p : Decision (post_inv p).
Proof. unfold post_inv. apply _. Defined.

Definition db_inv (db : DB) : Prop :=
  map_Forall (fun _ p => post_inv p) (posts db).

#[global] Instance db_inv_dec db : Decision (db_inv db).
Proof. unfold db_inv. apply _. Defined.

Definition starts_clean (s : string) : Prop :=
  match s with
  | EmptyString => True
  | String c _ => JS.isWhiteSpace c = false
  end.

(** The document [createPost] hands to [save]. *)
Definition created_doc (newId : ObjectId.t) (uid : ObjectId.t)
    (ty : PostType.t) (postData : CreatePostRequest.t) : Doc :=
  Post_new newId (JS.trim (CreatePostRequest.content postData)) ty
    (JS.or_undefined (JS.trim <$> CreatePostRequest.image postData)) uid
    (JS.or_undefined (CreatePostRequest.city postData)).

(** The post it stores when the save goes through. *)
Definition created_post (now : N) (newId : ObjectId.t) (uid : ObjectId.t)
    (ty : PostType.t) (postData : CreatePostRequest.t) : Post.t :=
  preSave (Post.with_updatedAt now
            (Post.with_createdAt now (this (created_doc newId uid ty postData)))).

Inductive Op :=
| OpCreate (now : N) (newId : ObjectId.t) (userId : string)
           (postData : CreatePostRequest.t)
| OpLike (now : N) (postId userId : string)
| OpDislike (now : N) (postId userId : string).

Definition step (db : DB) (op : Op) : DB :=
  match op with
  | OpCreate now newId userId postData =>
      (createPost now newId userId postData db).2
  | OpLike now postId userId => (togglePostLike now postId userId db).2
  | OpDislike now postId userId => (togglePostDislike now postId userId db).2
  end.

Definition run (ops : list Op) (db : DB) : DB := foldl step db ops.

(** What one like toggle by [U] does to the two lists of a post, [L] and
    [D] before and [L'] and [D'] after: [U] leaves the opposing list, its
    membership in the toggled list flips, and nobody else moves. *)
Definition one_flip (U : ObjectId.t) (L D L' D' : list ObjectId.t) : Prop :=
  L' = (if bool_decide (U ∈ L) then filter (fun id => id ≠ U) L else L ++ [U]) ∧
  D' = filter (fun id => id ≠ U) D ∧
  (U ∈ L' ↔ U ∉ L) ∧ (U ∉ D') ∧
  (∀ V, V ≠ U → (V ∈ L' ↔ V ∈ L) ∧ (V ∈ D' ↔ V ∈ D)) ∧
  (U ∈ D → List.length L' = S (List.length L) ∧ S (List.length D') = List.length D).

(** [n] like toggles in a row, one per time of [nows]. *)
Definition like_times (nows : list N) (postId userId : string) : list Op :=
  map (fun now => OpLike now postId userId) nows.

(** The parity property as the specification words it, at one input. *)
Definition parity_as_specified (db : DB) (postId userId : string)
    (nows : list N) : Prop :=
  ∀ pid U P P',
    ObjectId.fromString postId = Some pid →
    ObjectId.fromString userId = Some U →
    posts db !! pid = Some P →
    posts (run (like_times nows postId userId) db) !! pid = Some P' →
    (Nat.Odd (List.length nows) → U ∈ Post.likes P' ∧ U ∉ Post.dislikes P') ∧
    (Nat.Even (List.length nows) →
       (U ∈ Post.likes P' ↔ U ∈ Post.likes P) ∧
       (U ∈ Post.dislikes P' ↔ U ∈ Post.dislikes P)).

(** ** Sample data *)

Module Sample.

Definition alice : string := "000000000000000000000001".
Definition bob : string := "000000000000000000000002".
Definition carol : string := "000000000000000000000009".
Definition taco : string := "000000000000000000000064".
Definition fair : string := "000000000000000000000065".

Definition user (first city : string) (active : bool) : User.t :=
  User.mk (first +:+ "@cityscope.test") "$2a$12$hash" first "Doe" city ""
          false 0 active 1 0 0.

Definition users : gmap N User.t :=
  <[1%N := user "alice" "Austin" true]>
    (<[2%N := user "bob" "Austin" true]>
       (<[9%N := user "carol" "Denver" true]> ∅)).

Definition post (content city : string) (likes dislikes : list N)
    (createdAt : N) : Post.t :=
  Post.mk content PostType.RECOMMEND None 1%N city likes dislikes [] true
          createdAt createdAt.

(** One post nobody has reacted to. *)
Definition db_fresh : DB :=
  mkDB users (<[100%N := post "Great taco spot downtown!" "Austin" [] [] 10]> ∅).

(** The same post, liked by bob. *)
Definition db_liked : DB :=
  mkDB users (<[100%N := post "Great taco spot downtown!" "Austin" [2%N] [] 10]> ∅).

(** The same post, disliked by bob. *)
Definition db_disliked : DB :=
  mkDB users (<[100%N := post "Great taco spot downtown!" "Austin" [] [2%N] 10]> ∅).

Definition taco_request : CreatePostRequest.t :=
  CreatePostRequest.mk "Great taco spot downtown!" "recommend" None
                       (Some "Austin").

End Sample.

(** Two versions of a post that differ at most in the likes, the dislikes
    and the update time. *)
Definition same_but_reactions (p p' : Post.t) : Prop :=
  Post.content p' = Post.content p ∧
  Post.postType p' = Post.postType p ∧
  Post.image p' = Post.image p ∧
  Post.author p' = Post.author p ∧
  Post.city p' = Post.city p ∧
  Post.replies p' = Post.replies p ∧
  Post.isActive p' = Post.isActive p ∧
  Post.createdAt p' = Post.createdAt p.

(** What a toggle that ended in [db'] left alone in [db]: the users, the
    posts other than the one named by [postId], and of every post all but
    the reactions. *)
Definition toggle_frame (postId : string) (db db' : DB) : Prop :=
  users db' = users db ∧
  (∀ pid, ObjectId.fromString postId ≠ Some pid →
          posts db' !! pid = posts db !! pid) ∧
  (∀ pid, posts db !! pid = None → posts db' !! pid = None) ∧
  (∀ pid P, posts db !! pid = Some P →
            ∃ P', posts db' !! pid = Some P' ∧ same_but_reactions P P').

(** A request's city and image as the post schema wants them: a city that
    is there, and an image that is absent, blank or an image URL. *)
Definition city_ok (postData : CreatePostRequest.t) : bool :=
  JS.truthy (default "" (CreatePostRequest.city postData)).

Definition image_ok (postData : CreatePostRequest.t) : bool :=
  match CreatePostRequest.image postData with
  | None => true
  | Some url => Schema.image_validator (JS.trim url)
  end.

Definition content_too_long : PostResponse :=
  failure "Post content cannot exceed 280 characters" "Content too long".

Definition content_missing : PostResponse :=
  failure "Post content is required" "Missing post content".

(** The identities of the replies of a post. *)
Definition reply_ids (p : Post.t) : list (option ObjectId.t) :=
  map Reply._id (Post.replies p).

(** The subdocument [addReply] pushes. *)
Definition pushed_reply (now : N) (replyId : ObjectId.t) (reply : ReplyInput)
    : Reply.t :=
  Reply.mk (Some replyId) (JS.trim (ri_content reply)) (ri_author reply) now now.

Module SampleReplies.

(** A post with one reply, by bob. *)
Definition post : Post.t :=
  Post.mk "Great taco spot downtown!" PostType.RECOMMEND None 1%N "Austin"
          [] [] [Reply.mk (Some 7%N) "Where exactly?" 2%N 11 11] true 10 11.

Definition db : DB := mkDB Sample.users (<[100%N := post]> ∅).

Definition answer : ReplyInput := mkReplyInput "  On 6th street. " 1%N.

End SampleReplies.

(** The posts of a feed response. *)
Definition response_posts (r : PostResponse) : list Populated.t :=
  match data r with
  | Some (DataPosts ps) => ps
  | _ => []
  end.

(** The stored post [P] with identity [pid] is among them. *)
Definition in_feed (r : PostResponse) (pid : ObjectId.t) (P : Post.t) : Prop :=
  ∃ pp, pp ∈ response_posts r ∧ Populated._id pp = pid ∧ Populated.doc pp = P.

(** Identity and number of likes of each post of a feed, in order. *)
Definition like_counts (r : PostResponse) : list (ObjectId.t * nat) :=
  map (fun pp => (Populated._id pp, getLikesCount (Populated.doc pp)))
      (response_posts r).

Definition user_not_found : PostResponse :=
  failure "User not found" "User does not exist".

Definition account_deactivated : PostResponse :=
  failure "Account is deactivated" "Account status inactive".

(** A query that asks for nothing but an order. *)
Definition only_sorted (q : PostQueryParams.t) : Prop :=
  PostQueryParams.postType q = None ∧ PostQueryParams.author q = None ∧
  PostQueryParams.city q = None ∧ PostQueryParams.search q = None.

Module SampleFeed.

(** A matcher for the sample runs: the pattern, taken literally, occurs in
    the text, letter case aside. *)
Fixpoint contains (p s : string) : bool :=
  String.prefix p s ||
  match s with
  | EmptyString => false
  | String _ s' => contains p s'
  end.

Definition regexTest (pattern text : string) : bool :=
  contains (JS.lowerCase pattern) (JS.lowerCase text).

(** A server for the sample runs: it refuses a pattern with an opening
    parenthesis and takes every other pattern literally. *)
Definition regexCompile (pattern : string) : Exn + (string → bool) :=
  if contains "(" pattern then inl (MongoServerError 51091)
  else inr (regexTest pattern).

(** The taco post has one like, by carol; the fair post, created later,
    has two, by alice and bob. *)
Definition db : DB :=
  mkDB Sample.users
    (<[100%N := Sample.post "Great taco spot downtown!" "Austin" [9%N] [] 10]>
       (<[101%N := Sample.post "Street fair on Sunday" "Austin" [1%N; 2%N] [] 20]> ∅)).

Definition mostLiked : PostQueryParams.t :=
  PostQueryParams.mk None None None (Some "mostLiked") None.

Definition newest : PostQueryParams.t :=
  PostQueryParams.mk None None None None None.

(** Posts of two cities, and dave, a new account without a city yet. *)
Definition two_cities : DB :=
  mkDB (<[10%N := Sample.user "dave" "" true]> Sample.users)
    (<[100%N := Sample.post "Great taco spot downtown!" "Austin" [] [] 10]>
       (<[102%N := Sample.post "Snow on the pass" "Denver" [] [] 30]> ∅)).

Definition dave : string := "00000000000000000000000a".

End SampleFeed.

(** The visibility of C7 as the specification words it: every active post
    of the user's stored city is in the user's home feed, asked without
    any filter. *)
Definition home_feed_as_specified
    (regexCompile : string → Exn + (string → bool)) (db : DB)
    (userId : string) : Prop :=
  ∀ uid user pid P,
    ObjectId.fromString userId = Some uid →
    users db !! uid = Some user → User.isActive user = true →
    posts db !! pid = Some P → Post.isActive P = true →
    Post.city P = User.city user →
    in_feed (getUserCityFeed regexCompile userId SampleFeed.newest db).1 pid P.

Module SampleCity.

(** Bob stores his city with a space on either side, then posts from that
    same city. *)
Definition profile : UpdateProfileRequest.t :=
  UpdateProfileRequest.mk "Bob" "Doe" " Austin " None.

Definition request : CreatePostRequest.t :=
  CreatePostRequest.mk "Great taco spot downtown!" "recommend" None
                       (Some " Austin ").

Definition db0 : DB := mkDB Sample.users ∅.
Definition db1 : DB := (updateUserProfile 5 Sample.bob profile db0).2.
Definition db2 : DB := (createPost 10 100 Sample.bob request db1).2.

End SampleCity.

(** * Further vocabulary *)

(** A post passes the validators of its schema, as every post that [save]
    wrote does: content of 1 to 280 characters, an image URL or none, a
    city, and replies of 1 to 280 characters. *)
Definition post_valid (p : Post.t) : Prop :=
  Schema.errors (mkDoc 0%N p None) = [].

#[global] Instance post_valid_dec p : Decision (post_valid p).
Proof. unfold post_valid. apply _. Defined.

(** Every stored post passes the validators of its schema. *)
Definition posts_valid (db : DB) : Prop :=
  map_Forall (fun _ p => post_valid p) (posts db).

#[global] Instance posts_valid_dec db : Decision (posts_valid db).
Proof. unfold posts_valid. apply _. Defined.

(** How a toggle with result [r] answers when it does not go through;
    [inactive] is the message for an inactive post. *)
Definition toggle_failure_table (inactive : string) (r : PostResponse * DB)
    (postId userId : string) (db : DB) : Prop :=
  (success r.1 = false → r.2 = db) ∧
  (postId = "" ∨ userId = "" →
     r.1 = failure "Post ID and User ID are required" "Missing required parameters") ∧
  (postId ≠ "" → userId ≠ "" → ObjectId.fromString postId = None →
     r.1 = failure "Invalid post ID format" "Invalid ObjectId") ∧
  (∀ pid, userId ≠ "" → ObjectId.fromString postId = Some pid →
     posts db !! pid = None →
     r.1 = failure "Post not found" "Post does not exist") ∧
  (∀ pid p, userId ≠ "" → ObjectId.fromString postId = Some pid →
     posts db !! pid = Some p → Post.isActive p = false →
     r.1 = failure inactive "Post inactive") ∧
  (∀ pid p, userId ≠ "" → ObjectId.fromString postId = Some pid →
     posts db !! pid = Some p → Post.isActive p = true →
     ObjectId.fromString userId = None → r.1 = internal_error) ∧
  (success r.1 = true →
     ∃ pid u p, ObjectId.fromString postId = Some pid ∧
       ObjectId.fromString userId = Some u ∧
       posts db !! pid = Some p ∧ Post.isActive p = true) ∧
  (∀ pid u p, ObjectId.fromString postId = Some pid →
     ObjectId.fromString userId = Some u →
     posts db !! pid = Some p → Post.isActive p = true → post_valid p →
     success r.1 = true).

(** How [createPost] with result [r] answers when a check of the service
    stops it, in the order of the checks. *)
Definition create_failure_table (r : PostResponse * DB) (userId : string)
    (postData : CreatePostRequest.t) (db : DB) : Prop :=
  (success r.1 = false → r.2 = db) ∧
  (userId = "" → r.1 = failure "User ID is required" "Missing user ID") ∧
  (userId ≠ "" → ObjectId.fromString userId = None → r.1 = internal_error) ∧
  (∀ uid, ObjectId.fromString userId = Some uid → users db !! uid = None →
     r.1 = user_not_found) ∧
  (∀ uid user, ObjectId.fromString userId = Some uid →
     users db !! uid = Some user → User.isActive user = false →
     r.1 = account_deactivated) ∧
  (∀ uid user, ObjectId.fromString userId = Some uid →
     users db !! uid = Some user → User.isActive user = true →
     JS.trim (CreatePostRequest.content postData) = "" →
     r.1 = content_missing) ∧
  (∀ uid user, ObjectId.fromString userId = Some uid →
     users db !! uid = Some user → User.isActive user = true →
     JS.trim (CreatePostRequest.content postData) ≠ "" →
     PostType.ofString (CreatePostRequest.postType postData) = None →
     r.1 = failure "Valid post type is required" "Invalid post type") ∧
  (∀ uid user ty, ObjectId.fromString userId = Some uid →
     users db !! uid = Some user → User.isActive user = true →
     PostType.ofString (CreatePostRequest.postType postData) = Some ty →
     (280 < String.length (JS.trim (CreatePostRequest.content postData)))%nat →
     r.1 = content_too_long).

(** The post a successful [createPost] stores. *)
Definition fresh_post (now : N) (uid : ObjectId.t) (ty : PostType.t)
    (postData : CreatePostRequest.t) (P : Post.t) : Prop :=
  Post.author P = uid ∧ Post.postType P = ty ∧
  Post.content P = JS.trim (CreatePostRequest.content postData) ∧
  Some (Post.city P) = CreatePostRequest.city postData ∧
  Post.likes P = [] ∧ Post.dislikes P = [] ∧ Post.replies P = [] ∧
  Post.isActive P = true ∧ Post.createdAt P = now ∧ Post.updatedAt P = now.

(** The comparison of two sort keys in a direction. *)
Definition directed (dir : Z) (a b : option N) : comparison :=
  if (dir <? 0)%Z then CompOpp (compare_key a b) else compare_key a b.

(** Newest first, oldest first, and the order [mostLiked] gives: by the
    largest ObjectId among the likes (a post without likes last), then
    newest first. *)
Definition newest_first (a b : Populated.t) : Prop :=
  (Post.createdAt (Populated.doc b) ≤ Post.createdAt (Populated.doc a))%N.

Definition oldest_first (a b : Populated.t) : Prop :=
  (Post.createdAt (Populated.doc a) ≤ Post.createdAt (Populated.doc b))%N.

Definition largest_liker_first (a b : Populated.t) : Prop :=
  let ka := array_max (Post.likes (Populated.doc a)) in
  let kb := array_max (Post.likes (Populated.doc b)) in
  compare_key kb ka = Lt ∨
  (ka = kb ∧
   (Post.createdAt (Populated.doc b) ≤ Post.createdAt (Populated.doc a))%N).

(** What holds of every feed response [r] computed over [db]: nothing was
    written; every post of the feed is a stored post under its own [_id],
    and an active one; no post comes twice; each carries one (possibly
    missing) author per reply. *)
Definition feed_sound (r : PostResponse * DB) (db : DB) : Prop :=
  r.2 = db ∧
  NoDup (map Populated._id (response_posts r.1)) ∧
  ∀ pp, pp ∈ response_posts r.1 →
    posts db !! Populated._id pp = Some (Populated.doc pp) ∧
    Post.isActive (Populated.doc pp) = true ∧
    (List.length <$> Populated.replyAuthors pp)
      = Some (List.length (Post.replies (Populated.doc pp))).

(** The whole selection of [getPaginatedPosts], sorted and populated. *)
Definition paginated_all (selects : Post.t → bool) (sortBy : string) (db : DB)
    : list Populated.t :=
  map (fun d => populate_replies db (populate_author db d.1 d.2))
      (Query_sort (sort_of sortBy)
                  (filter (fun d => selects d.2) (map_to_list (posts db)))).

(** The posts of one page, none when the call throws. *)
Definition page_posts (selects : Post.t → bool) (skip_error : N) (limit : N)
    (sortBy : string) (db : DB) (page : N) : list Populated.t :=
  match getPaginatedPosts selects skip_error page limit sortBy db with
  | (inr (ps, _), _) => ps
  | (inl _, _) => []
  end.

(** Two versions of a user that differ at most in the post counter and
    the update time. *)
Definition same_but_count (u u' : User.t) : Prop :=
  User.email u' = User.email u ∧ User.password u' = User.password u ∧
  User.firstName u' = User.firstName u ∧ User.lastName u' = User.lastName u ∧
  User.city u' = User.city u ∧ User.bio u' = User.bio u ∧
  User.isVerified u' = User.isVerified u ∧ User.isActive u' = User.isActive u ∧
  User.userStatus u' = User.userStatus u ∧ User.createdAt u' = User.createdAt u.

(** The stored paths of a user pass their validators: an email the
    pattern accepts, names of at most 50 characters and a bio of at most
    160. *)
Definition stored_paths_valid (email_match : string → bool) (u : User.t) : Prop :=
  User.email u ≠ "" ∧ email_match (User.email u) = true ∧
  (String.length (User.firstName u) ≤ 50)%nat ∧
  (String.length (User.lastName u) ≤ 50)%nat ∧
  (String.length (User.bio u) ≤ 160)%nat.

Module SampleUsers.

(** Stand-ins for the two library functions of the user model. *)
Definition bcrypt_hash (s : string) : string := "$2a$12$" +:+ s.
Definition email_match (s : string) : bool := SampleFeed.contains "@" s.

(** Erin has three posts to her name. *)
Definition erin : User.t :=
  User.mk "erin@cityscope.test" "$2a$12$hash" "Erin" "" "Austin" "" false 3
          true 1 5 5.

Definition db : DB := mkDB (<[12%N := erin]> Sample.users) ∅.

End SampleUsers.

(** The bio [updateUserProfile] stores: the trimmed bio of the request
    when it has one that is not empty, the stored bio (trimmed by the
    setter of the path) otherwise. *)
Definition updated_bio (profileData : UpdateProfileRequest.t) (u : User.t)
    : string :=
  match UpdateProfileRequest.bio profileData with
  | Some bio => if JS.truthy bio then JS.trim bio else JS.trim (User.bio u)
  | None => JS.trim (User.bio u)
  end.

(** What a successful [updateUserProfile] made of the stored user [u]. *)
Definition profile_updated (now : N) (profileData : UpdateProfileRequest.t)
    (u u' : User.t) : Prop :=
  User.firstName u' = JS.trim (UpdateProfileRequest.firstName profileData) ∧
  (1 ≤ String.length (User.firstName u') ≤ 50)%nat ∧
  User.lastName u' = JS.trim (UpdateProfileRequest.lastName profileData) ∧
  (1 ≤ String.length (User.lastName u') ≤ 50)%nat ∧
  User.city u' = UpdateProfileRequest.city profileData ∧
  User.bio u' = updated_bio profileData u ∧
  (String.length (User.bio u') ≤ 160)%nat ∧
  User.updatedAt u' = now ∧
  User.email u' = User.email u ∧ User.password u' = User.password u ∧
  User.postsCount u' = User.postsCount u ∧ User.isActive u' = true ∧
  User.isVerified u' = User.isVerified u ∧
  User.userStatus u' = User.userStatus u ∧
  User.createdAt u' = User.createdAt u.

(** The checks [updateUserProfile] makes on the request, before it looks
    for the user; [None] when they all pass. *)
Definition profile_request_error (profileData : UpdateProfileRequest.t)
    : option ProfileResponse.t :=
  let first := JS.trim (UpdateProfileRequest.firstName profileData) in
  let last := JS.trim (UpdateProfileRequest.lastName profileData) in
  if negb (JS.truthy first) || negb (JS.truthy last)
  then Some (profile_failure "First name and last name are required"
                             "Missing required fields")
  else if (50 <? String.length first)%nat
  then Some (profile_failure "First name cannot exceed 50 characters"
                             "Invalid first name length")
  else if (50 <? String.length last)%nat
  then Some (profile_failure "Last name cannot exceed 50 characters"
                             "Invalid last name length")
  else match UpdateProfileRequest.bio profileData with
       | Some bio =>
           if JS.truthy bio && (160 <? String.length (JS.trim bio))%nat
           then Some (profile_failure "Bio cannot exceed 160 characters"
                                      "Invalid bio length")
           else None
       | None => None
       end.

(** The user id is the id of an existing, active user: what the auth
    middleware lets through. *)
Definition active_user (db : DB) (userId : string) : Prop :=
  ∃ uid u, ObjectId.fromString userId = Some uid ∧
           users db !! uid = Some u ∧ User.isActive u = true.

(** The post id is the id of an existing, active post. *)
Definition active_post (db : DB) (postId : string) : Prop :=
  ∃ pid p, ObjectId.fromString postId = Some pid ∧
           posts db !! pid = Some p ∧ Post.isActive p = true.

(** The answers of a toggle route with reply [r], for a caller that is
    authenticated as [userId], an ObjectId. *)
Definition toggle_http_table (r : Reply * DB) (service : PostResponse * DB)
    (postId : string) (db : DB) : Prop :=
  (status r.1 = 200%N ∨ status r.1 = 400%N ∨ status r.1 = 404%N) ∧
  (status r.1 = 200%N ↔ active_post db postId) ∧
  (status r.1 = 400%N ↔ ObjectId.fromString postId = None) ∧
  (status r.1 ≠ 200%N → r.2 = db) ∧
  (postId ≠ "" → body r.1 = service.1 ∧ r.2 = service.2).







(** The request the create route hands to the service, for the image URL
    the upload gave (none without a file). *)
Definition create_request (reqBody : CreateBody.t) (imageUrl : option string)
    : CreatePostRequest.t :=
  CreatePostRequest.mk (JS.trim (default "" (CreateBody.content reqBody)))
    (default "" (CreateBody.postType reqBody)) imageUrl (CreateBody.city reqBody).

(** The post type a create body names, if it is one of the four. *)
Definition create_type (reqBody : CreateBody.t) : option PostType.t :=
  CreateBody.postType reqBody ≫= PostType.ofString.

(** The text fields pass the checks of the route: content that trims to
    1..280 characters and one of the four post types. *)
Definition create_body_ok (reqBody : CreateBody.t) : Prop :=
  JS.truthy_trim (CreateBody.content reqBody) = true ∧
  (String.length (JS.trim (default "" (CreateBody.content reqBody))) ≤ 280)%nat ∧
  ∃ s ty, CreateBody.postType reqBody = Some s ∧ PostType.ofString s = Some ty.

(** The image URL of a request: none without a file, the URL of a
    successful upload with one; [None] here when the upload failed. *)
Definition uploaded_url {Buffer} (upload : Buffer → UploadResult)
    (file : option Buffer) : option (option string) :=
  match file with
  | None => Some None
  | Some f => if upload_success (upload f)
              then Some (upload_secureUrl (upload f)) else None
  end.

Module SampleUpload.

(** An image host that stores every file under one URL. *)
Definition upload (_ : unit) : UploadResult :=
  mkUpload true (Some "https://res.cloudinary.com/demo/tacos.jpg") None.

Definition body : CreateBody.t :=
  CreateBody.mk (Some "  Tacos on 6th street ") (Some "recommend") (Some "Austin").

End SampleUpload.

(** * Properties *)

(** ** Strings and identifiers *)

Lemma truthy_length (s : string) : JS.truthy s = true ↔ String.length s ≠ 0%nat.
Proof. destruct s; simpl; split; (congruence || lia || done). Qed.

Lemma fromString_truthy (s : string) (oid : ObjectId.t) :
  ObjectId.fromString s = Some oid → JS.truthy s = true.
Proof.
  unfold ObjectId.fromString.
  destruct (Nat.eqb_spec (String.length s) 24) as [E|]; [|done].
  intros _. apply truthy_length. lia.
Qed.

(** ** Lists *)

Lemma filter_none {A} (P : A → Prop) `{∀ x, Decision (P x)} (l : list A) :
  (∀ x, x ∈ l → ¬ P x) → filter P l = [].
Proof.
  induction l as [|a l IH]; intros Hl; [done|].
  rewrite filter_cons_False; [|apply Hl; left].
  apply IH. intros x Hx. apply Hl. by right.
Qed.

Lemma filter_all {A} (P : A → Prop) `{∀ x, Decision (P x)} (l : list A) :
  (∀ x, x ∈ l → P x) → filter P l = l.
Proof.
  induction l as [|a l IH]; intros Hl; [done|].
  rewrite filter_cons_True; [|apply Hl; left].
  f_equal. apply IH. intros x Hx. apply Hl. by right.
Qed.

(** ** Saving a loaded document *)

Lemma preSave_likes (p : Post.t) :
  Post.likes (preSave p) = filter (fun id => id ∉ Post.dislikes p) (Post.likes p).
Proof.
  destruct p; simpl. apply list_filter_iff. intros x.
  by rewrite elem_of_list_to_set.
Qed.

Lemma preSave_dislikes (p : Post.t) :
  Post.dislikes (preSave p) = filter (fun id => id ∉ Post.likes p) (Post.dislikes p).
Proof.
  destruct p; simpl. apply list_filter_iff. intros x.
  by rewrite elem_of_list_to_set.
Qed.

Lemma save_loaded (now : N) (i : ObjectId.t) (p p0 : Post.t) (db : DB) :
  Schema.errors (mkDoc i p (Some p0)) = [] →
  save now (mkDoc i p (Some p0)) db =
    (inr (mkDoc i (preSave (stamp now p p0)) (Some (preSave (stamp now p p0)))),
     mkDB (users db) (<[i := preSave (stamp now p p0)]> (posts db))).
Proof.
  intros He. unfold save, validate. rewrite He.
  unfold timestamps, isModified, stamp. simpl.
  by destruct (bool_decide (p ≠ p0)).
Qed.

(** ** One toggle *)

Lemma errors_same_replies (i : ObjectId.t) (p p0 : Post.t) :
  Post.replies p = Post.replies p0 → Schema.errors (mkDoc i p (Some p0)) = [].
Proof.
  intros E. unfold Schema.errors. simpl. rewrite E.
  rewrite filter_none; [done|]. intros x Hx Hn. by apply Hn.
Qed.

Ltac run_service :=
  unfold try_catch, mbind, M_bind, bind, mret, M_ret, ret, throw; simpl.

Lemma togglePostLike_spec now postId userId pid u p db :
  ObjectId.fromString postId = Some pid →
  ObjectId.fromString userId = Some u →
  posts db !! pid = Some p →
  Post.isActive p = true →
  togglePostLike now postId userId db =
    let p' := toggled_like now u p in
    let db' := mkDB (users db) (<[pid := p']> (posts db)) in
    (mkResponse true
       (if bool_decide (u ∈ Post.likes p) then "Post unliked successfully"
        else "Post liked successfully")
       (Some (DataPost (Some (populate_author db' pid p')))) None,
     db').
Proof.
  intros Hp Hu Hl Ha. unfold togglePostLike.
  rewrite (fromString_truthy _ _ Hp), (fromString_truthy _ _ Hu).
  unfold Post_findById, ObjectId_new, Post_findById_populate.
  rewrite Hp, Hu. run_service. rewrite Hl. simpl. rewrite Ha. simpl.
  unfold isLikedBy, toggled_like.
  destruct (bool_decide (u ∈ Post.likes p)) eqn:E.
  - unfold removeLike. simpl. rewrite save_loaded by (by apply errors_same_replies; destruct p).
    simpl. by rewrite lookup_insert_eq.
  - unfold addLike. simpl.
    replace (bool_decide (u ∈ Post.likes (Post.with_dislikes
       (filter (λ id : ObjectId.t, id ≠ u) (Post.dislikes p)) p))) with false
      by (by destruct p).
    rewrite save_loaded by (by apply errors_same_replies; destruct p).
    simpl. rewrite lookup_insert_eq. simpl.
    by destruct p.
Qed.

Lemma togglePostDislike_spec now postId userId pid u p db :
  ObjectId.fromString postId = Some pid →
  ObjectId.fromString userId = Some u →
  posts db !! pid = Some p →
  Post.isActive p = true →
  togglePostDislike now postId userId db =
    let p' := toggled_dislike now u p in
    let db' := mkDB (users db) (<[pid := p']> (posts db)) in
    (mkResponse true
       (if bool_decide (u ∈ Post.dislikes p) then "Post undisliked successfully"
        else "Post disliked successfully")
       (Some (DataPost (Some (populate_author db' pid p')))) None,
     db').
Proof.
  intros Hp Hu Hl Ha. unfold togglePostDislike.
  rewrite (fromString_truthy _ _ Hp), (fromString_truthy _ _ Hu).
  unfold Post_findById, ObjectId_new, Post_findById_populate.
  rewrite Hp, Hu. run_service. rewrite Hl. simpl. rewrite Ha. simpl.
  unfold isDislikedBy, toggled_dislike.
  destruct (bool_decide (u ∈ Post.dislikes p)) eqn:E.
  - unfold removeDislike. simpl.
    rewrite save_loaded by (by apply errors_same_replies; destruct p).
    simpl. by rewrite lookup_insert_eq.
  - unfold addDislike. simpl.
    replace (bool_decide (u ∈ Post.dislikes (Post.with_likes
       (filter (λ id : ObjectId.t, id ≠ u) (Post.likes p)) p))) with false
      by (by destruct p).
    rewrite save_loaded by (by apply errors_same_replies; destruct p).
    simpl. rewrite lookup_insert_eq. simpl.
    by destruct p.
Qed.

(** Whatever the arguments, a toggle leaves the database as it is or
    replaces one stored post by its toggled version. *)
Lemma togglePostLike_db now postId userId db :
  (togglePostLike now postId userId db).2 = db ∨
  ∃ pid u p, ObjectId.fromString postId = Some pid ∧
    posts db !! pid = Some p ∧
    (togglePostLike now postId userId db).2 =
      mkDB (users db) (<[pid := toggled_like now u p]> (posts db)).
Proof.
  destruct (ObjectId.fromString postId) as [pid|] eqn:Hp; cycle 1.
  { left. unfold togglePostLike, Post_findById. rewrite Hp. run_service.
    by destruct (negb (JS.truthy postId) || negb (JS.truthy userId)). }
  destruct (ObjectId.fromString userId) as [u|] eqn:Hu; cycle 1.
  { left. unfold togglePostLike, Post_findById, ObjectId_new. rewrite Hp, Hu.
    run_service.
    destruct (negb (JS.truthy postId) || negb (JS.truthy userId)); [done|].
    destruct (posts db !! pid) as [p|]; [|done]. simpl.
    by destruct (Post.isActive p). }
  destruct (posts db !! pid) as [p|] eqn:Hl; cycle 1.
  { left. unfold togglePostLike, Post_findById.
    rewrite (fromString_truthy _ _ Hp), (fromString_truthy _ _ Hu), Hp.
    run_service. by rewrite Hl. }
  destruct (Post.isActive p) eqn:Ha; cycle 1.
  { left. unfold togglePostLike, Post_findById.
    rewrite (fromString_truthy _ _ Hp), (fromString_truthy _ _ Hu), Hp.
    run_service. rewrite Hl. simpl. by rewrite Ha. }
  right. exists pid, u, p. split; [done|]. split; [done|].
  by rewrite (togglePostLike_spec now postId userId pid u p db).
Qed.

Lemma togglePostDislike_db now postId userId db :
  (togglePostDislike now postId userId db).2 = db ∨
  ∃ pid u p, ObjectId.fromString postId = Some pid ∧
    posts db !! pid = Some p ∧
    (togglePostDislike now postId userId db).2 =
      mkDB (users db) (<[pid := toggled_dislike now u p]> (posts db)).
Proof.
  destruct (ObjectId.fromString postId) as [pid|] eqn:Hp; cycle 1.
  { left. unfold togglePostDislike, Post_findById. rewrite Hp. run_service.
    by destruct (negb (JS.truthy postId) || negb (JS.truthy userId)). }
  destruct (ObjectId.fromString userId) as [u|] eqn:Hu; cycle 1.
  { left. unfold togglePostDislike, Post_findById, ObjectId_new. rewrite Hp, Hu.
    run_service.
    destruct (negb (JS.truthy postId) || negb (JS.truthy userId)); [done|].
    destruct (posts db !! pid) as [p|]; [|done]. simpl.
    by destruct (Post.isActive p). }
  destruct (posts db !! pid) as [p|] eqn:Hl; cycle 1.
  { left. unfold togglePostDislike, Post_findById.
    rewrite (fromString_truthy _ _ Hp), (fromString_truthy _ _ Hu), Hp.
    run_service. by rewrite Hl. }
  destruct (Post.isActive p) eqn:Ha; cycle 1.
  { left. unfold togglePostDislike, Post_findById.
    rewrite (fromString_truthy _ _ Hp), (fromString_truthy _ _ Hu), Hp.
    run_service. rewrite Hl. simpl. by rewrite Ha. }
  right. exists pid, u, p. split; [done|]. split; [done|].
  by rewrite (togglePostDislike_spec now postId userId pid u p db).
Qed.

(** ** What a save keeps and what it changes *)

Lemma stamp_likes now p p0 : Post.likes (stamp now p p0) = Post.likes p.
Proof. unfold stamp. by destruct (bool_decide _), p. Qed.

Lemma stamp_dislikes now p p0 : Post.dislikes (stamp now p p0) = Post.dislikes p.
Proof. unfold stamp. by destruct (bool_decide _), p. Qed.

Lemma toggled_like_likes now u p :
  Post.likes (toggled_like now u p) =
    if bool_decide (u ∈ Post.likes p)
    then filter (fun id => id ∉ Post.dislikes p)
                (filter (fun id => id ≠ u) (Post.likes p))
    else filter (fun id => id ∉ filter (fun id => id ≠ u) (Post.dislikes p))
                (Post.likes p ++ [u]).
Proof.
  unfold toggled_like. rewrite preSave_likes, stamp_likes, stamp_dislikes.
  by destruct (bool_decide (u ∈ Post.likes p)), p.
Qed.

Lemma toggled_like_dislikes now u p :
  Post.dislikes (toggled_like now u p) =
    if bool_decide (u ∈ Post.likes p)
    then filter (fun id => id ∉ filter (fun id => id ≠ u) (Post.likes p))
                (Post.dislikes p)
    else filter (fun id => id ∉ Post.likes p ++ [u])
                (filter (fun id => id ≠ u) (Post.dislikes p)).
Proof.
  unfold toggled_like. rewrite preSave_dislikes, stamp_likes, stamp_dislikes.
  by destruct (bool_decide (u ∈ Post.likes p)), p.
Qed.

Lemma toggled_dislike_dislikes now u p :
  Post.dislikes (toggled_dislike now u p) =
    if bool_decide (u ∈ Post.dislikes p)
    then filter (fun id => id ∉ Post.likes p)
                (filter (fun id => id ≠ u) (Post.dislikes p))
    else filter (fun id => id ∉ filter (fun id => id ≠ u) (Post.likes p))
                (Post.dislikes p ++ [u]).
Proof.
  unfold toggled_dislike. rewrite preSave_dislikes, stamp_likes, stamp_dislikes.
  by destruct (bool_decide (u ∈ Post.dislikes p)), p.
Qed.

Lemma toggled_dislike_likes now u p :
  Post.likes (toggled_dislike now u p) =
    if bool_decide (u ∈ Post.dislikes p)
    then filter (fun id => id ∉ filter (fun id => id ≠ u) (Post.dislikes p))
                (Post.likes p)
    else filter (fun id => id ∉ Post.dislikes p ++ [u])
                (filter (fun id => id ≠ u) (Post.likes p)).
Proof.
  unfold toggled_dislike. rewrite preSave_likes, stamp_likes, stamp_dislikes.
  by destruct (bool_decide (u ∈ Post.dislikes p)), p.
Qed.

(** ** The like/dislike invariant *)

Lemma NoDup_snoc (l : list N) (u : N) : NoDup l → u ∉ l → NoDup (l ++ [u]).
Proof.
  intros Hl Hu. apply NoDup_app. split; [done|]. split.
  - intros x Hx ->%list_elem_of_singleton. done.
  - apply NoDup_singleton.
Qed.

Lemma preSave_inv (p : Post.t) :
  NoDup (Post.likes p) → NoDup (Post.dislikes p) → post_inv (preSave p).
Proof.
  intros HL HD. unfold post_inv.
  rewrite preSave_likes, preSave_dislikes.
  split; [by apply NoDup_filter|]. split; [by apply NoDup_filter|].
  apply Forall_forall. intros x [_ Hx]%list_elem_of_filter [Hn _]%list_elem_of_filter.
  done.
Qed.

Lemma toggled_like_inv now u p : post_inv p → post_inv (toggled_like now u p).
Proof.
  intros (HL & HD & _). unfold toggled_like. apply preSave_inv.
  - rewrite stamp_likes. destruct (bool_decide (u ∈ Post.likes p)) eqn:E.
    + destruct p; simpl in *. by apply NoDup_filter.
    + apply bool_decide_eq_false in E. destruct p; simpl in *.
      by apply NoDup_snoc.
  - rewrite stamp_dislikes. destruct (bool_decide (u ∈ Post.likes p));
      destruct p; simpl in *; [done|by apply NoDup_filter].
Qed.

Lemma toggled_dislike_inv now u p : post_inv p → post_inv (toggled_dislike now u p).
Proof.
  intros (HL & HD & _). unfold toggled_dislike. apply preSave_inv.
  - rewrite stamp_likes. destruct (bool_decide (u ∈ Post.dislikes p));
      destruct p; simpl in *; [done|by apply NoDup_filter].
  - rewrite stamp_dislikes. destruct (bool_decide (u ∈ Post.dislikes p)) eqn:E.
    + destruct p; simpl in *. by apply NoDup_filter.
    + apply bool_decide_eq_false in E. destruct p; simpl in *.
      by apply NoDup_snoc.
Qed.

(** ** Trimming *)

Lemma trimStart_clean (s : string) : starts_clean (JS.trimStart s).
Proof.
  induction s as [|c s IH]; simpl; [done|].
  by destruct (JS.isWhiteSpace c) eqn:E; simpl.
Qed.

Lemma trimStart_id (s : string) : starts_clean s → JS.trimStart s = s.
Proof. destruct s as [|c s]; simpl; [done|]. by intros ->. Qed.

Lemma trimEnd_clean (s : string) : starts_clean s → starts_clean (JS.trimEnd s).
Proof.
  destruct s as [|c s]; simpl; [done|]. intros Hc.
  destruct (JS.trimEnd s); simpl; [by rewrite Hc|done].
Qed.

Lemma trimEnd_idem (s : string) : JS.trimEnd (JS.trimEnd s) = JS.trimEnd s.
Proof.
  induction s as [|c s IH]; simpl; [done|].
  destruct (JS.trimEnd s) as [|c' t] eqn:E.
  - destruct (JS.isWhiteSpace c) eqn:Ec; simpl; [done|]. by rewrite Ec.
  - simpl in *. by rewrite IH.
Qed.

Lemma trim_idem (s : string) : JS.trim (JS.trim s) = JS.trim s.
Proof.
  unfold JS.trim.
  rewrite (trimStart_id (JS.trimEnd (JS.trimStart s)))
    by apply trimEnd_clean, trimStart_clean.
  apply trimEnd_idem.
Qed.

(** ** Creating a post *)

Lemma createPost_guarded now newId userId postData uid user ty db :
  ObjectId.fromString userId = Some uid →
  users db !! uid = Some user →
  User.isActive user = true →
  JS.truthy (JS.trim (CreatePostRequest.content postData)) = true →
  PostType.ofString (CreatePostRequest.postType postData) = Some ty →
  (String.length (JS.trim (CreatePostRequest.content postData)) ≤ 280)%nat →
  createPost now newId userId postData db =
    match Schema.errors (created_doc newId uid ty postData) with
    | [] =>
        match posts db !! newId with
        | Some _ => (internal_error, db)
        | None =>
            let p := created_post now newId uid ty postData in
            let db' := mkDB (users db) (<[newId := p]> (posts db)) in
            (mkResponse true "Post created successfully"
               (Some (DataPost (Some (populate_author db' newId p)))) None,
             db')
        end
    | es => (failure "Validation failed" (String.concat ", " es), db)
    end.
Proof.
  intros Hu Hl Ha Hc Hty Hlen. unfold createPost.
  rewrite (fromString_truthy _ _ Hu). unfold User_findById, ObjectId_new.
  rewrite Hu. run_service. rewrite Hl, Ha, Hc, Hty. simpl.
  destruct (Nat.ltb_spec 280 (String.length (JS.trim (CreatePostRequest.content postData))));
    [lia|].
  unfold save, validate. fold (created_doc newId uid ty postData).
  destruct (Schema.errors (created_doc newId uid ty postData)) as [|e es]; [|done].
  simpl. unfold write. run_service.
  destruct (posts db !! newId) as [q|] eqn:Hq; simpl.
  - done.
  - by rewrite lookup_insert_eq.
Qed.

Lemma createPost_db now newId userId postData db :
  (createPost now newId userId postData db).2 = db ∨
  ∃ uid ty, posts db !! newId = None ∧
    (createPost now newId userId postData db).1 =
      mkResponse true "Post created successfully"
        (Some (DataPost (Some (populate_author
           (createPost now newId userId postData db).2 newId
           (created_post now newId uid ty postData))))) None ∧
    (createPost now newId userId postData db).2 =
      mkDB (users db)
           (<[newId := created_post now newId uid ty postData]> (posts db)).
Proof.
  destruct (ObjectId.fromString userId) as [uid|] eqn:Hu; cycle 1.
  { left. unfold createPost, User_findById. rewrite Hu. run_service.
    by destruct (negb (JS.truthy userId)). }
  destruct (users db !! uid) as [user|] eqn:Hl; cycle 1.
  { left. unfold createPost, User_findById.
    rewrite (fromString_truthy _ _ Hu), Hu. run_service. by rewrite Hl. }
  destruct (User.isActive user) eqn:Ha; cycle 1.
  { left. unfold createPost, User_findById.
    rewrite (fromString_truthy _ _ Hu), Hu. run_service. by rewrite Hl, Ha. }
  destruct (JS.truthy (JS.trim (CreatePostRequest.content postData))) eqn:Hc; cycle 1.
  { left. unfold createPost, User_findById.
    rewrite (fromString_truthy _ _ Hu), Hu. run_service. by rewrite Hl, Ha, Hc. }
  destruct (PostType.ofString (CreatePostRequest.postType postData)) as [ty|] eqn:Hty;
    cycle 1.
  { left. unfold createPost, User_findById.
    rewrite (fromString_truthy _ _ Hu), Hu. run_service. by rewrite Hl, Ha, Hc, Hty. }
  destruct (Nat.ltb_spec 280 (String.length (JS.trim (CreatePostRequest.content postData))))
    as [Hlen|Hlen].
  { left. unfold createPost, User_findById.
    rewrite (fromString_truthy _ _ Hu), Hu. run_service. rewrite Hl, Ha, Hc, Hty.
    simpl. apply Nat.ltb_lt in Hlen. by rewrite Hlen. }
  rewrite (createPost_guarded now newId userId postData uid user ty db) by done.
  destruct (Schema.errors (created_doc newId uid ty postData)); [|by left].
  destruct (posts db !! newId) eqn:Hq; [by left|].
  right. by exists uid, ty.
Qed.

Lemma createPost_users now newId userId postData db :
  users (createPost now newId userId postData db).2 = users db.
Proof.
  destruct (createPost_db now newId userId postData db) as [->|(uid & ty & _ & _ & ->)];
    done.
Qed.

Lemma created_post_lists now newId uid ty postData :
  Post.likes (created_post now newId uid ty postData) = [] ∧
  Post.dislikes (created_post now newId uid ty postData) = [].
Proof. done. Qed.

(** ** Sequences of operations *)

Lemma step_inv (db : DB) (op : Op) : db_inv db → db_inv (step db op).
Proof.
  intros Hdb. destruct op as [now newId userId postData|now postId userId|now postId userId];
    simpl.
  - destruct (createPost_db now newId userId postData db)
      as [->|(uid & ty & _ & _ & ->)]; [done|].
    apply map_Forall_insert_2; [|done].
    unfold created_post. apply preSave_inv; simpl; apply NoDup_nil_2.
  - destruct (togglePostLike_db now postId userId db)
      as [->|(pid & u & p & _ & Hp & ->)]; [done|].
    apply map_Forall_insert_2; [|done].
    apply toggled_like_inv. by apply (Hdb pid).
  - destruct (togglePostDislike_db now postId userId db)
      as [->|(pid & u & p & _ & Hp & ->)]; [done|].
    apply map_Forall_insert_2; [|done].
    apply toggled_dislike_inv. by apply (Hdb pid).
Qed.

Lemma run_inv (ops : list Op) (db : DB) : db_inv db → db_inv (run ops db).
Proof.
  revert db. induction ops as [|op ops IH]; intros db Hdb; [done|].
  simpl. apply IH. by apply step_inv.
Qed.

(** C1. Whatever sequence of post creations, like toggles and dislike
    toggles runs (by whichever users, on whichever posts, succeeding or
    not), from a database whose posts have duplicate-free and disjoint
    like and dislike lists (as every created post has), no user is in both
    lists of a post afterwards and no list holds a user twice. *)
Theorem likes_dislikes_exclusive (ops : list Op) (db : DB) :
  db_inv db →
  ∀ (pid : ObjectId.t) (P : Post.t) (U : ObjectId.t),
    posts (run ops db) !! pid = Some P →
    ¬ (U ∈ Post.likes P ∧ U ∈ Post.dislikes P) ∧
    NoDup (Post.likes P) ∧ NoDup (Post.dislikes P).
Proof.
  intros Hdb pid P U HP.
  destruct (run_inv ops db Hdb pid P HP) as (HL & HD & Hx).
  split; [|done]. intros [Hl Hd].
  rewrite Forall_forall in Hx. by apply (Hx U).
Qed.

Lemma likes_dislikes_exclusive_witness :
  db_inv Sample.db_fresh ∧
  ∀ (pid : ObjectId.t) (P : Post.t) (U : ObjectId.t),
    posts (run [OpLike 11 Sample.taco Sample.bob;
                OpDislike 12 Sample.taco Sample.bob;
                OpLike 13 Sample.taco Sample.carol] Sample.db_fresh) !! pid = Some P →
    ¬ (U ∈ Post.likes P ∧ U ∈ Post.dislikes P) ∧
    NoDup (Post.likes P) ∧ NoDup (Post.dislikes P).
Proof.
  assert (H : db_inv Sample.db_fresh)
    by (apply (bool_decide_unpack (db_inv Sample.db_fresh)); vm_compute; exact I).
  split; [exact H|]. apply likes_dislikes_exclusive. exact H.
Defined.

(** ** One toggle, on a post that satisfies the invariant *)

Lemma length_filter_ne (l : list N) (u : N) :
  NoDup l → u ∈ l → S (List.length (filter (fun id => id ≠ u) l)) = List.length l.
Proof.
  induction l as [|a l IH]; intros Hnd Hu; [by apply elem_of_nil in Hu|].
  apply NoDup_cons in Hnd as [Ha Hnd].
  destruct (decide (a = u)) as [->|Hne].
  - rewrite filter_cons_False by (intros H; by apply H).
    rewrite filter_all; [done|]. intros x Hx ->. done.
  - rewrite filter_cons_True by done. simpl. f_equal. apply IH; [done|].
    apply elem_of_cons in Hu as [->|Hu]; done.
Qed.

Lemma flip_shape (u : N) (L D : list N) :
  NoDup L → NoDup D → Forall (fun id => id ∉ D) L →
  ∀ L' D',
    L' = (if bool_decide (u ∈ L)
          then filter (fun id => id ∉ D) (filter (fun id => id ≠ u) L)
          else filter (fun id => id ∉ filter (fun id => id ≠ u) D) (L ++ [u])) →
    D' = (if bool_decide (u ∈ L)
          then filter (fun id => id ∉ filter (fun id => id ≠ u) L) D
          else filter (fun id => id ∉ L ++ [u]) (filter (fun id => id ≠ u) D)) →
    one_flip u L D L' D'.
Proof.
  intros HL HD Hx L' D' EL ED. rewrite Forall_forall in Hx.
  assert (HL' : L' = if bool_decide (u ∈ L)
                     then filter (fun id => id ≠ u) L else L ++ [u]).
  { rewrite EL. case_bool_decide.
    - apply filter_all. intros x [_ Hin]%list_elem_of_filter. by apply Hx.
    - apply filter_all. intros x [Hin| ->%list_elem_of_singleton]%elem_of_app.
      + intros [_ Hd]%list_elem_of_filter. by apply (Hx x).
      + intros [Hne _]%list_elem_of_filter. done. }
  assert (HD' : D' = filter (fun id => id ≠ u) D).
  { rewrite ED. case_bool_decide.
    - rewrite (filter_all (fun id => id ≠ u) D).
      + apply filter_all. intros x Hd [_ Hl]%list_elem_of_filter. by apply (Hx x).
      + intros x Hd ->. by apply (Hx u).
    - apply filter_all. intros x [Hne Hd]%list_elem_of_filter.
      intros [Hl| ->%list_elem_of_singleton]%elem_of_app; [|done].
      by apply (Hx x). }
  clear EL ED. unfold one_flip. split; [done|]. split; [done|].
  subst L' D'. split; [|split; [|split]].
  - case_bool_decide.
    + rewrite list_elem_of_filter. intuition congruence.
    + rewrite elem_of_app, list_elem_of_singleton. intuition congruence.
  - rewrite list_elem_of_filter. intuition congruence.
  - intros V HV. split.
    + case_bool_decide.
      * rewrite list_elem_of_filter. intuition congruence.
      * rewrite elem_of_app, list_elem_of_singleton. intuition congruence.
    + rewrite list_elem_of_filter. intuition congruence.
  - intros Hd. assert (Hu : u ∉ L) by (intros Hl; by apply (Hx u)).
    rewrite bool_decide_eq_false_2 by done. split.
    + rewrite length_app. simpl. apply Nat.add_1_r.
    + by apply length_filter_ne.
Qed.

Lemma toggled_like_flip now u p :
  post_inv p →
  one_flip u (Post.likes p) (Post.dislikes p)
           (Post.likes (toggled_like now u p))
           (Post.dislikes (toggled_like now u p)).
Proof.
  intros (HL & HD & Hx). apply flip_shape; try done.
  - apply toggled_like_likes.
  - apply toggled_like_dislikes.
Qed.

Lemma toggled_dislike_flip now u p :
  post_inv p →
  one_flip u (Post.dislikes p) (Post.likes p)
           (Post.dislikes (toggled_dislike now u p))
           (Post.likes (toggled_dislike now u p)).
Proof.
  intros (HL & HD & Hx). apply flip_shape; try done.
  - rewrite Forall_forall in *. intros x Hd Hl. by apply (Hx x).
  - apply toggled_dislike_dislikes.
  - apply toggled_dislike_likes.
Qed.

(** C2. On an existing active post whose lists satisfy the invariant, one
    call of the like toggle by [U] takes [U] out of the dislikes, flips its
    membership in the likes and moves nobody else; the response is a
    success that carries the stored post and says "liked" exactly when [U]
    is in the likes afterwards.  The dislike toggle does the same with the
    two lists exchanged. *)
Theorem toggle_single_call now postId userId pid U P db :
  ObjectId.fromString postId = Some pid →
  ObjectId.fromString userId = Some U →
  posts db !! pid = Some P →
  Post.isActive P = true →
  post_inv P →
  (∃ P', posts (togglePostLike now postId userId db).2 !! pid = Some P' ∧
     one_flip U (Post.likes P) (Post.dislikes P) (Post.likes P') (Post.dislikes P') ∧
     (togglePostLike now postId userId db).1 =
       mkResponse true
         (if bool_decide (U ∈ Post.likes P') then "Post liked successfully"
          else "Post unliked successfully")
         (Some (DataPost (Some (populate_author
            (togglePostLike now postId userId db).2 pid P')))) None) ∧
  (∃ P', posts (togglePostDislike now postId userId db).2 !! pid = Some P' ∧
     one_flip U (Post.dislikes P) (Post.likes P) (Post.dislikes P') (Post.likes P') ∧
     (togglePostDislike now postId userId db).1 =
       mkResponse true
         (if bool_decide (U ∈ Post.dislikes P') then "Post disliked successfully"
          else "Post undisliked successfully")
         (Some (DataPost (Some (populate_author
            (togglePostDislike now postId userId db).2 pid P')))) None).
Proof.
  intros Hp Hu Hl Ha Hinv. split.
  - rewrite (togglePostLike_spec now postId userId pid U P db) by done.
    exists (toggled_like now U P). simpl.
    split; [by rewrite lookup_insert_eq|].
    pose proof (toggled_like_flip now U P Hinv) as Hf.
    split; [done|]. destruct Hf as (_ & _ & Hm & _).
    rewrite (bool_decide_ext _ _ Hm), bool_decide_not.
    by destruct (bool_decide _).
  - rewrite (togglePostDislike_spec now postId userId pid U P db) by done.
    exists (toggled_dislike now U P). simpl.
    split; [by rewrite lookup_insert_eq|].
    pose proof (toggled_dislike_flip now U P Hinv) as Hf.
    split; [done|]. destruct Hf as (_ & _ & Hm & _).
    rewrite (bool_decide_ext _ _ Hm), bool_decide_not.
    by destruct (bool_decide _).
Qed.

Lemma toggle_single_call_witness :
  let P := Sample.post "Great taco spot downtown!" "Austin" [] [2%N] 10 in
  let db := Sample.db_disliked in
  (∃ P', posts (togglePostLike 11 Sample.taco Sample.bob db).2 !! 100%N = Some P' ∧
     one_flip 2%N (Post.likes P) (Post.dislikes P) (Post.likes P') (Post.dislikes P') ∧
     (togglePostLike 11 Sample.taco Sample.bob db).1 =
       mkResponse true
         (if bool_decide (2%N ∈ Post.likes P') then "Post liked successfully"
          else "Post unliked successfully")
         (Some (DataPost (Some (populate_author
            (togglePostLike 11 Sample.taco Sample.bob db).2 100%N P')))) None) ∧
  (∃ P', posts (togglePostDislike 11 Sample.taco Sample.bob db).2 !! 100%N = Some P' ∧
     one_flip 2%N (Post.dislikes P) (Post.likes P) (Post.dislikes P') (Post.likes P') ∧
     (togglePostDislike 11 Sample.taco Sample.bob db).1 =
       mkResponse true
         (if bool_decide (2%N ∈ Post.dislikes P') then "Post disliked successfully"
          else "Post undisliked successfully")
         (Some (DataPost (Some (populate_author
            (togglePostDislike 11 Sample.taco Sample.bob db).2 100%N P')))) None).
Proof.
  apply (toggle_single_call 11 Sample.taco Sample.bob 100%N 2%N
           (Sample.post "Great taco spot downtown!" "Austin" [] [2%N] 10)
           Sample.db_disliked).
  - reflexivity.
  - reflexivity.
  - vm_compute. reflexivity.
  - reflexivity.
  - apply (bool_decide_unpack (post_inv _)). vm_compute. exact I.
Defined.

(** ** Repeated toggles *)

Lemma toggled_like_member now u p :
  (u ∈ Post.likes (toggled_like now u p) ↔ u ∉ Post.likes p) ∧
  (u ∈ Post.dislikes (toggled_like now u p) ↔
     u ∈ Post.likes p ∧ u ∈ Post.dislikes p).
Proof.
  rewrite toggled_like_likes, toggled_like_dislikes. case_bool_decide.
  - repeat (rewrite list_elem_of_filter; simpl). intuition congruence.
  - repeat (rewrite ?list_elem_of_filter, ?elem_of_app, ?list_elem_of_singleton;
            simpl).
    intuition congruence.
Qed.

Lemma toggled_like_active now u p :
  Post.isActive (toggled_like now u p) = Post.isActive p.
Proof.
  unfold toggled_like, stamp.
  by destruct (bool_decide (u ∈ Post.likes p)), (bool_decide (_ ≠ p)), p.
Qed.

(** After [n] like toggles by [u] the post is still there and active, the
    like membership of [u] has flipped [n] times, and [u] is among the
    dislikes only if it was in both lists and nothing was toggled, or if it
    was in both lists and [n = 1].  *)
Lemma like_times_member (nows : list N) postId userId pid u p db :
  ObjectId.fromString postId = Some pid →
  ObjectId.fromString userId = Some u →
  posts db !! pid = Some p →
  Post.isActive p = true →
  ∃ p', posts (run (like_times nows postId userId) db) !! pid = Some p' ∧
    Post.isActive p' = true ∧
    (u ∈ Post.likes p' ↔
       if Nat.even (List.length nows) then u ∈ Post.likes p else u ∉ Post.likes p) ∧
    (u ∈ Post.dislikes p' →
       u ∈ Post.dislikes p ∧ (nows = [] ∨ u ∈ Post.likes p)).
Proof.
  intros Hp Hu. revert db p.
  induction nows as [|now nows IH]; intros db p Hl Ha.
  - exists p. simpl. intuition.
  - unfold like_times, run in *. cbn [map foldl step].
    rewrite (togglePostLike_spec now postId userId pid u p db) by done.
    cbn [snd].
    destruct (IH (mkDB (users db) (<[pid := toggled_like now u p]> (posts db)))
                 (toggled_like now u p)) as (p' & Hl' & Ha' & HL & HD).
    { simpl. apply lookup_insert_eq. }
    { by rewrite toggled_like_active. }
    exists p'. split; [done|]. split; [done|].
    destruct (toggled_like_member now u p) as [Hm1 Hm2]. split.
    + rewrite HL. rewrite length_cons, Nat.even_succ, <- Nat.negb_even.
      destruct (Nat.even (List.length nows)); simpl; [done|].
      rewrite Hm1. destruct (decide (u ∈ Post.likes p)); intuition.
    + intros Hd. destruct (HD Hd) as [Hd1 _]. apply Hm2 in Hd1. intuition.
Qed.

(** C3, as the code has it.  After an odd number of like toggles by [U]
    on an existing active post, [U] is in the likes and not in the dislikes
    provided [U] was not in the likes before the first call; after an even
    number, the like and dislike membership of [U] is what it was before
    the first call provided [U] was not in the dislikes then. *)
Theorem toggle_like_parity (nows : list N) postId userId pid U P db :
  ObjectId.fromString postId = Some pid →
  ObjectId.fromString userId = Some U →
  posts db !! pid = Some P →
  Post.isActive P = true →
  ∃ P', posts (run (like_times nows postId userId) db) !! pid = Some P' ∧
    (Nat.Odd (List.length nows) → U ∉ Post.likes P →
       U ∈ Post.likes P' ∧ U ∉ Post.dislikes P') ∧
    (Nat.Even (List.length nows) → U ∉ Post.dislikes P →
       (U ∈ Post.likes P' ↔ U ∈ Post.likes P) ∧
       (U ∈ Post.dislikes P' ↔ U ∈ Post.dislikes P)).
Proof.
  intros Hp Hu Hl Ha.
  destruct (like_times_member nows postId userId pid U P db Hp Hu Hl Ha)
    as (P' & Hl' & _ & HL & HD).
  exists P'. split; [done|]. split.
  - intros Hodd Hn. apply Nat.odd_spec in Hodd.
    rewrite <- Nat.negb_odd, Hodd in HL. simpl in HL. split; [by apply HL|].
    intros Hd. destruct (HD Hd) as [_ [->|Hin]]; [|done].
    discriminate Hodd.
  - intros Heven Hn. apply Nat.even_spec in Heven. rewrite Heven in HL.
    split; [done|]. split; [|done]. intros Hd. by destruct (HD Hd).
Qed.

Lemma toggle_like_parity_witness :
  ∃ P', posts (run (like_times [11; 12; 13]%N Sample.taco Sample.bob)
                   Sample.db_disliked) !! 100%N = Some P' ∧
    (Nat.Odd 3 → 2%N ∉ ([] : list N) → 2%N ∈ Post.likes P' ∧ 2%N ∉ Post.dislikes P') ∧
    (Nat.Even 3 → 2%N ∉ [2%N] →
       (2%N ∈ Post.likes P' ↔ 2%N ∈ ([] : list N)) ∧
       (2%N ∈ Post.dislikes P' ↔ 2%N ∈ [2%N])).
Proof.
  apply (toggle_like_parity [11; 12; 13]%N Sample.taco Sample.bob 100%N 2%N
           (Sample.post "Great taco spot downtown!" "Austin" [] [2%N] 10)
           Sample.db_disliked).
  - reflexivity.
  - reflexivity.
  - vm_compute. reflexivity.
  - reflexivity.
Defined.

(** C3 as the specification words it fails twice: one toggle by a user
    who already likes the post takes the like away (odd, not liked), and
    two toggles by a user who disliked it leave the dislike removed (even,
    membership not restored). *)
Lemma toggle_like_parity_as_specified_fails :
  ¬ parity_as_specified Sample.db_liked Sample.taco Sample.bob [11%N] ∧
  ¬ parity_as_specified Sample.db_disliked Sample.taco Sample.bob [11%N; 12%N].
Proof.
  split; intros H.
  - destruct (H 100%N 2%N
                (Sample.post "Great taco spot downtown!" "Austin" [2%N] [] 10)
                (Post.mk "Great taco spot downtown!" PostType.RECOMMEND None 1%N
                         "Austin" [] [] [] true 10 11)) as [Hodd _].
    + reflexivity.
    + reflexivity.
    + vm_compute. reflexivity.
    + vm_compute. reflexivity.
    + destruct Hodd as [Hin _]; [by exists 0%nat|].
      simpl in Hin. by apply elem_of_nil in Hin.
  - destruct (H 100%N 2%N
                (Sample.post "Great taco spot downtown!" "Austin" [] [2%N] 10)
                (Post.mk "Great taco spot downtown!" PostType.RECOMMEND None 1%N
                         "Austin" [] [] [] true 10 12)) as [_ Heven].
    + reflexivity.
    + reflexivity.
    + vm_compute. reflexivity.
    + vm_compute. reflexivity.
    + destruct Heven as [_ [_ Hback]]; [by exists 1%nat|].
      simpl in Hback. specialize (Hback ltac:(left)).
      by apply elem_of_nil in Hback.
Qed.

(** ** What a toggle leaves alone *)

Lemma same_but_reactions_refl p : same_but_reactions p p.
Proof. by repeat split. Qed.

Lemma preSave_frame p : same_but_reactions p (preSave p).
Proof. by destruct p. Qed.

Lemma stamp_frame now p q p0 :
  same_but_reactions p0 q → same_but_reactions p0 (stamp now q p).
Proof. unfold stamp. by destruct (bool_decide (q ≠ p)), q. Qed.

Lemma same_but_reactions_trans p q r :
  same_but_reactions p q → same_but_reactions q r → same_but_reactions p r.
Proof. unfold same_but_reactions. intuition congruence. Qed.

Lemma toggled_like_frame now u p : same_but_reactions p (toggled_like now u p).
Proof.
  unfold toggled_like. eapply same_but_reactions_trans; [|apply preSave_frame].
  apply stamp_frame. by destruct (bool_decide (u ∈ Post.likes p)), p.
Qed.

Lemma toggled_dislike_frame now u p : same_but_reactions p (toggled_dislike now u p).
Proof.
  unfold toggled_dislike. eapply same_but_reactions_trans; [|apply preSave_frame].
  apply stamp_frame. by destruct (bool_decide (u ∈ Post.dislikes p)), p.
Qed.

Lemma insert_frame postId pid p p' db :
  ObjectId.fromString postId = Some pid →
  posts db !! pid = Some p →
  same_but_reactions p p' →
  toggle_frame postId db (mkDB (users db) (<[pid := p']> (posts db))).
Proof.
  intros Hp Hl Hf. unfold toggle_frame. simpl. split; [done|]. split; [|split].
  - intros k Hk. apply lookup_insert_ne. congruence.
  - intros k Hk. apply lookup_insert_None. split; [done|].
    intros E. subst. congruence.
  - intros k P HP. destruct (decide (pid = k)) as [->|Hne].
    + exists p'. rewrite lookup_insert_eq. split; [done|].
      rewrite Hl in HP. by injection HP as <-.
    + exists P. rewrite lookup_insert_ne by done. split; [done|].
      apply same_but_reactions_refl.
Qed.

Lemma toggle_frame_refl postId db : toggle_frame postId db db.
Proof.
  unfold toggle_frame. repeat split; try done.
  intros pid P HP. exists P. split; [done|]. apply same_but_reactions_refl.
Qed.

(** C9. A like toggle and a dislike toggle, whatever their arguments and
    whether they succeed or not, leave the users as they are, touch no post
    but the one they name, create and delete no post, and change of that
    post nothing but the likes, the dislikes and the update time. *)
Theorem toggle_changes_reactions_only now postId userId db :
  toggle_frame postId db (togglePostLike now postId userId db).2 ∧
  toggle_frame postId db (togglePostDislike now postId userId db).2.
Proof.
  split.
  - destruct (togglePostLike_db now postId userId db)
      as [->|(pid & u & p & Hp & Hl & ->)]; [apply toggle_frame_refl|].
    apply (insert_frame postId pid p); [done..|]. apply toggled_like_frame.
  - destruct (togglePostDislike_db now postId userId db)
      as [->|(pid & u & p & Hp & Hl & ->)]; [apply toggle_frame_refl|].
    apply (insert_frame postId pid p); [done..|]. apply toggled_dislike_frame.
Qed.

(** ** Creating a post: the author's counter *)

(** C5, at one input.  Alice, an active user with no post yet, creates a
    valid post: the call succeeds, the post is stored with her as author,
    and her [postsCount] is still 0.  The post hook of [save] asks
    [this.isNew] after Mongoose has cleared it, so its increment never
    runs. *)
Theorem createPost_postsCount_not_incremented :
  let r := createPost 20 101 Sample.alice Sample.taco_request Sample.db_fresh in
  success r.1 = true ∧
  Post.author <$> posts r.2 !! 101%N = Some 1%N ∧
  User.postsCount <$> users Sample.db_fresh !! 1%N = Some 0%Z ∧
  User.postsCount <$> users r.2 !! 1%N = Some 0%Z.
Proof. vm_compute. repeat split. Qed.

(** ** Creating a post: the content *)

Lemma truthy_nonempty (s : string) : JS.truthy s = true → (1 ≤ String.length s)%nat.
Proof. destruct s; simpl; [done|lia]. Qed.

Lemma truthy_empty (s : string) : String.length s = 0%nat → JS.truthy s = false.
Proof. by destruct s. Qed.

Lemma created_doc_errors newId uid ty postData :
  JS.truthy (JS.trim (CreatePostRequest.content postData)) = true →
  (String.length (JS.trim (CreatePostRequest.content postData)) ≤ 280)%nat →
  Schema.post_content_error (Post.content (this (created_doc newId uid ty postData)))
    = None ∧
  (city_ok postData = true → image_ok postData = true →
   Schema.errors (created_doc newId uid ty postData) = []).
Proof.
  intros Hc Hlen.
  assert (Hce : Schema.post_content_error
                  (JS.trim (JS.trim (CreatePostRequest.content postData))) = None).
  { rewrite trim_idem. unfold Schema.post_content_error, Schema.content_error.
    rewrite Hc. simpl.
    destruct (Nat.ltb_spec 280 (String.length (JS.trim (CreatePostRequest.content postData))));
      [lia|].
    apply truthy_nonempty in Hc.
    destruct (Nat.ltb_spec (String.length (JS.trim (CreatePostRequest.content postData))) 1);
      [lia|done]. }
  split; [done|]. intros Hcity Himg.
  unfold Schema.errors, created_doc, Post_new. simpl. rewrite Hce. simpl.
  assert (Hie : Schema.image_error
            (JS.trim <$> JS.or_undefined (JS.trim <$> CreatePostRequest.image postData))
            = None).
  { unfold image_ok in Himg. destruct (CreatePostRequest.image postData) as [url|];
      simpl; [|done].
    destruct (JS.truthy (JS.trim url)); simpl; [|done].
    by rewrite trim_idem, Himg. }
  rewrite Hie. simpl.
  unfold city_ok in Hcity. destruct (CreatePostRequest.city postData) as [c|];
    simpl in *; [|done].
  rewrite Hcity. simpl. unfold Schema.city_error. by rewrite Hcity.
Qed.

(** C6. For an existing active author and a recognised post type:
    content that trims to more than 280 characters (281 among them) is
    refused with the length response and nothing is written; content that
    trims to nothing is refused as missing; content that trims to 1..280
    characters (280 among them) passes both the service's checks and the
    schema's validators of [content], and with a city, a well-formed or
    absent image and an unused [_id] the post is stored with the trimmed
    content; so a success means a trimmed length in 1..280. *)
Theorem createPost_content_length now newId userId postData uid user ty db :
  ObjectId.fromString userId = Some uid →
  users db !! uid = Some user →
  User.isActive user = true →
  PostType.ofString (CreatePostRequest.postType postData) = Some ty →
  let n := String.length (JS.trim (CreatePostRequest.content postData)) in
  let r := createPost now newId userId postData db in
  ((280 < n)%nat → r = (content_too_long, db)) ∧
  (n = 0%nat → r = (content_missing, db)) ∧
  ((1 ≤ n ≤ 280)%nat →
     r.1 ≠ content_too_long ∧ r.1 ≠ content_missing ∧
     Schema.post_content_error
       (Post.content (this (created_doc newId uid ty postData))) = None ∧
     (city_ok postData = true → image_ok postData = true →
      posts db !! newId = None →
      success r.1 = true ∧
      ∃ P, posts r.2 !! newId = Some P ∧
           Post.content P = JS.trim (CreatePostRequest.content postData))) ∧
  (success r.1 = true → (1 ≤ n ≤ 280)%nat).
Proof.
  intros Hu Hl Ha Hty n r.
  assert (Hlong : (280 < n)%nat → r = (content_too_long, db)).
  { intros Hn. subst r n.
    assert (Hc : JS.truthy (JS.trim (CreatePostRequest.content postData)) = true)
      by (apply truthy_length; lia).
    unfold createPost, User_findById.
    rewrite (fromString_truthy _ _ Hu), Hu. run_service. rewrite Hl, Ha, Hc, Hty.
    simpl. apply Nat.ltb_lt in Hn. by rewrite Hn. }
  assert (Hnone : n = 0%nat → r = (content_missing, db)).
  { intros Hn. subst r n. unfold createPost, User_findById.
    rewrite (fromString_truthy _ _ Hu), Hu. run_service. rewrite Hl, Ha.
    by rewrite (truthy_empty _ Hn). }
  split; [done|]. split; [done|]. split.
  - intros [Hlo Hhi].
    assert (Hc : JS.truthy (JS.trim (CreatePostRequest.content postData)) = true)
      by (apply truthy_length; fold n; lia).
    destruct (created_doc_errors newId uid ty postData Hc Hhi) as [Hce Herr].
    assert (Hr : r = createPost now newId userId postData db) by done.
    rewrite (createPost_guarded now newId userId postData uid user ty db) in Hr
      by done.
    split; [|split; [|split; [done|]]].
    + rewrite Hr. destruct (Schema.errors _); [|done].
      by destruct (posts db !! newId).
    + rewrite Hr. destruct (Schema.errors _); [|done].
      by destruct (posts db !! newId).
    + intros Hcity Himg Hfresh. rewrite Hr, (Herr Hcity Himg), Hfresh. simpl.
      split; [done|]. eexists. rewrite lookup_insert_eq. split; [done|].
      simpl. apply trim_idem.
  - intros Hs. destruct (Nat.le_gt_cases n 280) as [Hle|Hgt].
    + split; [|done]. destruct n as [|n'] eqn:En; [|lia].
      rewrite Hnone in Hs by done. discriminate Hs.
    + rewrite Hlong in Hs by done. discriminate Hs.
Qed.

Lemma createPost_content_length_witness :
  let postData :=
    CreatePostRequest.mk (JS.repeat "a" 280) "recommend"
                         (Some "https://img.test/taco.png") (Some "Austin") in
  let n := String.length (JS.trim (CreatePostRequest.content postData)) in
  let r := createPost 20 101 Sample.alice postData Sample.db_fresh in
  ((280 < n)%nat → r = (content_too_long, Sample.db_fresh)) ∧
  (n = 0%nat → r = (content_missing, Sample.db_fresh)) ∧
  ((1 ≤ n ≤ 280)%nat →
     r.1 ≠ content_too_long ∧ r.1 ≠ content_missing ∧
     Schema.post_content_error
       (Post.content (this (created_doc 101 1 PostType.RECOMMEND postData))) = None ∧
     (city_ok postData = true → image_ok postData = true →
      posts Sample.db_fresh !! 101%N = None →
      success r.1 = true ∧
      ∃ P, posts r.2 !! 101%N = Some P ∧
           Post.content P = JS.trim (CreatePostRequest.content postData))) ∧
  (success r.1 = true → (1 ≤ n ≤ 280)%nat).
Proof.
  apply (createPost_content_length 20 101 Sample.alice
           (CreatePostRequest.mk (JS.repeat "a" 280) "recommend"
              (Some "https://img.test/taco.png") (Some "Austin"))
           1%N (Sample.user "alice" "Austin" true) PostType.RECOMMEND
           Sample.db_fresh).
  - reflexivity.
  - vm_compute. reflexivity.
  - reflexivity.
  - reflexivity.
Defined.

(** ** Replies *)

Lemma stamp_replies now p p0 : Post.replies (stamp now p p0) = Post.replies p.
Proof. unfold stamp. by destruct (bool_decide _), p. Qed.

Lemma preSave_replies p : Post.replies (preSave p) = Post.replies p.
Proof. by destruct p. Qed.

Lemma reply_content_ok (s : string) :
  (1 ≤ String.length s ≤ 280)%nat → Schema.reply_content_error s = None.
Proof.
  intros [Hlo Hhi]. unfold Schema.reply_content_error, Schema.content_error.
  assert (Ht : JS.truthy s = true) by (apply truthy_length; lia).
  rewrite Ht. simpl.
  destruct (Nat.ltb_spec 280 (String.length s)); [lia|].
  destruct (Nat.ltb_spec (String.length s) 1); [lia|done].
Qed.

Lemma filter_remove_pushed (rid : ObjectId.t) (l : list Reply.t) (r : Reply.t) :
  Some rid ∉ map Reply._id l → Reply._id r = Some rid →
  filter (fun reply => Reply._id reply ≠ Some rid) (l ++ [r]) = l.
Proof.
  intros Hfresh Hr. rewrite filter_app.
  rewrite (filter_all _ l).
  - rewrite (filter_none _ [r]); [apply app_nil_r|].
    intros x ->%list_elem_of_singleton Hx. done.
  - intros x Hx Hid. apply Hfresh. rewrite <- Hid. by apply list_elem_of_fmap_2.
Qed.

Lemma addReply_run now rid reply i p db :
  Schema.reply_content_error (JS.trim (ri_content reply)) = None →
  let p1 := preSave (stamp now
              (Post.with_replies (Post.replies p ++ [pushed_reply now rid reply]) p) p) in
  addReply now rid reply (mkDoc i p (Some p)) db =
    (inr (mkDoc i p1 (Some p1)), mkDB (users db) (<[i := p1]> (posts db))).
Proof.
  intros Hok p1. unfold addReply. simpl. fold (pushed_reply now rid reply).
  apply save_loaded. unfold Schema.errors. simpl.
  rewrite filter_app.
  rewrite (filter_none _ (Post.replies p)) by (intros x Hx Hn; by apply Hn).
  simpl. rewrite filter_cons. destruct (decide _); simpl; [|done].
  by rewrite Hok.
Qed.

Lemma removeReply_run now rid i p p0 db :
  (∀ r, r ∈ Post.replies p → r ∈ Post.replies p0) →
  let p1 := preSave (stamp now
              (Post.with_replies
                 (filter (fun reply => Reply._id reply ≠ Some rid) (Post.replies p)) p)
              p0) in
  removeReply now rid (mkDoc i p (Some p0)) db =
    (inr (mkDoc i p1 (Some p1)), mkDB (users db) (<[i := p1]> (posts db))).
Proof.
  intros Hsub p1. unfold removeReply. simpl.
  apply save_loaded. unfold Schema.errors. simpl.
  rewrite filter_none; [done|].
  intros x [_ Hx]%list_elem_of_filter Hn. apply Hn. by apply Hsub.
Qed.

(** C8. On a loaded post, [addReply] with content that trims to 1..280
    characters and an identity no reply of the post has goes through and
    appends one reply with that identity; [removeReply] with the same
    identity right after goes through too and leaves, in memory and in the
    database, the reply sequence of before (the same sequence, hence the
    same multiset).  [removeReply] with an identity that no reply has goes
    through and leaves the sequence as it is. *)
Theorem addReply_removeReply now now' rid reply i p db :
  Some rid ∉ reply_ids p →
  (1 ≤ String.length (JS.trim (ri_content reply)) ≤ 280)%nat →
  (∃ d1 db1 d2 db2,
     addReply now rid reply (mkDoc i p (Some p)) db = (inr d1, db1) ∧
     Post.replies (this d1) = Post.replies p ++ [pushed_reply now rid reply] ∧
     removeReply now' rid d1 db1 = (inr d2, db2) ∧
     Post.replies (this d2) = Post.replies p ∧
     Post.replies <$> posts db2 !! i = Some (Post.replies p)) ∧
  (∃ d2 db2,
     removeReply now' rid (mkDoc i p (Some p)) db = (inr d2, db2) ∧
     Post.replies (this d2) = Post.replies p ∧
     Post.replies <$> posts db2 !! i = Some (Post.replies p)).
Proof.
  intros Hfresh Hlen.
  assert (Hkeep : filter (fun reply => Reply._id reply ≠ Some rid) (Post.replies p)
                  = Post.replies p).
  { apply filter_all. intros x Hx Hid. apply Hfresh. rewrite <- Hid.
    by apply list_elem_of_fmap_2. }
  assert (Hback : filter (fun reply => Reply._id reply ≠ Some rid)
                    (Post.replies p ++ [pushed_reply now rid reply]) = Post.replies p)
    by (by apply filter_remove_pushed).
  split.
  - set (p1 := preSave (stamp now
       (Post.with_replies (Post.replies p ++ [pushed_reply now rid reply]) p) p)).
    assert (E1 : Post.replies p1 = Post.replies p ++ [pushed_reply now rid reply]).
    { unfold p1. rewrite preSave_replies, stamp_replies. by destruct p. }
    set (p2 := preSave (stamp now'
       (Post.with_replies
          (filter (fun reply => Reply._id reply ≠ Some rid) (Post.replies p1)) p1) p1)).
    assert (E2 : Post.replies p2 = Post.replies p).
    { unfold p2. rewrite preSave_replies, stamp_replies, E1.
      destruct p1; simpl. apply Hback. }
    exists (mkDoc i p1 (Some p1)), (mkDB (users db) (<[i := p1]> (posts db))),
           (mkDoc i p2 (Some p2)),
           (mkDB (users db) (<[i := p2]> (<[i := p1]> (posts db)))).
    split; [apply addReply_run; by apply reply_content_ok|].
    split; [done|]. split; [by apply removeReply_run|]. split; [done|].
    cbn [posts]. by rewrite lookup_insert_eq, <- E2.
  - set (p2 := preSave (stamp now'
       (Post.with_replies
          (filter (fun reply => Reply._id reply ≠ Some rid) (Post.replies p)) p) p)).
    assert (E2 : Post.replies p2 = Post.replies p).
    { unfold p2. rewrite preSave_replies, stamp_replies.
      destruct p; simpl in *. apply Hkeep. }
    exists (mkDoc i p2 (Some p2)), (mkDB (users db) (<[i := p2]> (posts db))).
    split; [by apply removeReply_run|]. split; [done|].
    cbn [posts]. by rewrite lookup_insert_eq, <- E2.
Qed.

Lemma addReply_removeReply_witness :
  let p := SampleReplies.post in
  let d := mkDoc 100 p (Some p) in
  (∃ d1 db1 d2 db2,
     addReply 12 8 SampleReplies.answer d SampleReplies.db = (inr d1, db1) ∧
     Post.replies (this d1)
       = Post.replies p ++ [pushed_reply 12 8 SampleReplies.answer] ∧
     removeReply 13 8 d1 db1 = (inr d2, db2) ∧
     Post.replies (this d2) = Post.replies p ∧
     Post.replies <$> posts db2 !! 100%N = Some (Post.replies p)) ∧
  (∃ d2 db2,
     removeReply 13 8 d SampleReplies.db = (inr d2, db2) ∧
     Post.replies (this d2) = Post.replies p ∧
     Post.replies <$> posts db2 !! 100%N = Some (Post.replies p)).
Proof.
  apply (addReply_removeReply 12 13 8 SampleReplies.answer 100
           SampleReplies.post SampleReplies.db).
  - apply (bool_decide_unpack (Some 8%N ∉ reply_ids SampleReplies.post)).
    vm_compute. exact I.
  - vm_compute. lia.
Defined.

(** ** Feeds *)

(** C4, at one input.  The taco post has one like and the fair post two;
    the feed sorted by [mostLiked] lists the taco post first.  MongoDB
    orders documents on an array field by an element of the array, the
    largest for a descending sort (here carol's id 9 against bob's id 2),
    not by the array's length. *)
Theorem mostLiked_not_by_like_count (regexCompile : string → Exn + (string → bool)) :
  like_counts (getPostsFeed regexCompile SampleFeed.mostLiked SampleFeed.db).1
    = [(100%N, 1%nat); (101%N, 2%nat)].
Proof. vm_compute. reflexivity. Qed.

Section FeedProperties.

Variable regexCompile : string → Exn + (string → bool).

Lemma matches_regex_error f e P :
  regex_error regexCompile f = Some e → matches regexCompile f P = false.
Proof.
  unfold regex_error, matches, regexTest.
  destruct (Filter.content f) as [pattern|]; [|done].
  destruct (regexCompile pattern); [|done]. intros _. apply andb_false_r.
Qed.

Lemma getPostsFeed_found q f db :
  build_filter q db = (inr f, db) →
  getPostsFeed regexCompile q db =
    match regex_error regexCompile f with
    | Some _ => (internal_error, db)
    | None =>
        (mkResponse true "Posts retrieved successfully"
           (Some (DataPosts
              (map (fun d => populate_replies db (populate_author db d.1 d.2))
                   (Query_sort
                      (sort_of (default "newest" (PostQueryParams.sortBy q)))
                      (selected regexCompile f db)))))
           None, db)
    end.
Proof.
  intros Hf. unfold getPostsFeed, Post_find. run_service. rewrite Hf.
  by destruct (regex_error regexCompile f).
Qed.

Lemma in_feed_found q f db pid P :
  build_filter q db = (inr f, db) →
  in_feed (getPostsFeed regexCompile q db).1 pid P ↔
    posts db !! pid = Some P ∧ matches regexCompile f P = true.
Proof.
  intros Hf. rewrite (getPostsFeed_found q f db Hf).
  destruct (regex_error regexCompile f) as [e|] eqn:He.
  { rewrite (matches_regex_error f e P He).
    unfold in_feed, response_posts. simpl. split.
    - by intros (pp & Hin%elem_of_nil & _).
    - by intros [_ ?]. }
  unfold in_feed, response_posts, selected. simpl. split.
  - intros (pp & Hin & <- & <-).
    apply list_elem_of_fmap in Hin as ([k p] & -> & Hin). simpl.
    unfold Query_sort in Hin. rewrite merge_sort_Permutation in Hin.
    apply list_elem_of_filter in Hin as [Hm Hin]. simpl in Hm.
    apply elem_of_map_to_list in Hin. split; [done|]. by apply Is_true_true.
  - intros [Hl Hm].
    exists (populate_replies db (populate_author db pid P)). split; [|done].
    apply (list_elem_of_fmap_2 (fun d => populate_replies db (populate_author db d.1 d.2))
             _ (pid, P)).
    unfold Query_sort. rewrite merge_sort_Permutation.
    apply list_elem_of_filter. split; [by apply Is_true_true|].
    by apply elem_of_map_to_list.
Qed.

Lemma build_filter_city_only q c db :
  PostQueryParams.postType q = None → PostQueryParams.author q = None →
  PostQueryParams.search q = None →
  build_filter (PostQueryParams.with_city c q) db =
    (inr (Filter.mk true
            (if JS.truthy_trim c then JS.trim <$> c else None) None None None),
     db).
Proof. intros Ht Ha Hs. unfold build_filter. simpl. by rewrite Ht, Ha, Hs. Qed.

Lemma build_filter_blank_city q c db :
  JS.truthy_trim c = false →
  build_filter (PostQueryParams.with_city c q) db =
  build_filter (PostQueryParams.with_city None q) db.
Proof. intros Hc. unfold build_filter. simpl. by rewrite Hc. Qed.

Lemma getPostsFeed_blank_city q c db :
  JS.truthy_trim c = false →
  getPostsFeed regexCompile (PostQueryParams.with_city c q) db =
  getPostsFeed regexCompile (PostQueryParams.with_city None q) db.
Proof.
  intros Hc. unfold getPostsFeed. run_service.
  by rewrite (build_filter_blank_city q c db Hc).
Qed.

Lemma getUserCityFeed_run userId uid q db :
  ObjectId.fromString userId = Some uid →
  getUserCityFeed regexCompile userId q db =
    match users db !! uid with
    | None => (user_not_found, db)
    | Some user =>
        if User.isActive user
        then getPostsFeed regexCompile
               (PostQueryParams.with_city
                  (Some (JS.or_else (PostQueryParams.city q) (User.city user))) q) db
        else (account_deactivated, db)
    end.
Proof.
  intros Hu. unfold getUserCityFeed, User_findById.
  rewrite (fromString_truthy _ _ Hu), Hu. run_service.
  destruct (users db !! uid) as [user|]; [|done]. simpl.
  destruct (User.isActive user); [|done]. simpl. unfold await. simpl.
  by destruct (getPostsFeed regexCompile _ db).
Qed.

End FeedProperties.

Lemma truthy_ne (s : string) : s ≠ "" → JS.truthy s = true.
Proof. by destruct s. Qed.

Lemma truthy_false_iff (s : string) : JS.truthy s = false ↔ s = "".
Proof. by destruct s. Qed.

Lemma truthy_true_iff (s : string) : JS.truthy s = true ↔ s ≠ "".
Proof. by destruct s. Qed.

(** C7. For a user id that is an ObjectId: the home feed of a missing
    user is the not-found response and that of an inactive user the
    deactivated response, whatever the posts are; that of an active user is
    the feed query with the caller's city or, when there is none, the
    user's stored city in its place.  The feed query filters by the city
    trimmed: when the query asks for nothing else, an active post is in the
    user's home feed exactly when its city is the user's stored city
    trimmed, or whatever its city when the stored city is blank.  So for a
    stored city that is not empty and has no white space around it, an
    active post is in the user's home feed exactly when its city is the
    user's. *)
Theorem home_feed_defaults_to_user_city
    (regexCompile : string → Exn + (string → bool)) userId uid q db :
  ObjectId.fromString userId = Some uid →
  let r := getUserCityFeed regexCompile userId q db in
  (users db !! uid = None → r = (user_not_found, db)) ∧
  (∀ user, users db !! uid = Some user → User.isActive user = false →
     r = (account_deactivated, db)) ∧
  (∀ user, users db !! uid = Some user → User.isActive user = true →
     r = getPostsFeed regexCompile
           (PostQueryParams.with_city
              (Some (JS.or_else (PostQueryParams.city q) (User.city user))) q) db ∧
     (PostQueryParams.city q = None →
        r = getPostsFeed regexCompile
              (PostQueryParams.with_city (Some (User.city user)) q) db) ∧
     (only_sorted q →
      ∀ pid P, posts db !! pid = Some P → Post.isActive P = true →
        (in_feed r.1 pid P ↔
           JS.trim (User.city user) = "" ∨
           Post.city P = JS.trim (User.city user))) ∧
     (only_sorted q → User.city user ≠ "" →
      JS.trim (User.city user) = User.city user →
      ∀ pid P, posts db !! pid = Some P → Post.isActive P = true →
        (in_feed r.1 pid P ↔ Post.city P = User.city user))).
Proof.
  intros Hu r. subst r. rewrite (getUserCityFeed_run regexCompile userId uid q db Hu).
  split; [by intros ->|]. split; [by intros user -> ->|].
  intros user -> ->. split; [done|]. split; [by intros ->|].
  assert (Hgen : only_sorted q →
            ∀ pid P, posts db !! pid = Some P → Post.isActive P = true →
              (in_feed (getPostsFeed regexCompile
                          (PostQueryParams.with_city
                             (Some (JS.or_else (PostQueryParams.city q)
                                               (User.city user))) q) db).1 pid P ↔
                 JS.trim (User.city user) = "" ∨
                 Post.city P = JS.trim (User.city user))).
  { intros (Ht & Ha & Hc & Hs) pid P Hl Hact. rewrite Hc. simpl.
    rewrite (in_feed_found regexCompile _ _ db pid P
               (build_filter_city_only q (Some (User.city user)) db Ht Ha Hs)).
    simpl. unfold matches. simpl. rewrite Hact. simpl.
    destruct (JS.truthy (JS.trim (User.city user))) eqn:Tc; simpl.
    - rewrite !andb_true_r, bool_decide_eq_true. apply truthy_true_iff in Tc.
      intuition.
    - apply truthy_false_iff in Tc. intuition. }
  split; [done|].
  intros Hq Hne Htrim pid P Hl Hact.
  rewrite (Hgen Hq pid P Hl Hact), Htrim. intuition.
Qed.

Lemma home_feed_defaults_to_user_city_witness :
  let q := SampleFeed.newest in
  let db := Sample.db_fresh in
  let r := getUserCityFeed SampleFeed.regexCompile Sample.bob q db in
  (users db !! 2%N = None → r = (user_not_found, db)) ∧
  (∀ user, users db !! 2%N = Some user → User.isActive user = false →
     r = (account_deactivated, db)) ∧
  (∀ user, users db !! 2%N = Some user → User.isActive user = true →
     r = getPostsFeed SampleFeed.regexCompile
           (PostQueryParams.with_city
              (Some (JS.or_else (PostQueryParams.city q) (User.city user))) q) db ∧
     (PostQueryParams.city q = None →
        r = getPostsFeed SampleFeed.regexCompile
              (PostQueryParams.with_city (Some (User.city user)) q) db) ∧
     (only_sorted q →
      ∀ pid P, posts db !! pid = Some P → Post.isActive P = true →
        (in_feed r.1 pid P ↔
           JS.trim (User.city user) = "" ∨
           Post.city P = JS.trim (User.city user))) ∧
     (only_sorted q → User.city user ≠ "" →
      JS.trim (User.city user) = User.city user →
      ∀ pid P, posts db !! pid = Some P → Post.isActive P = true →
        (in_feed r.1 pid P ↔ Post.city P = User.city user))).
Proof.
  apply (home_feed_defaults_to_user_city SampleFeed.regexCompile Sample.bob 2%N
           SampleFeed.newest Sample.db_fresh).
  reflexivity.
Defined.

(** C7 as the specification words it fails: bob stores the city
    [" Austin "] in his profile and creates a post with that same city;
    both are stored as given, the feed filters by ["Austin"], and bob's
    home feed is empty: the post of his own city is not in it. *)
Lemma home_feed_as_specified_fails :
  ProfileResponse.success
    (updateUserProfile 5 Sample.bob SampleCity.profile SampleCity.db0).1 = true ∧
  success (createPost 10 100 Sample.bob SampleCity.request SampleCity.db1).1 = true ∧
  (getUserCityFeed SampleFeed.regexCompile Sample.bob SampleFeed.newest
     SampleCity.db2).1
    = mkResponse true "Posts retrieved successfully" (Some (DataPosts [])) None ∧
  ¬ home_feed_as_specified SampleFeed.regexCompile SampleCity.db2 Sample.bob.
Proof.
  split; [vm_compute; reflexivity|]. split; [vm_compute; reflexivity|].
  assert (E : (getUserCityFeed SampleFeed.regexCompile Sample.bob SampleFeed.newest
                 SampleCity.db2).1
              = mkResponse true "Posts retrieved successfully"
                           (Some (DataPosts [])) None)
    by (vm_compute; reflexivity).
  split; [done|]. intros H.
  destruct (H 2%N
              (User.mk "bob@cityscope.test" "$2a$12$hash" "Bob" "Doe" " Austin " ""
                       false 0 true 1 0 5)
              100%N
              (Post.mk "Great taco spot downtown!" PostType.RECOMMEND None 2%N
                       " Austin " [] [] [] true 10 10))
    as (pp & Hin & _).
  - reflexivity.
  - vm_compute. reflexivity.
  - reflexivity.
  - vm_compute. reflexivity.
  - reflexivity.
  - reflexivity.
  - rewrite E in Hin. by apply elem_of_nil in Hin.
Qed.

(** The scenario of the specification: bob, of Austin, sees alice's Austin
    post in his home feed; carol, of Denver, gets an empty feed. *)
Example home_feed_austin_denver :
  like_counts (getUserCityFeed SampleFeed.regexCompile Sample.bob
                 SampleFeed.newest Sample.db_fresh).1 = [(100%N, 0%nat)] ∧
  like_counts (getUserCityFeed SampleFeed.regexCompile Sample.carol
                 SampleFeed.newest Sample.db_fresh).1 = [].
Proof. vm_compute. done. Qed.

(** C10. An active user whose stored city is empty, with no city in the
    query or a blank one: the home feed is the feed query without any
    city.  The filter it searches with has no city, the feed holds exactly
    the stored posts that filter selects, and when the query asks for
    nothing else that is every active post, of every city. *)
Theorem home_feed_without_city
    (regexCompile : string → Exn + (string → bool)) userId uid user q db :
  ObjectId.fromString userId = Some uid →
  users db !! uid = Some user →
  User.isActive user = true →
  User.city user = "" →
  JS.truthy_trim (PostQueryParams.city q) = false →
  let r := getUserCityFeed regexCompile userId q db in
  r = getPostsFeed regexCompile (PostQueryParams.with_city None q) db ∧
  (∀ f, build_filter (PostQueryParams.with_city None q) db = (inr f, db) →
     Filter.city f = None ∧
     ∀ pid P, in_feed r.1 pid P ↔
                posts db !! pid = Some P ∧ matches regexCompile f P = true) ∧
  (PostQueryParams.postType q = None → PostQueryParams.author q = None →
   PostQueryParams.search q = None →
   ∀ pid P, posts db !! pid = Some P → Post.isActive P = true →
            in_feed r.1 pid P).
Proof.
  intros Hu Hl Ha Hcity Hblank r.
  assert (Hr : r = getPostsFeed regexCompile (PostQueryParams.with_city None q) db).
  { subst r. rewrite (getUserCityFeed_run regexCompile userId uid q db Hu), Hl, Ha, Hcity.
    apply getPostsFeed_blank_city.
    destruct (PostQueryParams.city q) as [c|]; simpl in *; [|done].
    by destruct (JS.truthy c). }
  split; [done|]. split.
  - intros f Hf. split.
    + unfold build_filter in Hf. simpl in Hf.
      destruct (PostQueryParams.author q) as [a|]; [|by injection Hf as <-].
      destruct (JS.truthy a); [|by injection Hf as <-].
      unfold ObjectId_new in Hf. destruct (ObjectId.fromString a); [|done].
      by injection Hf as <-.
    + intros pid P. rewrite Hr. by apply in_feed_found.
  - intros Ht Hau Hs pid P HP Hact. rewrite Hr.
    rewrite (in_feed_found regexCompile _ _ db pid P
               (build_filter_city_only q None db Ht Hau Hs)).
    split; [done|]. unfold matches. simpl. by rewrite Hact.
Qed.

Lemma home_feed_without_city_witness :
  let q := PostQueryParams.mk None None (Some "   ") None None in
  let db := SampleFeed.two_cities in
  let r := getUserCityFeed SampleFeed.regexCompile SampleFeed.dave q db in
  r = getPostsFeed SampleFeed.regexCompile (PostQueryParams.with_city None q) db ∧
  (∀ f, build_filter (PostQueryParams.with_city None q) db = (inr f, db) →
     Filter.city f = None ∧
     ∀ pid P, in_feed r.1 pid P ↔
                posts db !! pid = Some P ∧ matches SampleFeed.regexCompile f P = true) ∧
  (PostQueryParams.postType q = None → PostQueryParams.author q = None →
   PostQueryParams.search q = None →
   ∀ pid P, posts db !! pid = Some P → Post.isActive P = true →
            in_feed r.1 pid P).
Proof.
  apply (home_feed_without_city SampleFeed.regexCompile SampleFeed.dave 10%N
           (Sample.user "dave" "" true)
           (PostQueryParams.mk None None (Some "   ") None None)
           SampleFeed.two_cities).
  - reflexivity.
  - vm_compute. reflexivity.
  - reflexivity.
  - reflexivity.
  - reflexivity.
Defined.

(** Dave's home feed, with or without a blank city in the query, holds
    the posts of both cities. *)
Example home_feed_two_cities :
  like_counts (getUserCityFeed SampleFeed.regexCompile SampleFeed.dave
                 SampleFeed.newest SampleFeed.two_cities).1
    = [(102%N, 0%nat); (100%N, 0%nat)] ∧
  like_counts (getUserCityFeed SampleFeed.regexCompile SampleFeed.dave
                 (PostQueryParams.mk None None (Some "   ") None None)
                 SampleFeed.two_cities).1
    = [(102%N, 0%nat); (100%N, 0%nat)].
Proof. vm_compute. done. Qed.

(** * Further properties of the post model and the post service *)

(** ** The pre-save hook *)

Lemma preSave_eq p :
  preSave p =
    Post.with_dislikes (filter (fun id => id ∉ Post.likes p) (Post.dislikes p))
      (Post.with_likes (filter (fun id => id ∉ Post.dislikes p) (Post.likes p)) p).
Proof.
  pose proof (preSave_likes p) as HL. pose proof (preSave_dislikes p) as HD.
  destruct p. unfold preSave in *. simpl in *. by rewrite HL, HD.
Qed.

Lemma preSave_disjoint_id p :
  (∀ x, x ∈ Post.likes p → x ∉ Post.dislikes p) → preSave p = p.
Proof.
  intros Hdis. rewrite preSave_eq.
  rewrite (filter_all (fun id => id ∉ Post.dislikes p)) by done.
  rewrite (filter_all (fun id => id ∉ Post.likes p)).
  - by destruct p.
  - intros x Hd Hl. by apply (Hdis x).
Qed.

(** The pre-save hook takes a user found in both lists out of both of
    them and keeps everybody else where they are; running it twice is
    running it once, and on lists that share nobody it changes nothing. *)
Theorem preSave_resolves_conflicts (p : Post.t) :
  (∀ x, x ∈ Post.likes (preSave p) ↔ x ∈ Post.likes p ∧ x ∉ Post.dislikes p) ∧
  (∀ x, x ∈ Post.dislikes (preSave p) ↔ x ∈ Post.dislikes p ∧ x ∉ Post.likes p) ∧
  preSave (preSave p) = preSave p ∧
  ((∀ x, x ∈ Post.likes p → x ∉ Post.dislikes p) → preSave p = p).
Proof.
  split; [|split; [|split]].
  - intros x. rewrite preSave_likes, list_elem_of_filter. tauto.
  - intros x. rewrite preSave_dislikes, list_elem_of_filter. tauto.
  - apply preSave_disjoint_id. intros x.
    rewrite preSave_likes, preSave_dislikes, !list_elem_of_filter. tauto.
  - apply preSave_disjoint_id.
Qed.

(** ** Toggles that do not go through *)

Lemma togglePostLike_table now postId userId db :
  toggle_failure_table "Cannot like inactive post"
    (togglePostLike now postId userId db) postId userId db.
Proof.
  unfold toggle_failure_table.
  destruct (JS.truthy postId) eqn:Tp; cycle 1.
  { apply truthy_false_iff in Tp as ->.
    repeat split; try done; try (by intros []); try (intros; done). }
  destruct (JS.truthy userId) eqn:Tu; cycle 1.
  { apply truthy_false_iff in Tu as ->. apply truthy_true_iff in Tp.
    assert (E : togglePostLike now postId "" db =
                (failure "Post ID and User ID are required"
                         "Missing required parameters", db)).
    { unfold togglePostLike. run_service. by destruct postId. }
    rewrite E. repeat split; try done; try (intros; done). }
  assert (Hne1 : postId ≠ "") by (by apply truthy_true_iff).
  assert (Hne2 : userId ≠ "") by (by apply truthy_true_iff).
  destruct (ObjectId.fromString postId) as [pid|] eqn:Hp; cycle 1.
  { assert (E : togglePostLike now postId userId db =
                (failure "Invalid post ID format" "Invalid ObjectId", db)).
    { unfold togglePostLike, Post_findById. rewrite Tp, Tu, Hp. by run_service. }
    rewrite E. repeat split; try done; try (by intros [|]); try (intros; done). }
  destruct (posts db !! pid) as [p|] eqn:Hl; cycle 1.
  { assert (E : togglePostLike now postId userId db =
                (failure "Post not found" "Post does not exist", db)).
    { unfold togglePostLike, Post_findById. rewrite Tp, Tu, Hp. run_service.
      by rewrite Hl. }
    rewrite E. repeat split; try done; try (by intros [|]).
    - intros pid' p' _ [= <-]. by rewrite Hl.
    - intros pid' p' _ [= <-]. by rewrite Hl.
    - intros pid' u p' [= <-] _ Hl'. by rewrite Hl in Hl'. }
  destruct (Post.isActive p) eqn:Ha; cycle 1.
  { assert (E : togglePostLike now postId userId db =
                (failure "Cannot like inactive post" "Post inactive", db)).
    { unfold togglePostLike, Post_findById. rewrite Tp, Tu, Hp. run_service.
      rewrite Hl. simpl. by rewrite Ha. }
    rewrite E. repeat split; try done; try (by intros [|]).
    - intros pid' _ [= <-]. by rewrite Hl.
    - intros pid' p' _ [= <-]. rewrite Hl. intros [= <-]. by rewrite Ha.
    - intros pid' u p' [= <-] _ Hl' Ha'.
      rewrite Hl in Hl'. injection Hl' as <-. by rewrite Ha in Ha'. }
  destruct (ObjectId.fromString userId) as [u|] eqn:Hu; cycle 1.
  { assert (E : togglePostLike now postId userId db = (internal_error, db)).
    { unfold togglePostLike, Post_findById, ObjectId_new. rewrite Tp, Tu, Hp, Hu.
      run_service. rewrite Hl. simpl. by rewrite Ha. }
    rewrite E. repeat split; try done; try (by intros [|]).
    - intros pid' _ [= <-]. by rewrite Hl.
    - intros pid' p' _ [= <-]. rewrite Hl. intros [= <-]. by rewrite Ha.
    }
  rewrite (togglePostLike_spec now postId userId pid u p db) by done. simpl.
  repeat split; try done; try (by intros [|]).
  - intros pid' _ [= <-]. by rewrite Hl.
  - intros pid' p' _ [= <-]. rewrite Hl. intros [= <-]. by rewrite Ha.
  - intros _. by exists pid, u, p.
Qed.

Lemma togglePostDislike_table now postId userId db :
  toggle_failure_table "Cannot dislike inactive post"
    (togglePostDislike now postId userId db) postId userId db.
Proof.
  unfold toggle_failure_table.
  destruct (JS.truthy postId) eqn:Tp; cycle 1.
  { apply truthy_false_iff in Tp as ->.
    repeat split; try done; try (by intros []); try (intros; done). }
  destruct (JS.truthy userId) eqn:Tu; cycle 1.
  { apply truthy_false_iff in Tu as ->. apply truthy_true_iff in Tp.
    assert (E : togglePostDislike now postId "" db =
                (failure "Post ID and User ID are required"
                         "Missing required parameters", db)).
    { unfold togglePostDislike. run_service. by destruct postId. }
    rewrite E. repeat split; try done; try (intros; done). }
  assert (Hne1 : postId ≠ "") by (by apply truthy_true_iff).
  assert (Hne2 : userId ≠ "") by (by apply truthy_true_iff).
  destruct (ObjectId.fromString postId) as [pid|] eqn:Hp; cycle 1.
  { assert (E : togglePostDislike now postId userId db =
                (failure "Invalid post ID format" "Invalid ObjectId", db)).
    { unfold togglePostDislike, Post_findById. rewrite Tp, Tu, Hp. by run_service. }
    rewrite E. repeat split; try done; try (by intros [|]); try (intros; done). }
  destruct (posts db !! pid) as [p|] eqn:Hl; cycle 1.
  { assert (E : togglePostDislike now postId userId db =
                (failure "Post not found" "Post does not exist", db)).
    { unfold togglePostDislike, Post_findById. rewrite Tp, Tu, Hp. run_service.
      by rewrite Hl. }
    rewrite E. repeat split; try done; try (by intros [|]).
    - intros pid' p' _ [= <-]. by rewrite Hl.
    - intros pid' p' _ [= <-]. by rewrite Hl.
    - intros pid' u p' [= <-] _ Hl'. by rewrite Hl in Hl'. }
  destruct (Post.isActive p) eqn:Ha; cycle 1.
  { assert (E : togglePostDislike now postId userId db =
                (failure "Cannot dislike inactive post" "Post inactive", db)).
    { unfold togglePostDislike, Post_findById. rewrite Tp, Tu, Hp. run_service.
      rewrite Hl. simpl. by rewrite Ha. }
    rewrite E. repeat split; try done; try (by intros [|]).
    - intros pid' _ [= <-]. by rewrite Hl.
    - intros pid' p' _ [= <-]. rewrite Hl. intros [= <-]. by rewrite Ha.
    - intros pid' u p' [= <-] _ Hl' Ha'.
      rewrite Hl in Hl'. injection Hl' as <-. by rewrite Ha in Ha'. }
  destruct (ObjectId.fromString userId) as [u|] eqn:Hu; cycle 1.
  { assert (E : togglePostDislike now postId userId db = (internal_error, db)).
    { unfold togglePostDislike, Post_findById, ObjectId_new. rewrite Tp, Tu, Hp, Hu.
      run_service. rewrite Hl. simpl. by rewrite Ha. }
    rewrite E. repeat split; try done; try (by intros [|]).
    - intros pid' _ [= <-]. by rewrite Hl.
    - intros pid' p' _ [= <-]. rewrite Hl. intros [= <-]. by rewrite Ha.
    }
  rewrite (togglePostDislike_spec now postId userId pid u p db) by done. simpl.
  repeat split; try done; try (by intros [|]).
  - intros pid' _ [= <-]. by rewrite Hl.
  - intros pid' p' _ [= <-]. rewrite Hl. intros [= <-]. by rewrite Ha.
  - intros _. by exists pid, u, p.
Qed.

(** A toggle that does not go through writes nothing, and says why: ids
    missing, a post id that is no ObjectId, no such post, an inactive
    post, or (as an internal error) a user id that is no ObjectId.  It
    goes through only when both ids are ObjectIds and the post exists and
    is active, and then it does whenever the stored post passes the
    validators of its schema. *)
Theorem toggle_failures now postId userId db :
  toggle_failure_table "Cannot like inactive post"
    (togglePostLike now postId userId db) postId userId db ∧
  toggle_failure_table "Cannot dislike inactive post"
    (togglePostDislike now postId userId db) postId userId db.
Proof.
  split; [apply togglePostLike_table|apply togglePostDislike_table].
Qed.

(** ** Creating a post: checks, validation and effect *)

Lemma created_doc_errors_eq newId uid ty postData :
  JS.truthy (JS.trim (CreatePostRequest.content postData)) = true →
  (String.length (JS.trim (CreatePostRequest.content postData)) ≤ 280)%nat →
  Schema.errors (created_doc newId uid ty postData) =
    (if image_ok postData then [] else ["Invalid image URL format"]) ++
    (if city_ok postData then [] else ["Path `city` is required."]).
Proof.
  intros Hc Hlen.
  destruct (created_doc_errors newId uid ty postData Hc Hlen) as [Hce _].
  unfold Schema.errors, created_doc, Post_new in *. simpl in *. rewrite Hce.
  simpl. rewrite app_nil_r.
  assert (Hie : Schema.image_error
            (JS.trim <$> JS.or_undefined (JS.trim <$> CreatePostRequest.image postData))
            = if image_ok postData then None else Some "Invalid image URL format").
  { unfold image_ok. destruct (CreatePostRequest.image postData) as [url|];
      simpl; [|done].
    destruct (JS.truthy (JS.trim url)) eqn:Ht; simpl.
    - by rewrite trim_idem.
    - apply truthy_false_iff in Ht. by rewrite Ht. }
  assert (Hci : Schema.city_error
            (default "" (JS.or_undefined (CreatePostRequest.city postData)))
            = if city_ok postData then None else Some "Path `city` is required.").
  { unfold city_ok, Schema.city_error.
    destruct (CreatePostRequest.city postData) as [c|]; simpl; [|done].
    by destruct (JS.truthy c) eqn:Ht; simpl; rewrite ?Ht. }
  rewrite Hie, Hci. by destruct (image_ok postData), (city_ok postData).
Qed.

Lemma createPost_too_long now newId userId postData uid user ty db :
  ObjectId.fromString userId = Some uid →
  users db !! uid = Some user →
  User.isActive user = true →
  PostType.ofString (CreatePostRequest.postType postData) = Some ty →
  (280 < String.length (JS.trim (CreatePostRequest.content postData)))%nat →
  createPost now newId userId postData db = (content_too_long, db).
Proof.
  intros Hu Hl Ha Hty Hn.
  assert (Hc : JS.truthy (JS.trim (CreatePostRequest.content postData)) = true)
    by (apply truthy_length; lia).
  unfold createPost, User_findById.
  rewrite (fromString_truthy _ _ Hu), Hu. run_service. rewrite Hl, Ha, Hc, Hty.
  simpl. apply Nat.ltb_lt in Hn. by rewrite Hn.
Qed.

Lemma createPost_table now newId userId postData db :
  create_failure_table (createPost now newId userId postData db)
    userId postData db.
Proof.
  unfold create_failure_table.
  split.
  { intros Hs.
    destruct (createPost_db now newId userId postData db)
      as [->|(uid & ty & _ & E & _)]; [done|].
    rewrite E in Hs. discriminate Hs. }
  destruct (JS.truthy userId) eqn:Tu; cycle 1.
  { apply truthy_false_iff in Tu as ->.
    repeat split; try done; intros; done. }
  apply truthy_true_iff in Tu as Hne.
  split; [done|].
  destruct (ObjectId.fromString userId) as [uid|] eqn:Hu; cycle 1.
  { assert (E : createPost now newId userId postData db = (internal_error, db)).
    { unfold createPost, User_findById. rewrite Tu, Hu. by run_service. }
    rewrite E. repeat split; try done; intros; done. }
  split; [done|].
  assert (Hrun : createPost now newId userId postData db =
    match users db !! uid with
    | None => (user_not_found, db)
    | Some user =>
        if User.isActive user then
          if JS.truthy (JS.trim (CreatePostRequest.content postData)) then
            match PostType.ofString (CreatePostRequest.postType postData) with
            | None => (failure "Valid post type is required" "Invalid post type", db)
            | Some _ => createPost now newId userId postData db
            end
          else (content_missing, db)
        else (account_deactivated, db)
    end).
  { destruct (users db !! uid) as [user|] eqn:Hl; cycle 1.
    { unfold createPost, User_findById. rewrite Tu, Hu. run_service. by rewrite Hl. }
    destruct (User.isActive user) eqn:Ha; cycle 1.
    { unfold createPost, User_findById. rewrite Tu, Hu. run_service.
      by rewrite Hl, Ha. }
    destruct (JS.truthy (JS.trim (CreatePostRequest.content postData))) eqn:Hc;
      cycle 1.
    { unfold createPost, User_findById. rewrite Tu, Hu. run_service.
      by rewrite Hl, Ha, Hc. }
    destruct (PostType.ofString (CreatePostRequest.postType postData)) eqn:Hty;
      [done|].
    unfold createPost, User_findById. rewrite Tu, Hu. run_service.
    by rewrite Hl, Ha, Hc, Hty. }
  split; [|split; [|split; [|split]]].
  - intros uid' [= <-] Hl. by rewrite Hrun, Hl.
  - intros uid' user [= <-] Hl Ha. by rewrite Hrun, Hl, Ha.
  - intros uid' user [= <-] Hl Ha Hc. rewrite Hrun, Hl, Ha, Hc. done.
  - intros uid' user [= <-] Hl Ha Hc Hty.
    apply truthy_true_iff in Hc. by rewrite Hrun, Hl, Ha, Hc, Hty.
  - intros uid' user ty [= <-] Hl Ha Hty Hlen.
    by rewrite (createPost_too_long now newId userId postData uid user ty db).
Qed.

(** [createPost] stops at the first check that fails, each with its own
    response: no user id, a user id that is no ObjectId (which ends as an
    internal error), no such user, a deactivated account, blank content, a
    post type that is none of the four, content of more than 280
    characters once trimmed; and a call that does not succeed writes
    nothing. *)
Theorem createPost_failures now newId userId postData db :
  create_failure_table (createPost now newId userId postData db)
    userId postData db.
Proof. apply createPost_table. Qed.

(** Past the checks of the service the schema decides: a request without
    a city, or with an image that is no image URL, is a validation failure
    that stores nothing, with the message of the path that failed when it
    is the only one; and an [_id] already taken ends as an internal error
    that stores nothing. *)
Theorem createPost_schema_validation now newId userId postData uid user ty db :
  ObjectId.fromString userId = Some uid →
  users db !! uid = Some user →
  User.isActive user = true →
  PostType.ofString (CreatePostRequest.postType postData) = Some ty →
  (1 ≤ String.length (JS.trim (CreatePostRequest.content postData)) ≤ 280)%nat →
  let r := createPost now newId userId postData db in
  (city_ok postData && image_ok postData = false →
     success r.1 = false ∧ message r.1 = "Validation failed" ∧ r.2 = db) ∧
  (city_ok postData = false → image_ok postData = true →
     r = (failure "Validation failed" "Path `city` is required.", db)) ∧
  (city_ok postData = true → image_ok postData = false →
     r = (failure "Validation failed" "Invalid image URL format", db)) ∧
  (city_ok postData = true → image_ok postData = true →
     is_Some (posts db !! newId) → r = (internal_error, db)).
Proof.
  intros Hu Hl Ha Hty [Hlo Hhi] r. subst r.
  assert (Hc : JS.truthy (JS.trim (CreatePostRequest.content postData)) = true)
    by (apply truthy_length; lia).
  rewrite (createPost_guarded now newId userId postData uid user ty db) by done.
  rewrite created_doc_errors_eq by done.
  split; [|split; [|split]].
  - by destruct (city_ok postData), (image_ok postData).
  - by intros -> ->.
  - by intros -> ->.
  - intros -> -> [P ->]. done.
Qed.

Lemma createPost_schema_validation_witness :
  let postData := CreatePostRequest.mk "Lost keys near the park" "help"
                    (Some "https://img.test/keys.png") None in
  let r := createPost 20 101 Sample.alice postData Sample.db_fresh in
  (city_ok postData && image_ok postData = false →
     success r.1 = false ∧ message r.1 = "Validation failed" ∧
     r.2 = Sample.db_fresh) ∧
  (city_ok postData = false → image_ok postData = true →
     r = (failure "Validation failed" "Path `city` is required.", Sample.db_fresh)) ∧
  (city_ok postData = true → image_ok postData = false →
     r = (failure "Validation failed" "Invalid image URL format", Sample.db_fresh)) ∧
  (city_ok postData = true → image_ok postData = true →
     is_Some (posts Sample.db_fresh !! 101%N) → r = (internal_error, Sample.db_fresh)).
Proof.
  apply (createPost_schema_validation 20 101 Sample.alice
           (CreatePostRequest.mk "Lost keys near the park" "help"
              (Some "https://img.test/keys.png") None)
           1%N (Sample.user "alice" "Austin" true) PostType.HELP Sample.db_fresh).
  - reflexivity.
  - vm_compute. reflexivity.
  - reflexivity.
  - reflexivity.
  - vm_compute. lia.
Defined.

(** The request of that run has no city and an image URL that passes:
    the city is the one path that fails. *)
Example createPost_without_city :
  let postData := CreatePostRequest.mk "Lost keys near the park" "help"
                    (Some "https://img.test/keys.png") None in
  city_ok postData = false ∧ image_ok postData = true ∧
  createPost 20 101 Sample.alice postData Sample.db_fresh
    = (failure "Validation failed" "Path `city` is required.", Sample.db_fresh).
Proof. vm_compute. done. Qed.

Lemma created_post_fresh now newId uid ty postData :
  city_ok postData = true →
  fresh_post now uid ty postData (created_post now newId uid ty postData).
Proof.
  intros Hcity. unfold fresh_post, created_post, created_doc, Post_new. simpl.
  repeat split; try done.
  - apply trim_idem.
  - unfold city_ok in Hcity. destruct (CreatePostRequest.city postData) as [c|];
      simpl in *; [|done]. by rewrite Hcity.
Qed.

Lemma createPost_success_inv now newId userId postData db :
  success (createPost now newId userId postData db).1 = true →
  ∃ uid user ty P,
    ObjectId.fromString userId = Some uid ∧
    users db !! uid = Some user ∧ User.isActive user = true ∧
    PostType.ofString (CreatePostRequest.postType postData) = Some ty ∧
    posts db !! newId = None ∧
    fresh_post now uid ty postData P ∧
    (createPost now newId userId postData db).2 =
      mkDB (users db) (<[newId := P]> (posts db)) ∧
    data (createPost now newId userId postData db).1 =
      Some (DataPost (Some (populate_author
        (createPost now newId userId postData db).2 newId P))).
Proof.
  intros Hs.
  destruct (createPost_table now newId userId postData db)
    as (_ & T1 & T2 & T3 & T4 & T5 & T6 & _).
  destruct (decide (userId = "")) as [E|Hne].
  { rewrite (T1 E) in Hs. discriminate Hs. }
  destruct (ObjectId.fromString userId) as [uid|] eqn:Hu; cycle 1.
  { rewrite (T2 Hne eq_refl) in Hs. discriminate Hs. }
  destruct (users db !! uid) as [user|] eqn:Hl; cycle 1.
  { rewrite (T3 uid eq_refl Hl) in Hs. discriminate Hs. }
  destruct (User.isActive user) eqn:Ha; cycle 1.
  { rewrite (T4 uid user eq_refl Hl Ha) in Hs. discriminate Hs. }
  destruct (decide (JS.trim (CreatePostRequest.content postData) = "")) as [E|Hc].
  { rewrite (T5 uid user eq_refl Hl Ha E) in Hs. discriminate Hs. }
  destruct (PostType.ofString (CreatePostRequest.postType postData)) as [ty|] eqn:Hty;
    cycle 1.
  { rewrite (T6 uid user eq_refl Hl Ha Hc eq_refl) in Hs. discriminate Hs. }
  destruct (Nat.le_gt_cases
              (String.length (JS.trim (CreatePostRequest.content postData))) 280)
    as [Hle|Hgt]; cycle 1.
  { rewrite (createPost_too_long now newId userId postData uid user ty db) in Hs
      by done. discriminate Hs. }
  apply truthy_true_iff in Hc.
  rewrite (createPost_guarded now newId userId postData uid user ty db) in * by done.
  rewrite created_doc_errors_eq in * by done.
  destruct (image_ok postData); [|by destruct (city_ok postData)].
  destruct (city_ok postData) eqn:Hcity; [|done]. simpl in *.
  destruct (posts db !! newId) eqn:Hfresh; [done|]. simpl in *.
  exists uid, user, ty, (created_post now newId uid ty postData).
  repeat split; try done; by apply created_post_fresh.
Qed.

(** A successful [createPost] had an existing active author, a recognised
    type and an unused [_id]; it adds exactly one post under that [_id],
    with the author, the type, the trimmed content and the city of the
    request, no reaction, no reply, active, both dates the time of the
    call, and it leaves the other posts and all users as they were. *)
Theorem createPost_success_effect now newId userId postData db :
  success (createPost now newId userId postData db).1 = true →
  ∃ uid user ty P,
    ObjectId.fromString userId = Some uid ∧
    users db !! uid = Some user ∧ User.isActive user = true ∧
    PostType.ofString (CreatePostRequest.postType postData) = Some ty ∧
    posts db !! newId = None ∧
    fresh_post now uid ty postData P ∧
    (createPost now newId userId postData db).2 =
      mkDB (users db) (<[newId := P]> (posts db)) ∧
    data (createPost now newId userId postData db).1 =
      Some (DataPost (Some (populate_author
        (createPost now newId userId postData db).2 newId P))).
Proof. apply createPost_success_inv. Qed.

Lemma createPost_success_effect_witness :
  ∃ uid user ty P,
    ObjectId.fromString Sample.alice = Some uid ∧
    users Sample.db_fresh !! uid = Some user ∧ User.isActive user = true ∧
    PostType.ofString (CreatePostRequest.postType Sample.taco_request) = Some ty ∧
    posts Sample.db_fresh !! 101%N = None ∧
    fresh_post 20 uid ty Sample.taco_request P ∧
    (createPost 20 101 Sample.alice Sample.taco_request Sample.db_fresh).2 =
      mkDB (users Sample.db_fresh) (<[101%N := P]> (posts Sample.db_fresh)) ∧
    data (createPost 20 101 Sample.alice Sample.taco_request Sample.db_fresh).1 =
      Some (DataPost (Some (populate_author
        (createPost 20 101 Sample.alice Sample.taco_request Sample.db_fresh).2
        101%N P))).
Proof.
  apply (createPost_success_effect 20 101 Sample.alice Sample.taco_request
           Sample.db_fresh).
  vm_compute. reflexivity.
Defined.

(** ** Counts and predicates after a toggle *)

Lemma filter_ne_absent (l : list N) (u : N) :
  u ∉ l → filter (fun id => id ≠ u) l = l.
Proof. intros Hu. apply filter_all. intros x Hx ->. done. Qed.

(** On a stored post that passes its schema and satisfies the invariant,
    a like toggle moves the like count by exactly one (down when the user
    liked the post, up otherwise), lowers the dislike count by one exactly
    when the user disliked it, and the predicates answer accordingly on
    the post the response carries. *)
Theorem toggle_like_counts now postId userId pid U P db :
  ObjectId.fromString postId = Some pid →
  ObjectId.fromString userId = Some U →
  posts db !! pid = Some P →
  Post.isActive P = true →
  post_valid P →
  post_inv P →
  ∃ pp, data (togglePostLike now postId userId db).1 = Some (DataPost (Some pp)) ∧
    Populated._id pp = pid ∧
    posts (togglePostLike now postId userId db).2 !! pid = Some (Populated.doc pp) ∧
    (if isLikedBy U P
     then S (getLikesCount (Populated.doc pp)) = getLikesCount P
     else getLikesCount (Populated.doc pp) = S (getLikesCount P)) ∧
    (if isDislikedBy U P
     then S (getDislikesCount (Populated.doc pp)) = getDislikesCount P
     else getDislikesCount (Populated.doc pp) = getDislikesCount P) ∧
    isLikedBy U (Populated.doc pp) = negb (isLikedBy U P) ∧
    isDislikedBy U (Populated.doc pp) = false.
Proof.
  intros Hp Hu Hl Ha _ Hinv.
  rewrite (togglePostLike_spec now postId userId pid U P db) by done. simpl.
  eexists. split; [done|]. simpl. split; [done|].
  split; [by rewrite lookup_insert_eq|].
  destruct (toggled_like_flip now U P Hinv) as (HL & HD & Hm & Hn & _ & _).
  destruct Hinv as (NL & ND & Hx). rewrite Forall_forall in Hx.
  unfold isLikedBy, isDislikedBy, getLikesCount, getDislikesCount.
  rewrite HL, HD. split; [|split; [|split]].
  - destruct (bool_decide_reflect (U ∈ Post.likes P)) as [Hin|Hin].
    + by apply length_filter_ne.
    + rewrite length_app. simpl. apply Nat.add_1_r.
  - destruct (bool_decide_reflect (U ∈ Post.dislikes P)) as [Hin|Hin].
    + by apply length_filter_ne.
    + by rewrite filter_ne_absent.
  - rewrite <- HL. rewrite (bool_decide_ext _ _ Hm). apply bool_decide_not.
  - rewrite <- HD. by apply bool_decide_eq_false_2.
Qed.

Lemma toggle_like_counts_witness :
  ∃ pp,
    data (togglePostLike 11 Sample.taco Sample.bob Sample.db_disliked).1
      = Some (DataPost (Some pp)) ∧
    Populated._id pp = 100%N ∧
    posts (togglePostLike 11 Sample.taco Sample.bob Sample.db_disliked).2 !! 100%N
      = Some (Populated.doc pp) ∧
    (if isLikedBy 2 (Sample.post "Great taco spot downtown!" "Austin" [] [2%N] 10)
     then S (getLikesCount (Populated.doc pp)) = 0%nat
     else getLikesCount (Populated.doc pp) = 1%nat) ∧
    (if isDislikedBy 2 (Sample.post "Great taco spot downtown!" "Austin" [] [2%N] 10)
     then S (getDislikesCount (Populated.doc pp)) = 1%nat
     else getDislikesCount (Populated.doc pp) = 1%nat) ∧
    isLikedBy 2 (Populated.doc pp) = true ∧
    isDislikedBy 2 (Populated.doc pp) = false.
Proof.
  apply (toggle_like_counts 11 Sample.taco Sample.bob 100%N 2%N
           (Sample.post "Great taco spot downtown!" "Austin" [] [2%N] 10)
           Sample.db_disliked).
  - reflexivity.
  - reflexivity.
  - vm_compute. reflexivity.
  - reflexivity.
  - apply (bool_decide_unpack (post_valid _)). vm_compute. exact I.
  - apply (bool_decide_unpack (post_inv _)). vm_compute. exact I.
Defined.

(** ** Two toggles in a row *)

Lemma filter_ne_move (l : list N) (u : N) :
  NoDup l → u ∈ l → filter (fun id => id ≠ u) l ++ [u] ≡ₚ l.
Proof.
  induction l as [|a l IH]; intros Hnd Hu; [by apply elem_of_nil in Hu|].
  apply NoDup_cons in Hnd as [Ha Hnd].
  destruct (decide (a = u)) as [->|Hne].
  - rewrite filter_cons_False by (intros H; by apply H).
    rewrite filter_ne_absent by done. symmetry. apply Permutation_cons_append.
  - rewrite filter_cons_True by done. simpl. constructor. apply IH; [done|].
    apply elem_of_cons in Hu as [->|Hu]; done.
Qed.

Lemma toggled_dislike_active now u p :
  Post.isActive (toggled_dislike now u p) = Post.isActive p.
Proof.
  unfold toggled_dislike, stamp.
  by destruct (bool_decide (u ∈ Post.dislikes p)), (bool_decide (_ ≠ p)), p.
Qed.

(** Two like toggles in a row by the same user, on a stored post that
    passes its schema and satisfies the invariant: the likes are the same people as before, in the same
    order when the user did not like the post, with the user moved to the
    end when it did; the user's dislike, if there was one, is gone. *)
Theorem like_twice now1 now2 postId userId pid U P db :
  ObjectId.fromString postId = Some pid →
  ObjectId.fromString userId = Some U →
  posts db !! pid = Some P →
  Post.isActive P = true →
  post_valid P →
  post_inv P →
  ∃ P2, posts (run (like_times [now1; now2] postId userId) db) !! pid = Some P2 ∧
    Post.likes P2 ≡ₚ Post.likes P ∧
    (U ∉ Post.likes P → Post.likes P2 = Post.likes P) ∧
    (U ∈ Post.likes P →
       Post.likes P2 = filter (fun id => id ≠ U) (Post.likes P) ++ [U]) ∧
    Post.dislikes P2 = filter (fun id => id ≠ U) (Post.dislikes P).
Proof.
  intros Hp Hu Hl Ha _ Hinv. unfold like_times, run. cbn [map foldl step].
  rewrite (togglePostLike_spec now1 postId userId pid U P db) by done.
  cbn [snd].
  set (P1 := toggled_like now1 U P).
  assert (Hl1 : posts (mkDB (users db) (<[pid := P1]> (posts db))) !! pid = Some P1)
    by apply lookup_insert_eq.
  assert (Ha1 : Post.isActive P1 = true)
    by (unfold P1; by rewrite toggled_like_active).
  rewrite (togglePostLike_spec now2 postId userId pid U P1 _ Hp Hu Hl1 Ha1).
  cbn [snd posts]. exists (toggled_like now2 U P1).
  split; [apply lookup_insert_eq|].
  assert (Hinv1 : post_inv P1) by (by apply toggled_like_inv).
  destruct (toggled_like_flip now1 U P Hinv) as (HL1 & HD1 & Hm1 & Hn1 & _ & _).
  destruct (toggled_like_flip now2 U P1 Hinv1) as (HL2 & HD2 & _).
  fold P1 in HL1, HD1, Hm1, Hn1.
  destruct Hinv as (NL & ND & _).
  assert (HDD : Post.dislikes (toggled_like now2 U P1)
                = filter (fun id => id ≠ U) (Post.dislikes P)).
  { rewrite HD2, HD1. apply filter_all.
    intros x [Hx _]%list_elem_of_filter. done. }
  destruct (decide (U ∈ Post.likes P)) as [Hin|Hout].
  - assert (E : Post.likes (toggled_like now2 U P1)
                = filter (fun id => id ≠ U) (Post.likes P) ++ [U]).
    { rewrite HL2. rewrite bool_decide_eq_false_2 by (rewrite Hm1; tauto).
      rewrite HL1. by rewrite bool_decide_eq_true_2. }
    split; [rewrite E; by apply filter_ne_move|]. by repeat split.
  - assert (E : Post.likes (toggled_like now2 U P1) = Post.likes P).
    { rewrite HL2. rewrite bool_decide_eq_true_2 by (by apply Hm1).
      rewrite HL1. rewrite bool_decide_eq_false_2 by done.
      rewrite filter_app, filter_ne_absent by done.
      rewrite filter_cons_False by (intros H; by apply H).
      apply app_nil_r. }
    split; [by rewrite E|]. by repeat split.
Qed.

Lemma like_twice_witness :
  ∃ P2, posts (run (like_times [11; 12]%N Sample.taco Sample.bob)
                   Sample.db_liked) !! 100%N = Some P2 ∧
    Post.likes P2 ≡ₚ [2%N] ∧
    (2%N ∉ [2%N] → Post.likes P2 = [2%N]) ∧
    (2%N ∈ [2%N] → Post.likes P2 = filter (fun id => id ≠ 2%N) [2%N] ++ [2%N]) ∧
    Post.dislikes P2 = filter (fun id => id ≠ 2%N) [].
Proof.
  apply (like_twice 11 12 Sample.taco Sample.bob 100%N 2%N
           (Sample.post "Great taco spot downtown!" "Austin" [2%N] [] 10)
           Sample.db_liked).
  - reflexivity.
  - reflexivity.
  - vm_compute. reflexivity.
  - reflexivity.
  - apply (bool_decide_unpack (post_valid _)). vm_compute. exact I.
  - apply (bool_decide_unpack (post_inv _)). vm_compute. exact I.
Defined.

(** A like toggle followed by a dislike toggle by the same user, on a
    stored post that passes its schema and satisfies the invariant: whatever the user's reaction was,
    it ends disliking the post and not liking it, and nobody else's
    reaction changes. *)
Theorem like_then_dislike now1 now2 postId userId pid U P db :
  ObjectId.fromString postId = Some pid →
  ObjectId.fromString userId = Some U →
  posts db !! pid = Some P →
  Post.isActive P = true →
  post_valid P →
  post_inv P →
  ∃ P2, posts (run [OpLike now1 postId userId; OpDislike now2 postId userId] db)
          !! pid = Some P2 ∧
    U ∈ Post.dislikes P2 ∧ (U ∉ Post.likes P2) ∧
    ∀ V, V ≠ U → (V ∈ Post.likes P2 ↔ V ∈ Post.likes P) ∧
                 (V ∈ Post.dislikes P2 ↔ V ∈ Post.dislikes P).
Proof.
  intros Hp Hu Hl Ha _ Hinv. unfold run. cbn [foldl step].
  rewrite (togglePostLike_spec now1 postId userId pid U P db) by done.
  cbn [snd].
  set (P1 := toggled_like now1 U P).
  assert (Hl1 : posts (mkDB (users db) (<[pid := P1]> (posts db))) !! pid = Some P1)
    by apply lookup_insert_eq.
  assert (Ha1 : Post.isActive P1 = true)
    by (unfold P1; by rewrite toggled_like_active).
  rewrite (togglePostDislike_spec now2 postId userId pid U P1 _ Hp Hu Hl1 Ha1).
  cbn [snd posts]. exists (toggled_dislike now2 U P1).
  split; [apply lookup_insert_eq|].
  assert (Hinv1 : post_inv P1) by (by apply toggled_like_inv).
  destruct (toggled_like_flip now1 U P Hinv) as (_ & _ & _ & Hn1 & Ho1 & _).
  destruct (toggled_dislike_flip now2 U P1 Hinv1) as (_ & _ & Hm2 & Hn2 & Ho2 & _).
  fold P1 in Hn1, Ho1.
  split; [by apply Hm2|]. split; [done|].
  intros V HV. destruct (Ho1 V HV) as [A1 B1]. destruct (Ho2 V HV) as [A2 B2].
  split; [by rewrite B2|by rewrite A2].
Qed.

Lemma like_then_dislike_witness :
  ∃ P2, posts (run [OpLike 11 Sample.taco Sample.bob;
                    OpDislike 12 Sample.taco Sample.bob] Sample.db_liked)
          !! 100%N = Some P2 ∧
    2%N ∈ Post.dislikes P2 ∧ (2%N ∉ Post.likes P2) ∧
    ∀ V, V ≠ 2%N → (V ∈ Post.likes P2 ↔ V ∈ [2%N]) ∧
                   (V ∈ Post.dislikes P2 ↔ V ∈ ([] : list N)).
Proof.
  apply (like_then_dislike 11 12 Sample.taco Sample.bob 100%N 2%N
           (Sample.post "Great taco spot downtown!" "Austin" [2%N] [] 10)
           Sample.db_liked).
  - reflexivity.
  - reflexivity.
  - vm_compute. reflexivity.
  - reflexivity.
  - apply (bool_decide_unpack (post_valid _)). vm_compute. exact I.
  - apply (bool_decide_unpack (post_inv _)). vm_compute. exact I.
Defined.

(** ** The order of a feed *)

Lemma compare_key_eq a b : compare_key a b = Eq → a = b.
Proof.
  destruct a, b; simpl; try done. intros H. f_equal. by apply N.compare_eq_iff.
Qed.

Lemma compare_key_refl a : compare_key a a = Eq.
Proof. destruct a; simpl; [apply N.compare_refl|done]. Qed.

Lemma compare_key_antisym a b : compare_key b a = CompOpp (compare_key a b).
Proof. destruct a, b; simpl; try done. apply N.compare_antisym. Qed.

Lemma compare_key_lt_trans a b c :
  compare_key a b = Lt → compare_key b c = Lt → compare_key a c = Lt.
Proof.
  destruct a, b, c; simpl; try done. rewrite !N.compare_lt_iff. lia.
Qed.

Lemma directed_eq dir a b : directed dir a b = Eq → a = b.
Proof.
  unfold directed. destruct (dir <? 0)%Z; [|apply compare_key_eq].
  intros H. apply compare_key_eq. by destruct (compare_key a b).
Qed.

Lemma directed_refl dir a : directed dir a a = Eq.
Proof. unfold directed. rewrite compare_key_refl. by destruct (dir <? 0)%Z. Qed.

Lemma directed_antisym dir a b : directed dir b a = CompOpp (directed dir a b).
Proof.
  unfold directed. rewrite (compare_key_antisym a b).
  by destruct (dir <? 0)%Z.
Qed.

Lemma directed_lt_trans dir a b c :
  directed dir a b = Lt → directed dir b c = Lt → directed dir a c = Lt.
Proof.
  unfold directed. destruct (dir <? 0)%Z; [|apply compare_key_lt_trans].
  intros H1 H2.
  assert (G1 : compare_key b a = Lt)
    by (rewrite compare_key_antisym; by destruct (compare_key a b)).
  assert (G2 : compare_key c b = Lt)
    by (rewrite compare_key_antisym; by destruct (compare_key b c)).
  rewrite (compare_key_antisym c a), (compare_key_lt_trans c b a G2 G1). done.
Qed.

Lemma sort_compare_cons f dir rest p q :
  sort_compare ((f, dir) :: rest) p q =
    match directed dir (sortKey f dir p) (sortKey f dir q) with
    | Eq => sort_compare rest p q
    | c => c
    end.
Proof.
  simpl. unfold directed.
  by destruct (compare_key _ _), (dir <? 0)%Z.
Qed.

Lemma sort_compare_antisym sort p q :
  sort_compare sort q p = CompOpp (sort_compare sort p q).
Proof.
  induction sort as [|[f dir] rest IH]; [done|].
  rewrite !sort_compare_cons.
  rewrite (directed_antisym dir (sortKey f dir p) (sortKey f dir q)).
  by destruct (directed dir (sortKey f dir p) (sortKey f dir q)).
Qed.

Lemma sort_compare_trans sort p q r :
  sort_compare sort p q ≠ Gt → sort_compare sort q r ≠ Gt →
  sort_compare sort p r ≠ Gt.
Proof.
  induction sort as [|[f dir] rest IH]; [done|].
  rewrite !sort_compare_cons.
  destruct (directed dir (sortKey f dir p) (sortKey f dir q)) eqn:E1; [| |done].
  - apply directed_eq in E1. rewrite E1.
    destruct (directed dir (sortKey f dir q) (sortKey f dir r)); done || auto.
  - intros _.
    destruct (directed dir (sortKey f dir q) (sortKey f dir r)) eqn:E2; [| |done].
    + apply directed_eq in E2. rewrite <- E2, E1. done.
    + by rewrite (directed_lt_trans _ _ _ _ E1 E2).
Qed.

#[global] Instance sort_le_trans sort : Transitive (sort_le sort).
Proof. intros p q r. unfold sort_le. apply sort_compare_trans. Qed.

#[global] Instance sort_le_total sort : Total (sort_le sort).
Proof.
  intros p q. unfold sort_le. rewrite (sort_compare_antisym sort p.2 q.2).
  destruct (sort_compare sort p.2 q.2); auto.
Qed.

Lemma Query_sort_sorted sort l : StronglySorted (sort_le sort) (Query_sort sort l).
Proof. unfold Query_sort. apply StronglySorted_merge_sort; apply _. Qed.

Lemma build_filter_cases q db :
  (∃ f, build_filter q db = (inr f, db)) ∨ (∃ e, build_filter q db = (inl e, db)).
Proof.
  unfold build_filter. destruct (PostQueryParams.author q) as [a|]; [|by left; eexists].
  destruct (JS.truthy a); [|by left; eexists].
  unfold ObjectId_new. destruct (ObjectId.fromString a); [by left; eexists|].
  right. by eexists.
Qed.

Lemma getPostsFeed_error regexCompile q e db :
  build_filter q db = (inl e, db) →
  getPostsFeed regexCompile q db = (internal_error, db).
Proof. intros Hf. unfold getPostsFeed. run_service. by rewrite Hf. Qed.


Lemma feed_sorted regexCompile q db (R : relation Populated.t) :
  (∀ x y : N * Post.t,
     sort_le (sort_of (default "newest" (PostQueryParams.sortBy q))) x y →
     R (populate_replies db (populate_author db x.1 x.2))
       (populate_replies db (populate_author db y.1 y.2))) →
  StronglySorted R (response_posts (getPostsFeed regexCompile q db).1).
Proof.
  intros HR. destruct (build_filter_cases q db) as [[f Hf]|[e He]].
  - rewrite (getPostsFeed_found regexCompile q f db Hf).
    destruct (regex_error regexCompile f); [constructor|].
    unfold response_posts. simpl.
    apply (StronglySorted_fmap _ _ _ _ HR). apply Query_sort_sorted.
  - rewrite (getPostsFeed_error regexCompile q e db He). constructor.
Qed.

(** A feed comes newest first, and oldest first when [sortBy] is
    ['oldest']; no [sortBy], or one that is neither ['oldest'] nor
    ['mostLiked'], is newest first. *)
Theorem feed_order_by_date (regexCompile : string → Exn + (string → bool)) q db :
  (PostQueryParams.sortBy q = Some "oldest" →
     StronglySorted oldest_first (response_posts (getPostsFeed regexCompile q db).1)) ∧
  (PostQueryParams.sortBy q ≠ Some "oldest" →
   PostQueryParams.sortBy q ≠ Some "mostLiked" →
     StronglySorted newest_first (response_posts (getPostsFeed regexCompile q db).1)).
Proof.
  split.
  - intros Hs. apply feed_sorted. rewrite Hs. intros [i x] [j y].
    unfold sort_le, oldest_first. simpl. rewrite N.compare_antisym.
    destruct (N.compare_spec (Post.createdAt y) (Post.createdAt x)) as [Hc|Hc|Hc];
      simpl; intros Hle; done || lia.
  - intros H1 H2. apply feed_sorted. intros [i x] [j y].
    assert (E : sort_of (default "newest" (PostQueryParams.sortBy q))
                = [(SortCreatedAt, (-1)%Z)]).
    { unfold sort_of. destruct (PostQueryParams.sortBy q) as [s|]; [|done]. simpl.
      destruct (String.eqb_spec s "oldest") as [->|_]; [done|].
      destruct (String.eqb_spec s "mostLiked") as [->|_]; done. }
    rewrite E. unfold sort_le, newest_first. simpl.
    destruct (N.compare_spec (Post.createdAt x) (Post.createdAt y)) as [Hc|Hc|Hc];
      simpl; intros Hle; done || lia.
Qed.

(** With [sortBy] ['mostLiked'] a feed is ordered by the largest ObjectId
    among each post's likes, posts without likes last, and newest first
    among posts with the same largest liker: the number of likes plays no
    part. *)
Theorem feed_order_mostLiked (regexCompile : string → Exn + (string → bool)) q db :
  PostQueryParams.sortBy q = Some "mostLiked" →
  StronglySorted largest_liker_first
    (response_posts (getPostsFeed regexCompile q db).1).
Proof.
  intros Hs. apply feed_sorted. rewrite Hs. intros [i x] [j y].
  unfold sort_le, largest_liker_first. simpl.
  rewrite (compare_key_antisym (array_max (Post.likes x)) (array_max (Post.likes y))).
  destruct (compare_key (array_max (Post.likes x)) (array_max (Post.likes y))) eqn:E;
    simpl.
  - apply compare_key_eq in E. intros H. right. split; [done|].
    destruct (N.compare_spec (Post.createdAt x) (Post.createdAt y)) as [Hc|Hc|Hc];
      simpl in H; done || lia.
  - done.
  - intros _. by left.
Qed.

Lemma feed_order_mostLiked_witness :
  StronglySorted largest_liker_first
    (response_posts
       (getPostsFeed SampleFeed.regexCompile SampleFeed.mostLiked SampleFeed.db).1).
Proof.
  apply (feed_order_mostLiked SampleFeed.regexCompile SampleFeed.mostLiked SampleFeed.db).
  reflexivity.
Defined.

(** ** What a feed holds *)

Lemma failure_sound message error db : feed_sound (failure message error, db) db.
Proof.
  unfold feed_sound, response_posts. simpl. split; [done|].
  split; [constructor|]. intros pp Hpp. by apply elem_of_nil in Hpp.
Qed.

Lemma getPostsFeed_sound regexCompile q db :
  feed_sound (getPostsFeed regexCompile q db) db.
Proof.
  destruct (build_filter_cases q db) as [[f Hf]|[e He]]; cycle 1.
  { rewrite (getPostsFeed_error regexCompile q e db He). apply failure_sound. }
  rewrite (getPostsFeed_found regexCompile q f db Hf).
  destruct (regex_error regexCompile f); [apply failure_sound|].
  unfold feed_sound, response_posts, selected. simpl. split; [done|]. split.
  - rewrite <- list_fmap_compose.
    change (Populated._id ∘ _) with (@fst N Post.t).
    unfold Query_sort. rewrite merge_sort_Permutation.
    apply (sublist_NoDup _ (map_to_list (posts db)).*1).
    + apply NoDup_fst_map_to_list.
    + apply fmap_sublist, sublist_filter.
  - intros pp Hpp. apply list_elem_of_fmap in Hpp as ([k p] & -> & Hin). simpl.
    unfold Query_sort in Hin. rewrite merge_sort_Permutation in Hin.
    apply list_elem_of_filter in Hin as [Hm Hin]. simpl in Hm.
    apply elem_of_map_to_list in Hin. split; [done|].
    apply Is_true_true in Hm. unfold matches in Hm. simpl in Hm.
    rewrite !andb_true_iff in Hm. destruct Hm as [[[[Hact _] _] _] _].
    apply bool_decide_eq_true in Hact.
    split; [|by rewrite length_map].
    unfold build_filter in Hf.
    assert (Filter.isActive f = true).
    { destruct (PostQueryParams.author q) as [a|]; [|by injection Hf as <-].
      destruct (JS.truthy a); [|by injection Hf as <-].
      unfold ObjectId_new in Hf. destruct (ObjectId.fromString a); [|done].
      by injection Hf as <-. }
    congruence.
Qed.

Lemma getUserCityFeed_cases regexCompile userId q db :
  (∃ message error,
     getUserCityFeed regexCompile userId q db = (failure message error, db)) ∨
  (∃ q', getUserCityFeed regexCompile userId q db = getPostsFeed regexCompile q' db).
Proof.
  destruct (ObjectId.fromString userId) as [uid|] eqn:Hu.
  - rewrite (getUserCityFeed_run regexCompile userId uid q db Hu).
    destruct (users db !! uid) as [user|]; [|left; by do 2 eexists].
    destruct (User.isActive user); [right; by eexists|left; by do 2 eexists].
  - left. unfold getUserCityFeed, User_findById. rewrite Hu. run_service.
    destruct (JS.truthy userId); simpl; by do 2 eexists.
Qed.

(** The feed and the home feed write nothing, and whatever the query,
    every post they return is a stored, active post under its own [_id],
    returned once, with one author slot per reply. *)
Theorem feeds_sound (regexCompile : string → Exn + (string → bool)) userId q db :
  feed_sound (getPostsFeed regexCompile q db) db ∧
  feed_sound (getUserCityFeed regexCompile userId q db) db.
Proof.
  split; [apply getPostsFeed_sound|].
  destruct (getUserCityFeed_cases regexCompile userId q db)
    as [(m & e & ->)|(q' & ->)].
  - apply failure_sound.
  - apply getPostsFeed_sound.
Qed.

(** ** Filters that do not constrain *)

(** The city of a query counts trimmed; a post type that is none of the
    four, a blank search and an empty author constrain nothing; an author
    that is not empty and no ObjectId makes the feed an internal error. *)
Theorem feed_filters_normalised (regexCompile : string → Exn + (string → bool))
    ty au c sb se db :
  (∀ s, getPostsFeed regexCompile (PostQueryParams.mk ty au (Some s) sb se) db =
        getPostsFeed regexCompile (PostQueryParams.mk ty au (Some (JS.trim s)) sb se) db) ∧
  (∀ s, PostType.ofString s = None →
        getPostsFeed regexCompile (PostQueryParams.mk (Some s) au c sb se) db =
        getPostsFeed regexCompile (PostQueryParams.mk None au c sb se) db) ∧
  (∀ s, JS.trim s = "" →
        getPostsFeed regexCompile (PostQueryParams.mk ty au c sb (Some s)) db =
        getPostsFeed regexCompile (PostQueryParams.mk ty au c sb None) db) ∧
  getPostsFeed regexCompile (PostQueryParams.mk ty (Some "") c sb se) db =
    getPostsFeed regexCompile (PostQueryParams.mk ty None c sb se) db ∧
  (∀ a, a ≠ "" → ObjectId.fromString a = None →
        getPostsFeed regexCompile (PostQueryParams.mk ty (Some a) c sb se) db =
          (internal_error, db)).
Proof.
  split; [|split; [|split; [|split]]].
  - intros s. unfold getPostsFeed, build_filter. run_service.
    by rewrite !trim_idem.
  - intros s Hs. unfold getPostsFeed, build_filter. run_service. by rewrite Hs.
  - intros s Hs. unfold getPostsFeed, build_filter. run_service. by rewrite Hs.
  - done.
  - intros a Ha Hn. unfold getPostsFeed, build_filter, ObjectId_new. run_service.
    apply truthy_true_iff in Ha. by rewrite Ha, Hn.
Qed.

(** ** Replies that are refused, replies that are removed *)

Lemma save_invalid now i p p0 db e es :
  Schema.errors (mkDoc i p (Some p0)) = e :: es →
  save now (mkDoc i p (Some p0)) db = (inl (ValidationError (e :: es)), db).
Proof. intros He. unfold save, validate. by rewrite He. Qed.

(** [addReply] on a post that passes its schema, with content that is
    blank, or longer than 280 characters once trimmed, throws the schema's
    validation error for the reply and stores nothing. *)
Theorem addReply_refused now rid reply i p db :
  post_valid p →
  Some rid ∉ reply_ids p →
  (JS.trim (ri_content reply) = "" →
     addReply now rid reply (mkDoc i p (Some p)) db =
       (inl (ValidationError ["Reply content is required"]), db)) ∧
  ((280 < String.length (JS.trim (ri_content reply)))%nat →
     addReply now rid reply (mkDoc i p (Some p)) db =
       (inl (ValidationError ["Reply cannot exceed 280 characters"]), db)).
Proof.
  intros _ Hfresh.
  assert (Hnew : filter (fun r => r ∉ Post.replies p)
                   (Post.replies p ++ [pushed_reply now rid reply])
                 = [pushed_reply now rid reply]).
  { rewrite filter_app.
    rewrite (filter_none _ (Post.replies p)) by (intros x Hx Hn; by apply Hn).
    rewrite filter_cons_True; [done|]. intros Hin. apply Hfresh.
    by apply (list_elem_of_fmap_2 Reply._id) in Hin. }
  split.
  - intros Hb. unfold addReply. simpl. fold (pushed_reply now rid reply).
    apply save_invalid. unfold Schema.errors. simpl. rewrite Hnew. simpl.
    unfold Schema.reply_content_error, Schema.content_error. by rewrite Hb.
  - intros Hlong. unfold addReply. simpl. fold (pushed_reply now rid reply).
    apply save_invalid. unfold Schema.errors. simpl. rewrite Hnew. simpl.
    unfold Schema.reply_content_error, Schema.content_error.
    rewrite (proj2 (truthy_length _)) by lia. simpl.
    apply Nat.ltb_lt in Hlong. by rewrite Hlong.
Qed.

Lemma addReply_refused_witness :
  (JS.trim (ri_content (mkReplyInput "   " 1%N)) = "" →
     addReply 12 8 (mkReplyInput "   " 1%N)
              (mkDoc 100 SampleReplies.post (Some SampleReplies.post))
              SampleReplies.db =
       (inl (ValidationError ["Reply content is required"]), SampleReplies.db)) ∧
  ((280 < String.length (JS.trim (ri_content (mkReplyInput "   " 1%N))))%nat →
     addReply 12 8 (mkReplyInput "   " 1%N)
              (mkDoc 100 SampleReplies.post (Some SampleReplies.post))
              SampleReplies.db =
       (inl (ValidationError ["Reply cannot exceed 280 characters"]),
        SampleReplies.db)).
Proof.
  apply (addReply_refused 12 8 (mkReplyInput "   " 1%N) 100 SampleReplies.post
           SampleReplies.db).
  - apply (bool_decide_unpack (post_valid SampleReplies.post)).
    vm_compute. exact I.
  - apply (bool_decide_unpack (Some 8%N ∉ reply_ids SampleReplies.post)).
    vm_compute. exact I.
Defined.

(** [removeReply] on a post as loaded from the database, which passes
    its schema, always goes through; it stores the replies that do not
    carry the identity, in their order, so every reply with that identity
    goes and a reply without any identity stays; the likes and dislikes of
    a post that satisfies the invariant are not touched. *)
Theorem removeReply_effect now rid i p db :
  posts db !! i = Some p →
  post_valid p →
  ∃ d' db', removeReply now rid (mkDoc i p (Some p)) db = (inr d', db') ∧
    users db' = users db ∧
    posts db' = <[i := this d']> (posts db) ∧
    Post.replies (this d') =
      filter (fun reply => Reply._id reply ≠ Some rid) (Post.replies p) ∧
    (getRepliesCount (this d') ≤ getRepliesCount p)%nat ∧
    (post_inv p → Post.likes (this d') = Post.likes p ∧
                  Post.dislikes (this d') = Post.dislikes p).
Proof.
  intros _ _.
  set (p2 := preSave (stamp now
     (Post.with_replies
        (filter (fun reply => Reply._id reply ≠ Some rid) (Post.replies p)) p) p)).
  assert (E : Post.replies p2 =
              filter (fun reply => Reply._id reply ≠ Some rid) (Post.replies p)).
  { unfold p2. rewrite preSave_replies, stamp_replies. by destruct p. }
  exists (mkDoc i p2 (Some p2)), (mkDB (users db) (<[i := p2]> (posts db))).
  split; [by apply removeReply_run|]. cbn [users posts this].
  split; [done|]. split; [done|]. split; [done|]. split.
  - unfold getRepliesCount. rewrite E. apply length_filter.
  - intros (_ & _ & Hx). rewrite Forall_forall in Hx. unfold p2.
    rewrite preSave_disjoint_id.
    + rewrite stamp_likes, stamp_dislikes. by destruct p.
    + rewrite stamp_likes, stamp_dislikes. by destruct p.
Qed.

Lemma removeReply_effect_witness :
  ∃ d' db', removeReply 12 7 (mkDoc 100 SampleReplies.post (Some SampleReplies.post))
              SampleReplies.db = (inr d', db') ∧
    users db' = users SampleReplies.db ∧
    posts db' = <[100%N := this d']> (posts SampleReplies.db) ∧
    Post.replies (this d') =
      filter (fun reply => Reply._id reply ≠ Some 7%N)
             (Post.replies SampleReplies.post) ∧
    (getRepliesCount (this d') ≤ getRepliesCount SampleReplies.post)%nat ∧
    (post_inv SampleReplies.post →
       Post.likes (this d') = Post.likes SampleReplies.post ∧
       Post.dislikes (this d') = Post.dislikes SampleReplies.post).
Proof.
  apply (removeReply_effect 12 7 100 SampleReplies.post SampleReplies.db).
  - vm_compute. reflexivity.
  - apply (bool_decide_unpack (post_valid SampleReplies.post)).
    vm_compute. exact I.
Defined.

(** ** Pagination *)

Lemma Query_sort_length sort l : List.length (Query_sort sort l) = List.length l.
Proof. unfold Query_sort. apply Permutation_length, merge_sort_Permutation. Qed.

Lemma getPaginatedPosts_run selects skip_error page limit sortBy db :
  (1 ≤ page)%N → (1 ≤ limit)%N →
  getPaginatedPosts selects skip_error page limit sortBy db =
    (inr (take (N.to_nat limit)
               (drop (N.to_nat ((page - 1) * limit))
                     (paginated_all selects sortBy db)),
          Pagination.mk page
            (Finite ((N.of_nat (List.length (paginated_all selects sortBy db))
                      + limit - 1) / limit))
            (N.of_nat (List.length (paginated_all selects sortBy db)))
            (page <? (N.of_nat (List.length (paginated_all selects sortBy db))
                      + limit - 1) / limit)%N
            (1 <? page)%N),
     db).
Proof.
  intros Hp Hlim. unfold getPaginatedPosts, Query_skip_limit, paginated_all.
  run_service.
  destruct (Z.ltb_spec ((Z.of_N page - 1) * Z.of_N limit) 0) as [Hneg|_]; [nia|].
  simpl. unfold ceil_div.
  destruct (N.eqb_spec limit 0) as [->|_]; [lia|]. simpl.
  rewrite fmap_take, fmap_drop.
  assert (E : ((Z.of_N page - 1) * Z.of_N limit)%Z = Z.of_N ((page - 1) * limit)).
  { rewrite N2Z.inj_mul, N2Z.inj_sub by lia. done. }
  rewrite E, <- Z_N_nat, N2Z.id.
  rewrite !length_fmap, !Query_sort_length. done.
Qed.

Lemma ceil_bounds (T L : N) :
  (1 ≤ L)%N →
  (T ≤ (T + L - 1) / L * L)%N ∧
  ((0 < (T + L - 1) / L)%N → (((T + L - 1) / L - 1) * L < T)%N) ∧
  (∀ page, (page < (T + L - 1) / L)%N ↔ (page * L < T)%N).
Proof.
  intros HL.
  pose proof (N.mul_succ_div_gt (T + L - 1) L ltac:(lia)) as Hup.
  pose proof (N.Div0.mul_div_le (T + L - 1) L) as Hlo.
  set (t := ((T + L - 1) / L)%N) in *.
  split; [nia|]. split; [nia|].
  intros page. split; intros H; nia.
Qed.

Lemma page_posts_eq selects skip_error limit sortBy db page :
  (1 ≤ page)%N → (1 ≤ limit)%N →
  page_posts selects skip_error limit sortBy db page =
    take (N.to_nat limit)
         (drop (N.to_nat ((page - 1) * limit)) (paginated_all selects sortBy db)).
Proof.
  intros Hp Hl. unfold page_posts.
  by rewrite (getPaginatedPosts_run selects skip_error page limit sortBy db Hp Hl).
Qed.

Lemma slice_nonempty {A} (l : list A) (n k : nat) :
  (1 ≤ k)%nat → take k (drop n l) ≠ [] ↔ (n < List.length l)%nat.
Proof.
  intros Hk. split.
  - intros Hne. destruct (Nat.le_gt_cases (List.length l) n) as [Hle|Hlt]; [|done].
    rewrite drop_ge in Hne by done. by destruct k.
  - intros Hlt Hnil.
    assert (Hlen : List.length (take k (drop n l)) = 0%nat) by (by rewrite Hnil).
    rewrite length_take, length_drop in Hlen. lia.
Qed.

(** A page of [getPaginatedPosts], for a page number and a limit of at
    least 1: the call goes through and writes nothing, the page is the
    slice from [(page-1)*limit] on of the sorted selection, at most
    [limit] posts long, and the record counts the whole selection. *)
Theorem paginated_page selects skip_error page limit sortBy db :
  (1 ≤ page)%N → (1 ≤ limit)%N →
  ∃ ps pg, getPaginatedPosts selects skip_error page limit sortBy db = (inr (ps, pg), db) ∧
    ps = take (N.to_nat limit)
              (drop (N.to_nat ((page - 1) * limit))
                    (paginated_all selects sortBy db)) ∧
    (List.length ps ≤ N.to_nat limit)%nat ∧
    Pagination.currentPage pg = page ∧
    Pagination.totalPosts pg
      = N.of_nat (List.length (paginated_all selects sortBy db)).
Proof.
  intros Hp Hl. do 2 eexists.
  split; [by apply getPaginatedPosts_run|].
  split; [done|]. split; [|done]. rewrite length_take. lia.
Qed.

Lemma paginated_page_witness :
  ∃ ps pg,
    getPaginatedPosts Post.isActive 2 2 1 "newest" SampleFeed.db
      = (inr (ps, pg), SampleFeed.db) ∧
    ps = take (N.to_nat 1)
              (drop (N.to_nat ((2 - 1) * 1))
                    (paginated_all Post.isActive "newest" SampleFeed.db)) ∧
    (List.length ps ≤ N.to_nat 1)%nat ∧
    Pagination.currentPage pg = 2%N ∧
    Pagination.totalPosts pg
      = N.of_nat (List.length (paginated_all Post.isActive "newest" SampleFeed.db)).
Proof.
  apply (paginated_page Post.isActive 2 2 1 "newest" SampleFeed.db); lia.
Defined.

(** The flags of a page, for a page number and a limit of at least 1:
    [totalPages] is the least number of pages that hold the selection,
    [hasNext] says exactly that posts remain after this page, which is
    exactly when the next page is not empty, and [hasPrev] that the page
    is not the first. *)
Theorem paginated_flags selects skip_error page limit sortBy db :
  (1 ≤ page)%N → (1 ≤ limit)%N →
  ∃ ps pg t, getPaginatedPosts selects skip_error page limit sortBy db = (inr (ps, pg), db) ∧
    Pagination.totalPages pg = Finite t ∧
    (Pagination.totalPosts pg ≤ t * limit)%N ∧
    ((0 < t)%N → ((t - 1) * limit < Pagination.totalPosts pg)%N) ∧
    (Pagination.hasNext pg = true ↔ (page * limit < Pagination.totalPosts pg)%N) ∧
    (Pagination.hasNext pg = true ↔
       page_posts selects skip_error limit sortBy db (page + 1) ≠ []) ∧
    (Pagination.hasPrev pg = true ↔ (1 < page)%N).
Proof.
  intros Hp Hl. do 3 eexists.
  split; [by apply getPaginatedPosts_run|]. simpl.
  set (T := N.of_nat (List.length (paginated_all selects sortBy db))).
  destruct (ceil_bounds T limit Hl) as (B1 & B2 & B3).
  split; [done|]. split; [done|]. split; [done|].
  split; [rewrite N.ltb_lt; apply B3|]. split; [|apply N.ltb_lt].
  rewrite N.ltb_lt, B3.
  rewrite page_posts_eq by lia.
  rewrite slice_nonempty by lia. unfold T.
  replace (page + 1 - 1)%N with page by lia. lia.
Qed.

Lemma paginated_flags_witness :
  ∃ ps pg t,
    getPaginatedPosts Post.isActive 2 1 1 "newest" SampleFeed.db
      = (inr (ps, pg), SampleFeed.db) ∧
    Pagination.totalPages pg = Finite t ∧
    (Pagination.totalPosts pg ≤ t * 1)%N ∧
    ((0 < t)%N → ((t - 1) * 1 < Pagination.totalPosts pg)%N) ∧
    (Pagination.hasNext pg = true ↔ (1 * 1 < Pagination.totalPosts pg)%N) ∧
    (Pagination.hasNext pg = true ↔
       page_posts Post.isActive 2 1 "newest" SampleFeed.db (1 + 1) ≠ []) ∧
    (Pagination.hasPrev pg = true ↔ (1 < 1)%N).
Proof.
  apply (paginated_flags Post.isActive 2 1 1 "newest" SampleFeed.db); lia.
Defined.

Lemma concat_slices {A} (l : list A) (L n : nat) :
  List.concat (map (fun k => take L (drop (k * L) l)) (seq 0 n)) = take (n * L) l.
Proof.
  induction n as [|n IH]; [done|].
  rewrite seq_S, map_app, List.concat_app, IH. simpl. rewrite app_nil_r.
  rewrite take_take_drop. f_equal. lia.
Qed.

(** The pages of [getPaginatedPosts] for a limit of at least 1, from the
    first to page [totalPages], put one after the other, are the whole
    sorted selection: no post is skipped and none comes twice. *)
Theorem paginated_partition selects skip_error limit sortBy db :
  (1 ≤ limit)%N →
  let total := N.of_nat (List.length (paginated_all selects sortBy db)) in
  let totalPages := ((total + limit - 1) / limit)%N in
  List.concat (map (fun k => page_posts selects skip_error limit sortBy db (N.of_nat (S k)))
              (seq 0 (N.to_nat totalPages)))
    = paginated_all selects sortBy db.
Proof.
  intros Hl total totalPages.
  rewrite (map_ext_in _ (fun k => take (N.to_nat limit)
             (drop (k * N.to_nat limit) (paginated_all selects sortBy db)))).
  - rewrite concat_slices. apply take_ge.
    destruct (ceil_bounds total limit Hl) as (B1 & _). fold totalPages in B1.
    unfold total in B1. nia.
  - intros k _. rewrite page_posts_eq by lia. do 2 f_equal. nia.
Qed.

Lemma paginated_partition_witness :
  let total := N.of_nat (List.length (paginated_all Post.isActive "newest" SampleFeed.db)) in
  let totalPages := ((total + 1 - 1) / 1)%N in
  List.concat (map (fun k => page_posts Post.isActive 2 1 "newest" SampleFeed.db (N.of_nat (S k)))
              (seq 0 (N.to_nat totalPages)))
    = paginated_all Post.isActive "newest" SampleFeed.db.
Proof.
  apply (paginated_partition Post.isActive 2 1 "newest" SampleFeed.db). lia.
Defined.

(** Outside that range: page 0 with a positive limit asks the server to
    skip a negative number of documents, and the call throws; a limit of 0
    is no limit, so every page is the whole selection, [totalPages] is no
    number of pages and [hasNext] is true as soon as one post is
    selected. *)
Theorem paginated_out_of_range selects skip_error page limit sortBy db :
  ((1 ≤ limit)%N →
     getPaginatedPosts selects skip_error 0 limit sortBy db = (inl (MongoServerError skip_error), db)) ∧
  ∃ pg, getPaginatedPosts selects skip_error page 0 sortBy db
          = (inr (paginated_all selects sortBy db, pg), db) ∧
    Pagination.totalPages pg
      = (if (Pagination.totalPosts pg =? 0)%N then NaN else Infinity) ∧
    Pagination.hasNext pg = negb (Pagination.totalPosts pg =? 0)%N.
Proof.
  split.
  - intros Hl. unfold getPaginatedPosts, Query_skip_limit. run_service.
    destruct (Z.ltb_spec ((0 - 1) * Z.of_N limit) 0) as [_|Hge]; [done|lia].
  - eexists. unfold getPaginatedPosts, Query_skip_limit, paginated_all.
    run_service. rewrite Z.mul_0_r. simpl. split; [done|].
    unfold ceil_div. simpl.
    by destruct (N.of_nat _ =? 0)%N.
Qed.

(** ** The user's post counter *)

Section UserCounter.

Variable bcrypt_hash : string → string.
Variable email_match : string → bool.

Lemma User_errors_loaded i u v :
  stored_paths_valid email_match u →
  User.email v = User.email u → User.password v = User.password u →
  User.firstName v = User.firstName u → User.lastName v = User.lastName u →
  User.bio v = User.bio u →
  User_errors email_match (mkUserDoc i v (Some u)) =
    if (User.postsCount v <? 0)%Z then ["Posts count cannot be negative"] else [].
Proof.
  intros (He & Hm & Hf & Hl & Hb) Ee Ep Ef El Eb.
  unfold User_errors, path_modified. simpl. rewrite Ee, Ep, Ef, El, Eb.
  rewrite bool_decide_eq_false_2 by (intros H; by apply H).
  unfold email_error, maxlength_error, postsCount_error.
  rewrite (proj2 (truthy_true_iff _) He), Hm. simpl.
  destruct (Nat.ltb_spec 50 (String.length (User.firstName u))); [lia|].
  destruct (Nat.ltb_spec 50 (String.length (User.lastName u))); [lia|].
  destruct (Nat.ltb_spec 160 (String.length (User.bio u))); [lia|].
  by destruct (User.postsCount v <? 0)%Z.
Qed.

Lemma User_save_count now i u n db :
  stored_paths_valid email_match u →
  n ≠ User.postsCount u →
  User_save bcrypt_hash email_match now
    (mkUserDoc i (User_with_postsCount n u) (Some u)) db =
  if (n <? 0)%Z
  then (inl (ValidationError ["Posts count cannot be negative"]), db)
  else
    let u' := User_with_dates (User.createdAt u) now (User_with_postsCount n u) in
    (inr (mkUserDoc i u' (Some u')), mkDB (<[i := u']> (users db)) (posts db)).
Proof.
  intros Hv Hn. unfold User_save.
  rewrite (User_errors_loaded i u (User_with_postsCount n u)) by done. simpl.
  destruct (n <? 0)%Z; [done|].
  unfold User_timestamps. simpl.
  rewrite bool_decide_eq_true_2
    by (intros E; apply Hn; by rewrite <- E).
  unfold User_preSave, path_modified. simpl.
  rewrite bool_decide_eq_false_2 by (intros H; by apply H). simpl.
  unfold User_write, path_modified. run_service.
  rewrite bool_decide_eq_false_2 by (intros H; by apply H). done.
Qed.

Lemma User_save_unmodified now i u db :
  stored_paths_valid email_match u →
  users db !! i = Some u →
  User_save bcrypt_hash email_match now (mkUserDoc i u (Some u)) db =
    if (User.postsCount u <? 0)%Z
    then (inl (ValidationError ["Posts count cannot be negative"]), db)
    else (inr (mkUserDoc i u (Some u)), db).
Proof.
  intros Hv Hl. unfold User_save.
  rewrite (User_errors_loaded i u u) by done.
  destruct (User.postsCount u <? 0)%Z; [done|].
  unfold User_timestamps. simpl.
  rewrite bool_decide_eq_false_2 by (intros H; by apply H).
  unfold User_preSave, path_modified. simpl.
  rewrite bool_decide_eq_false_2 by (intros H; by apply H). simpl.
  unfold User_write, path_modified. run_service.
  rewrite bool_decide_eq_false_2 by (intros H; by apply H). simpl.
  rewrite insert_id by done. by destruct db.
Qed.

(** [decrementPostsCount] on a user as loaded from the database, whose
    stored paths are valid and whose counter is not negative, never takes
    the counter below zero: a positive counter goes down by one, and
    nothing but the counter and the update time changes (the password is
    not hashed again); a counter of zero is left alone together with the
    whole database. *)
Theorem decrementPostsCount_floor now i u db :
  users db !! i = Some u →
  stored_paths_valid email_match u →
  (0 ≤ User.postsCount u)%Z →
  let r := decrementPostsCount bcrypt_hash email_match now
             (mkUserDoc i u (Some u)) db in
  ((0 < User.postsCount u)%Z →
     ∃ u', r = (inr (mkUserDoc i u' (Some u')),
                mkDB (<[i := u']> (users db)) (posts db)) ∧
       User.postsCount u' = (User.postsCount u - 1)%Z ∧
       User.updatedAt u' = now ∧ same_but_count u u') ∧
  (User.postsCount u = 0%Z → r = (inr (mkUserDoc i u (Some u)), db)).
Proof.
  intros Hl Hv Hc r. subst r. unfold decrementPostsCount. simpl.
  destruct (Z.ltb_spec 0 (User.postsCount u)) as [Hpos|Hle].
  - rewrite User_save_count by (done || lia).
    destruct (Z.ltb_spec (User.postsCount u - 1) 0) as [Hneg|_]; [lia|].
    split; [|intros; lia]. intros _.
    eexists. split; [done|]. by repeat split.
  - rewrite User_save_unmodified by done.
    split; [intros; lia|]. intros Hz.
    by destruct (Z.ltb_spec (User.postsCount u) 0); [lia|].
Qed.

(** [incrementPostsCount] on a user as loaded from the database, whose
    stored paths are valid, adds one to the counter and changes nothing
    else but the update time; on a counter below -1 the result would still
    be negative and the schema refuses the save. *)
Theorem incrementPostsCount_effect now i u db :
  users db !! i = Some u →
  stored_paths_valid email_match u →
  let r := incrementPostsCount bcrypt_hash email_match now
             (mkUserDoc i u (Some u)) db in
  ((-1 ≤ User.postsCount u)%Z →
     ∃ u', r = (inr (mkUserDoc i u' (Some u')),
                mkDB (<[i := u']> (users db)) (posts db)) ∧
       User.postsCount u' = (User.postsCount u + 1)%Z ∧
       User.updatedAt u' = now ∧ same_but_count u u') ∧
  ((User.postsCount u < -1)%Z →
     r = (inl (ValidationError ["Posts count cannot be negative"]), db)).
Proof.
  intros _ Hv r. subst r.
  unfold incrementPostsCount. simpl. rewrite User_save_count by (done || lia). split.
  - intros Hc. destruct (Z.ltb_spec (User.postsCount u + 1) 0) as [Hneg|_]; [lia|].
    eexists. split; [done|]. by repeat split.
  - intros Hc. by destruct (Z.ltb_spec (User.postsCount u + 1) 0) as [_|Hge]; [|lia].
Qed.

(** An increment followed by a decrement, on a loaded user with valid
    stored paths and a counter that is not negative, gives the counter
    back. *)
Theorem increment_then_decrement now1 now2 i u db :
  users db !! i = Some u →
  stored_paths_valid email_match u →
  (0 ≤ User.postsCount u)%Z →
  ∃ d1 db1 u2,
    incrementPostsCount bcrypt_hash email_match now1 (mkUserDoc i u (Some u)) db
      = (inr d1, db1) ∧
    decrementPostsCount bcrypt_hash email_match now2 d1 db1
      = (inr (mkUserDoc i u2 (Some u2)),
         mkDB (<[i := u2]> (users db)) (posts db)) ∧
    User.postsCount u2 = User.postsCount u ∧ same_but_count u u2.
Proof.
  intros _ Hv Hc. unfold incrementPostsCount. simpl.
  rewrite User_save_count by (done || lia).
  destruct (Z.ltb_spec (User.postsCount u + 1) 0) as [Hneg|_]; [lia|].
  do 3 eexists. split; [done|]. unfold decrementPostsCount. simpl.
  destruct (Z.ltb_spec 0 (User.postsCount u + 1)) as [_|Hle]; [|lia].
  match goal with
  | |- context [User_save _ _ _ (mkUserDoc _ (User_with_postsCount ?n ?v) _)] =>
      rewrite (User_save_count now2 i v n) by (done || (simpl; lia))
  end.
  simpl. destruct (Z.ltb_spec (User.postsCount u + 1 - 1) 0) as [Hneg|_]; [lia|].
  rewrite insert_insert_eq. split; [done|]. simpl. split; [lia|]. by repeat split.
Qed.

End UserCounter.

Lemma decrementPostsCount_floor_witness :
  let r := decrementPostsCount SampleUsers.bcrypt_hash SampleUsers.email_match 30
             (mkUserDoc 12 SampleUsers.erin (Some SampleUsers.erin))
             SampleUsers.db in
  ((0 < User.postsCount SampleUsers.erin)%Z →
     ∃ u', r = (inr (mkUserDoc 12 u' (Some u')),
                mkDB (<[12%N := u']> (users SampleUsers.db))
                     (posts SampleUsers.db)) ∧
       User.postsCount u' = (User.postsCount SampleUsers.erin - 1)%Z ∧
       User.updatedAt u' = 30%N ∧ same_but_count SampleUsers.erin u') ∧
  (User.postsCount SampleUsers.erin = 0%Z →
     r = (inr (mkUserDoc 12 SampleUsers.erin (Some SampleUsers.erin)),
          SampleUsers.db)).
Proof.
  apply (decrementPostsCount_floor SampleUsers.bcrypt_hash SampleUsers.email_match
           30 12 SampleUsers.erin SampleUsers.db).
  - vm_compute. reflexivity.
  - split; [done|]. split; [vm_compute; reflexivity|]. simpl. lia.
  - vm_compute. discriminate.
Defined.

Lemma incrementPostsCount_effect_witness :
  let r := incrementPostsCount SampleUsers.bcrypt_hash SampleUsers.email_match 30
             (mkUserDoc 12 SampleUsers.erin (Some SampleUsers.erin))
             SampleUsers.db in
  ((-1 ≤ User.postsCount SampleUsers.erin)%Z →
     ∃ u', r = (inr (mkUserDoc 12 u' (Some u')),
                mkDB (<[12%N := u']> (users SampleUsers.db))
                     (posts SampleUsers.db)) ∧
       User.postsCount u' = (User.postsCount SampleUsers.erin + 1)%Z ∧
       User.updatedAt u' = 30%N ∧ same_but_count SampleUsers.erin u') ∧
  ((User.postsCount SampleUsers.erin < -1)%Z →
     r = (inl (ValidationError ["Posts count cannot be negative"]),
          SampleUsers.db)).
Proof.
  apply (incrementPostsCount_effect SampleUsers.bcrypt_hash SampleUsers.email_match
           30 12 SampleUsers.erin SampleUsers.db).
  - vm_compute. reflexivity.
  - split; [done|]. split; [vm_compute; reflexivity|]. simpl. lia.
Defined.

Lemma increment_then_decrement_witness :
  ∃ d1 db1 u2,
    incrementPostsCount SampleUsers.bcrypt_hash SampleUsers.email_match 30
      (mkUserDoc 12 SampleUsers.erin (Some SampleUsers.erin)) SampleUsers.db
      = (inr d1, db1) ∧
    decrementPostsCount SampleUsers.bcrypt_hash SampleUsers.email_match 31 d1 db1
      = (inr (mkUserDoc 12 u2 (Some u2)),
         mkDB (<[12%N := u2]> (users SampleUsers.db)) (posts SampleUsers.db)) ∧
    User.postsCount u2 = User.postsCount SampleUsers.erin ∧
    same_but_count SampleUsers.erin u2.
Proof.
  apply (increment_then_decrement SampleUsers.bcrypt_hash SampleUsers.email_match
           30 31 12 SampleUsers.erin SampleUsers.db).
  - vm_compute. reflexivity.
  - split; [done|]. split; [vm_compute; reflexivity|]. simpl. lia.
  - vm_compute. discriminate.
Defined.

(** ** The full name *)

Lemma trimEnd_snoc_ws (s : string) (c : ascii) :
  JS.isWhiteSpace c = true → JS.trimEnd (s +:+ String c "") = JS.trimEnd s.
Proof.
  intros Hc. induction s as [|a s IH]; simpl; [by rewrite Hc|].
  by rewrite IH.
Qed.

Lemma trimStart_snoc_ws (s : string) (c : ascii) :
  JS.isWhiteSpace c = true →
  JS.trimEnd (JS.trimStart (s +:+ String c "")) = JS.trimEnd (JS.trimStart s).
Proof.
  intros Hc. induction s as [|a s IH]; simpl; [by rewrite Hc|].
  destruct (JS.isWhiteSpace a) eqn:Ea; [done|].
  change (String a (s +:+ String c "")) with (String a s +:+ String c "").
  by apply trimEnd_snoc_ws.
Qed.

(** [getFullName] never has white space at either end: with no last name
    it is the trimmed first name (no space trails it), with no first name
    the trimmed last name, and for an account whose names are still empty
    it is empty. *)
Theorem getFullName_trimmed (u : User.t) :
  JS.trim (getFullName u) = getFullName u ∧
  (User.lastName u = "" → getFullName u = JS.trim (User.firstName u)) ∧
  (User.firstName u = "" → getFullName u = JS.trim (User.lastName u)) ∧
  (User.firstName u = "" → User.lastName u = "" → getFullName u = "").
Proof.
  unfold getFullName. split; [apply trim_idem|]. split; [|split].
  - intros ->. unfold JS.trim. by apply trimStart_snoc_ws.
  - by intros ->.
  - by intros -> ->.
Qed.

(** ** Deleting a post *)

(** [findOneAndDelete] on an [_id] nobody has changes nothing; on a
    stored post it removes that post and no other, and takes one off the
    counter of its author whatever the counter is (below zero too, unlike
    [decrementPostsCount]); the other users are left alone. *)
Theorem findOneAndDelete_effect oid db :
  (posts db !! oid = None → Post_findOneAndDelete oid db = (inr None, db)) ∧
  (∀ P, posts db !! oid = Some P →
     ∃ db', Post_findOneAndDelete oid db = (inr (Some P), db') ∧
       posts db' !! oid = None ∧
       (∀ k, k ≠ oid → posts db' !! k = posts db !! k) ∧
       (User.postsCount <$> users db' !! Post.author P)
         = ((fun c => c - 1)%Z <$> (User.postsCount <$> users db !! Post.author P)) ∧
       (∀ k, k ≠ Post.author P → users db' !! k = users db !! k)).
Proof.
  split.
  - intros Hl. unfold Post_findOneAndDelete. run_service. by rewrite Hl.
  - intros P Hl. eexists. split.
    + unfold Post_findOneAndDelete, User_findByIdAndUpdate_inc. run_service.
      by rewrite Hl.
    + simpl. split; [apply lookup_delete_eq|].
      split; [intros k Hk; by apply lookup_delete_ne|]. split.
      * rewrite lookup_alter_eq.
        destruct (users db !! Post.author P) as [u|]; simpl; [|done].
        f_equal; lia.
      * intros k Hk. by apply lookup_alter_ne.
Qed.

(** A post created and then deleted: the posts are what they were before
    the creation, and the author's counter is one lower than it was, since
    the creation added nothing to it. *)
Theorem create_then_delete now newId userId postData db :
  success (createPost now newId userId postData db).1 = true →
  ∃ uid user P db2,
    ObjectId.fromString userId = Some uid ∧
    users db !! uid = Some user ∧
    Post_findOneAndDelete newId (createPost now newId userId postData db).2
      = (inr (Some P), db2) ∧
    posts db2 = posts db ∧
    User.postsCount <$> users db2 !! uid = Some (User.postsCount user - 1)%Z ∧
    ∀ k, k ≠ uid → users db2 !! k = users db !! k.
Proof.
  intros Hs.
  destruct (createPost_success_inv now newId userId postData db Hs)
    as (uid & user & ty & P & Hu & Hl & _ & _ & Hfresh & HP & -> & _).
  destruct HP as (Hauthor & _).
  exists uid, user, P. eexists.
  split; [done|]. split; [done|]. split.
  - unfold Post_findOneAndDelete, User_findByIdAndUpdate_inc. run_service.
    by rewrite lookup_insert_eq.
  - simpl. rewrite Hauthor. split; [|split].
    + rewrite delete_insert_eq. by apply delete_id.
    + rewrite lookup_alter_eq, Hl. simpl. f_equal; lia.
    + intros k Hk. by apply lookup_alter_ne.
Qed.

Lemma create_then_delete_witness :
  ∃ uid user P db2,
    ObjectId.fromString Sample.alice = Some uid ∧
    users Sample.db_fresh !! uid = Some user ∧
    Post_findOneAndDelete 101
      (createPost 20 101 Sample.alice Sample.taco_request Sample.db_fresh).2
      = (inr (Some P), db2) ∧
    posts db2 = posts Sample.db_fresh ∧
    User.postsCount <$> users db2 !! uid = Some (User.postsCount user - 1)%Z ∧
    ∀ k, k ≠ uid → users db2 !! k = users Sample.db_fresh !! k.
Proof.
  apply (create_then_delete 20 101 Sample.alice Sample.taco_request Sample.db_fresh).
  vm_compute. reflexivity.
Defined.

(** ** The profile service *)

Lemma ltb_false_le (a b : nat) : (a <? b)%nat = false ↔ (b ≤ a)%nat.
Proof. rewrite Nat.ltb_ge. done. Qed.

Lemma updateUserProfile_cases now userId profileData db :
  (ProfileResponse.success (updateUserProfile now userId profileData db).1 = false ∧
   (updateUserProfile now userId profileData db).2 = db) ∨
  ∃ uid u u',
    ObjectId.fromString userId = Some uid ∧ users db !! uid = Some u ∧
    User.isActive u = true ∧ profile_updated now profileData u u' ∧
    updateUserProfile now userId profileData db =
      (ProfileResponse.mk true "Profile updated successfully"
         (Some (userResponse uid u')) None,
       mkDB (<[uid := u']> (users db)) (posts db)).
Proof.
  unfold updateUserProfile.
  destruct (JS.truthy userId) eqn:Tu; [|by left]. simpl.
  destruct (JS.truthy (JS.trim (UpdateProfileRequest.firstName profileData)))
    eqn:Tf; [|by left]. simpl.
  destruct (JS.truthy (JS.trim (UpdateProfileRequest.lastName profileData)))
    eqn:Tl; [|by left]. simpl.
  destruct (50 <? String.length (JS.trim (UpdateProfileRequest.firstName profileData)))%nat
    eqn:Lf; [by left|].
  destruct (50 <? String.length (JS.trim (UpdateProfileRequest.lastName profileData)))%nat
    eqn:Ll; [by left|].
  apply ltb_false_le in Lf, Ll.
  apply truthy_nonempty in Tf as Nf. apply truthy_nonempty in Tl as Nl.
  destruct (match UpdateProfileRequest.bio profileData with
            | Some bio => JS.truthy bio && (160 <? String.length (JS.trim bio))%nat
            | None => false
            end) eqn:Lb; [by left|].
  unfold User_findById, User_findByIdAndUpdate_profile.
  destruct (ObjectId.fromString userId) as [uid|] eqn:Hu; [|by left].
  run_service.
  destruct (users db !! uid) as [u|] eqn:Hl; [|by left]. simpl.
  destruct (User.isActive u) eqn:Ha; [|by left]. simpl.
  rewrite !trim_idem. unfold maxlength_error.
  rewrite (proj2 (ltb_false_le _ _) Lf), (proj2 (ltb_false_le _ _) Ll). simpl.
  set (bio := match UpdateProfileRequest.bio profileData with
              | Some bio => if JS.truthy bio then JS.trim bio else User.bio u
              | None => User.bio u
              end).
  assert (Hbio : JS.trim bio = updated_bio profileData u).
  { unfold bio, updated_bio. destruct (UpdateProfileRequest.bio profileData) as [b|];
      [|done]. destruct (JS.truthy b); [apply trim_idem|done]. }
  destruct (160 <? String.length (JS.trim bio))%nat eqn:Lbio; [by left|].
  apply ltb_false_le in Lbio. simpl. rewrite Hl. simpl.
  right. exists uid, u. eexists. split; [done|]. split; [done|]. split; [done|].
  split; [|done].
  unfold profile_updated, User_set_profile. simpl. rewrite !trim_idem.
  rewrite <- Hbio. repeat split; try done; try lia.
Qed.

(** An [updateUserProfile] that does not succeed writes nothing.  One that
    succeeds found an active user under the id and rewrote that user
    alone: the names trimmed, each of 1 to 50 characters; the city as
    given, not trimmed; the bio of the request trimmed, or the stored bio
    when the request has none or an empty one; the update time.  Email,
    password, post counter and the other fields stay, and so do the other
    users and every post. *)
Theorem updateUserProfile_effect now userId profileData db :
  (ProfileResponse.success (updateUserProfile now userId profileData db).1 = false →
   (updateUserProfile now userId profileData db).2 = db) ∧
  (ProfileResponse.success (updateUserProfile now userId profileData db).1 = true →
   ∃ uid u u',
     ObjectId.fromString userId = Some uid ∧ users db !! uid = Some u ∧
     User.isActive u = true ∧ profile_updated now profileData u u' ∧
     ProfileResponse.data (updateUserProfile now userId profileData db).1
       = Some (userResponse uid u') ∧
     users (updateUserProfile now userId profileData db).2 = <[uid := u']> (users db) ∧
     posts (updateUserProfile now userId profileData db).2 = posts db).
Proof.
  destruct (updateUserProfile_cases now userId profileData db)
    as [[Hs Hdb]|(uid & u & u' & Hu & Hl & Ha & Hp & E)].
  - split; [done|]. intros Hs'. by rewrite Hs in Hs'.
  - rewrite E. simpl. split; [done|]. intros _. by exists uid, u, u'.
Qed.

(** [updateUserProfile] checks the request before it looks for the user:
    a request that fails a check gets that check's response even when the
    user id is malformed or unknown.  A request that passes is answered by
    the state of the user: an id that is no ObjectId, an unknown user, a
    deactivated account. *)
Theorem updateUserProfile_checks now userId profileData db :
  (userId = "" →
     (updateUserProfile now userId profileData db).1
       = profile_failure "User ID is required" "Missing user ID") ∧
  (∀ r, userId ≠ "" → profile_request_error profileData = Some r →
     (updateUserProfile now userId profileData db).1 = r) ∧
  (userId ≠ "" → profile_request_error profileData = None →
     (ObjectId.fromString userId = None →
        (updateUserProfile now userId profileData db).1
          = profile_failure "Invalid user ID format" "Invalid ObjectId") ∧
     (∀ uid, ObjectId.fromString userId = Some uid → users db !! uid = None →
        (updateUserProfile now userId profileData db).1
          = profile_failure "User not found" "User does not exist") ∧
     (∀ uid u, ObjectId.fromString userId = Some uid → users db !! uid = Some u →
        User.isActive u = false →
        (updateUserProfile now userId profileData db).1
          = profile_failure "Account is deactivated" "Account status inactive")).
Proof.
  split; [by intros ->|].
  unfold updateUserProfile, profile_request_error.
  split.
  - intros r Hne%truthy_true_iff. rewrite Hne. simpl.
    destruct (negb (JS.truthy (JS.trim (UpdateProfileRequest.firstName profileData)))
              || negb (JS.truthy (JS.trim (UpdateProfileRequest.lastName profileData))));
      [by intros [= <-]|].
    destruct (50 <? _)%nat; [by intros [= <-]|].
    destruct (50 <? _)%nat; [by intros [= <-]|].
    destruct (UpdateProfileRequest.bio profileData) as [bio|]; [|done].
    destruct (JS.truthy bio && (160 <? String.length (JS.trim bio))%nat);
      [by intros [= <-]|done].
  - intros Hne%truthy_true_iff. rewrite Hne. simpl.
    destruct (negb (JS.truthy (JS.trim (UpdateProfileRequest.firstName profileData)))
              || negb (JS.truthy (JS.trim (UpdateProfileRequest.lastName profileData))));
      [done|].
    destruct (50 <? _)%nat; [done|].
    destruct (50 <? _)%nat; [done|].
    intros Hbio.
    assert (Hb : match UpdateProfileRequest.bio profileData with
                 | Some bio => JS.truthy bio
                               && (160 <? String.length (JS.trim bio))%nat
                 | None => false
                 end = false).
    { destruct (UpdateProfileRequest.bio profileData) as [bio|]; [|done].
      by destruct (JS.truthy bio && (160 <? String.length (JS.trim bio))%nat). }
    rewrite Hb. unfold User_findById. split; [|split].
    + intros ->. by run_service.
    + intros uid -> Hl. run_service. by rewrite Hl.
    + intros uid u -> Hl Ha. run_service. rewrite Hl. simpl. by rewrite Ha.
Qed.

(** After a successful [updateUserProfile] the user's home feed, asked
    without a city, is the feed of the city just stored; when the query
    asks for nothing else, an active post is in it exactly when its city
    is that city trimmed, or whatever its city when that city is blank. *)
Theorem profile_city_drives_home_feed
    (regexCompile : string → Exn + (string → bool)) now userId profileData q db :
  ProfileResponse.success (updateUserProfile now userId profileData db).1 = true →
  PostQueryParams.city q = None →
  let db' := (updateUserProfile now userId profileData db).2 in
  let c := UpdateProfileRequest.city profileData in
  getUserCityFeed regexCompile userId q db'
    = getPostsFeed regexCompile (PostQueryParams.with_city (Some c) q) db' ∧
  (only_sorted q →
   ∀ pid P, posts db !! pid = Some P → Post.isActive P = true →
     (in_feed (getUserCityFeed regexCompile userId q db').1 pid P ↔
        JS.trim c = "" ∨ Post.city P = JS.trim c)).
Proof.
  intros Hs Hq db' c.
  destruct (updateUserProfile_cases now userId profileData db)
    as [[Hf _]|(uid & u & u' & Hu & Hl & Ha & Hp & E)];
    [by rewrite Hf in Hs|].
  assert (Hdb' : db' = mkDB (<[uid := u']> (users db)) (posts db))
    by (unfold db'; by rewrite E).
  destruct Hp as (_ & _ & _ & _ & Hcity & _ & _ & _ & _ & _ & _ & Hact & _).
  assert (Hfeed : getUserCityFeed regexCompile userId q db'
                  = getPostsFeed regexCompile (PostQueryParams.with_city (Some c) q) db').
  { rewrite (getUserCityFeed_run regexCompile userId uid q db' Hu), Hdb'. simpl.
    rewrite lookup_insert_eq, Hact, Hq, Hcity. done. }
  split; [done|].
  intros (Ht & Hau & _ & Hse) pid P HP HactP. rewrite Hfeed.
  rewrite (in_feed_found regexCompile _ _ db' pid P
             (build_filter_city_only q (Some c) db' Ht Hau Hse)).
  rewrite Hdb'. simpl. unfold matches. simpl. rewrite HactP. simpl.
  destruct (JS.truthy (JS.trim c)) eqn:Tc; simpl.
  - rewrite !andb_true_r, bool_decide_eq_true. apply truthy_true_iff in Tc.
    intuition.
  - apply truthy_false_iff in Tc. intuition.
Qed.

Lemma profile_city_drives_home_feed_witness :
  let profileData := UpdateProfileRequest.mk "Carol" "Doe" " Austin " None in
  let db' := (updateUserProfile 40 Sample.carol profileData Sample.db_fresh).2 in
  let c := UpdateProfileRequest.city profileData in
  getUserCityFeed SampleFeed.regexCompile Sample.carol SampleFeed.newest db'
    = getPostsFeed SampleFeed.regexCompile
        (PostQueryParams.with_city (Some c) SampleFeed.newest) db' ∧
  (only_sorted SampleFeed.newest →
   ∀ pid P, posts Sample.db_fresh !! pid = Some P → Post.isActive P = true →
     (in_feed (getUserCityFeed SampleFeed.regexCompile Sample.carol
                 SampleFeed.newest db').1 pid P ↔
        JS.trim c = "" ∨ Post.city P = JS.trim c)).
Proof.
  apply (profile_city_drives_home_feed SampleFeed.regexCompile 40 Sample.carol
           (UpdateProfileRequest.mk "Carol" "Doe" " Austin " None)
           SampleFeed.newest Sample.db_fresh).
  - vm_compute. reflexivity.
  - reflexivity.
Defined.

(** [getUserProfile] writes nothing.  It succeeds exactly for the id of
    an existing active user and then shows that user's stored fields;
    otherwise it says which of the three it was: an id that is no
    ObjectId, an unknown user, a deactivated account. *)
Theorem getUserProfile_reads userId db :
  (getUserProfile userId db).2 = db ∧
  (ProfileResponse.success (getUserProfile userId db).1 = true ↔
     ∃ uid u, ObjectId.fromString userId = Some uid ∧
              users db !! uid = Some u ∧ User.isActive u = true) ∧
  (∀ uid u, ObjectId.fromString userId = Some uid → users db !! uid = Some u →
     User.isActive u = true →
     ProfileResponse.data (getUserProfile userId db).1 = Some (userResponse uid u)) ∧
  (userId ≠ "" → ObjectId.fromString userId = None →
     (getUserProfile userId db).1
       = profile_failure "Invalid user ID format" "Invalid ObjectId") ∧
  (∀ uid, ObjectId.fromString userId = Some uid → users db !! uid = None →
     (getUserProfile userId db).1
       = profile_failure "User not found" "User does not exist") ∧
  (∀ uid u, ObjectId.fromString userId = Some uid → users db !! uid = Some u →
     User.isActive u = false →
     (getUserProfile userId db).1
       = profile_failure "Account is deactivated" "Account status inactive").
Proof.
  unfold getUserProfile, User_findById.
  destruct (JS.truthy userId) eqn:Tu; cycle 1.
  { apply truthy_false_iff in Tu as ->. simpl.
    repeat split; try done. intros (uid & u & Hu & _). done. }
  simpl. destruct (ObjectId.fromString userId) as [uid|] eqn:Hu; cycle 1.
  { run_service. repeat split; try done. intros (uid & u & Hu' & _). done. }
  run_service. destruct (users db !! uid) as [u|] eqn:Hl; cycle 1.
  { simpl. repeat split; try done.
    - intros (uid' & u & [= <-] & Hl' & _). by rewrite Hl in Hl'.
    - intros uid' u [= <-]. by rewrite Hl.
    - intros uid' u [= <-]. by rewrite Hl. }
  simpl. destruct (User.isActive u) eqn:Ha; simpl.
  - repeat split; try done.
    + intros _. by exists uid, u.
    + intros uid' u' [= <-]. rewrite Hl. by intros [= <-].
    + intros uid' [= <-]. by rewrite Hl.
    + intros uid' u' [= <-]. rewrite Hl. intros [= <-]. by rewrite Ha.
  - repeat split; try done.
    + intros (uid' & u' & [= <-] & Hl' & Ha'). rewrite Hl in Hl'.
      injection Hl' as <-. by rewrite Ha in Ha'.
    + intros uid' u' [= <-]. rewrite Hl. intros [= <-]. by rewrite Ha.
    + intros uid' [= <-]. by rewrite Hl.
Qed.

(** ** The auth middleware *)

Lemma getUserById_Some userId db u :
  getUserById userId db = Some u ↔
    ∃ uid, ObjectId.fromString userId = Some uid ∧ users db !! uid = Some u.
Proof.
  unfold getUserById, User_findById.
  destruct (ObjectId.fromString userId) as [uid|]; run_service.
  - split; [intros H; by exists uid|]. by intros (uid' & [= <-] & H).
  - split; [done|]. by intros (uid' & H & _).
Qed.

(** The middleware calls [next()] exactly for a token that verifies to
    the id of an existing, active user, and hands that id on.  Otherwise
    it answers 401 without a token, 403 for a token that does not verify,
    404 for an id that is no ObjectId or that nobody has, and 403 for a
    deactivated account. *)
Theorem authenticateToken_gate (verifyToken : string → option string) token db :
  (∀ userId, authenticateToken verifyToken token db = Next userId ↔
     ∃ t, token = Some t ∧ t ≠ "" ∧ verifyToken t = Some userId ∧
          active_user db userId) ∧
  (token = None ∨ token = Some "" →
     authenticateToken verifyToken token db
       = Rejected (mkReply 401 (failure "Access token required" "No token provided"))) ∧
  (∀ t, token = Some t → t ≠ "" → verifyToken t = None →
     authenticateToken verifyToken token db
       = Rejected (mkReply 403 (failure "Invalid or expired token"
                                        "Token verification failed"))) ∧
  (∀ t userId, token = Some t → t ≠ "" → verifyToken t = Some userId →
     getUserById userId db = None →
     authenticateToken verifyToken token db
       = Rejected (mkReply 404 (failure "User not found" "User does not exist"))) ∧
  (∀ t userId u, token = Some t → t ≠ "" → verifyToken t = Some userId →
     getUserById userId db = Some u → User.isActive u = false →
     authenticateToken verifyToken token db
       = Rejected (mkReply 403 (failure "Account is deactivated"
                                        "Account status inactive"))).
Proof.
  unfold authenticateToken. split; [|split; [|split; [|split]]].
  - intros userId. destruct token as [t|]; simpl; cycle 1.
    { split; [done|]. by intros (t & H & _). }
    destruct (JS.truthy t) eqn:Tt; cycle 1.
    { apply truthy_false_iff in Tt as ->. split; [done|].
      by intros (t & [= <-] & Hne & _). }
    apply truthy_true_iff in Tt.
    destruct (verifyToken t) as [v|] eqn:Hv; cycle 1.
    { split; [done|]. intros (t' & [= <-] & _ & Hv' & _). by rewrite Hv in Hv'. }
    destruct (getUserById v db) as [u|] eqn:Hg; cycle 1.
    { split; [done|]. intros (t' & [= <-] & _ & Hv' & uid & u & Hu & Hl & _).
      rewrite Hv in Hv'. injection Hv' as ->.
      assert (getUserById userId db = Some u) by (apply getUserById_Some; eauto).
      congruence. }
    apply getUserById_Some in Hg as (uid & Hu & Hl).
    destruct (User.isActive u) eqn:Ha; simpl.
    + split.
      * intros [= <-]. exists t. repeat split; try done. by exists uid, u.
      * intros (t' & [= <-] & _ & Hv' & _). rewrite Hv in Hv'. by injection Hv' as ->.
    + split; [done|].
      intros (t' & [= <-] & _ & Hv' & uid' & u' & Hu' & Hl' & Ha').
      rewrite Hv in Hv'. injection Hv' as ->. rewrite Hu in Hu'.
      injection Hu' as <-. rewrite Hl in Hl'. injection Hl' as <-.
      by rewrite Ha in Ha'.
  - by intros [->| ->].
  - intros t -> Hne%truthy_true_iff Hv. simpl. by rewrite Hne, Hv.
  - intros t userId -> Hne%truthy_true_iff Hv Hg. simpl. by rewrite Hne, Hv, Hg.
  - intros t userId u -> Hne%truthy_true_iff Hv Hg Ha. simpl.
    by rewrite Hne, Hv, Hg, Ha.
Qed.

(** ** The toggle routes *)

Lemma fromString_empty : ObjectId.fromString "" = None.
Proof. done. Qed.

Lemma handleTogglePostLike_table now userId U postId db :
  ObjectId.fromString userId = Some U →
  posts_valid db →
  toggle_http_table (handleTogglePostLike now (Some userId) postId db)
                    (togglePostLike now postId userId db) postId db.
Proof.
  intros Hu Hv. pose proof (fromString_truthy _ _ Hu) as Tu.
  apply truthy_true_iff in Tu as Hne.
  unfold toggle_http_table, handleTogglePostLike, active_post. simpl. rewrite Tu.
  destruct (JS.truthy postId) eqn:Tp; cycle 1.
  { apply truthy_false_iff in Tp as ->. simpl.
    repeat split; try done; try tauto.
    intros (pid & p & Hp & _). done. }
  simpl. apply truthy_true_iff in Tp as Hnp.
  destruct (togglePostLike_table now postId userId db)
    as (T0 & _ & T2 & T3 & T4 & T5 & T6 & T7).
  destruct (togglePostLike now postId userId db) as [result db'] eqn:E.
  simpl in *.
  destruct (ObjectId.fromString postId) as [pid|] eqn:Hp; cycle 1.
  { rewrite (T2 Hnp Hne eq_refl) in *. simpl. rewrite (T0 eq_refl).
    repeat split; try done; try tauto. intros (pid & p & H & _). done. }
  destruct (posts db !! pid) as [p|] eqn:Hl; cycle 1.
  { rewrite (T3 pid Hne eq_refl Hl) in *. simpl. rewrite (T0 eq_refl).
    repeat split; try done; try tauto.
    intros (pid' & p & [= <-] & Hl' & _). by rewrite Hl in Hl'. }
  destruct (Post.isActive p) eqn:Ha; cycle 1.
  { rewrite (T4 pid p Hne eq_refl Hl Ha) in *. simpl. rewrite (T0 eq_refl).
    repeat split; try done; try tauto.
    intros (pid' & p' & [= <-] & Hl' & Ha'). rewrite Hl in Hl'.
    injection Hl' as <-. by rewrite Ha in Ha'. }
  assert (Hs : success result = true)
    by (apply (T7 pid U p); try done; by apply (Hv pid)).
  rewrite Hs. simpl. repeat split; try done; try tauto.
  intros _. by exists pid, p.
Qed.

Lemma handleTogglePostDislike_table now userId U postId db :
  ObjectId.fromString userId = Some U →
  posts_valid db →
  toggle_http_table (handleTogglePostDislike now (Some userId) postId db)
                    (togglePostDislike now postId userId db) postId db.
Proof.
  intros Hu Hv. pose proof (fromString_truthy _ _ Hu) as Tu.
  apply truthy_true_iff in Tu as Hne.
  unfold toggle_http_table, handleTogglePostDislike, active_post. simpl. rewrite Tu.
  destruct (JS.truthy postId) eqn:Tp; cycle 1.
  { apply truthy_false_iff in Tp as ->. simpl.
    repeat split; try done; try tauto.
    intros (pid & p & Hp & _). done. }
  simpl. apply truthy_true_iff in Tp as Hnp.
  destruct (togglePostDislike_table now postId userId db)
    as (T0 & _ & T2 & T3 & T4 & T5 & T6 & T7).
  destruct (togglePostDislike now postId userId db) as [result db'] eqn:E.
  simpl in *.
  destruct (ObjectId.fromString postId) as [pid|] eqn:Hp; cycle 1.
  { rewrite (T2 Hnp Hne eq_refl) in *. simpl. rewrite (T0 eq_refl).
    repeat split; try done; try tauto. intros (pid & p & H & _). done. }
  destruct (posts db !! pid) as [p|] eqn:Hl; cycle 1.
  { rewrite (T3 pid Hne eq_refl Hl) in *. simpl. rewrite (T0 eq_refl).
    repeat split; try done; try tauto.
    intros (pid' & p & [= <-] & Hl' & _). by rewrite Hl in Hl'. }
  destruct (Post.isActive p) eqn:Ha; cycle 1.
  { rewrite (T4 pid p Hne eq_refl Hl Ha) in *. simpl. rewrite (T0 eq_refl).
    repeat split; try done; try tauto.
    intros (pid' & p' & [= <-] & Hl' & Ha'). rewrite Hl in Hl'.
    injection Hl' as <-. by rewrite Ha in Ha'. }
  assert (Hs : success result = true)
    by (apply (T7 pid U p); try done; by apply (Hv pid)).
  rewrite Hs. simpl. repeat split; try done; try tauto.
  intros _. by exists pid, p.
Qed.

(** The toggle routes, for a caller the middleware let through (its id is
    an ObjectId), over stored posts that pass the validators of their
    schema: they answer 200 exactly when the post exists and is active,
    400 exactly when the post id is no ObjectId, and 404 otherwise (no
    such post, or an inactive one); never 401 or 500.  The body is the
    service's response, and nothing is written unless the answer is 200.
    Without [req.userId] they answer 401 and do nothing. *)
Theorem toggle_routes now userId U postId db :
  ObjectId.fromString userId = Some U →
  posts_valid db →
  toggle_http_table (handleTogglePostLike now (Some userId) postId db)
                    (togglePostLike now postId userId db) postId db ∧
  toggle_http_table (handleTogglePostDislike now (Some userId) postId db)
                    (togglePostDislike now postId userId db) postId db ∧
  handleTogglePostLike now None postId db = (not_authenticated, db) ∧
  handleTogglePostDislike now None postId db = (not_authenticated, db).
Proof.
  intros Hu Hv. split; [by apply (handleTogglePostLike_table now userId U)|].
  split; [by apply (handleTogglePostDislike_table now userId U)|]. done.
Qed.

Lemma toggle_routes_witness :
  toggle_http_table (handleTogglePostLike 11 (Some Sample.bob) Sample.taco Sample.db_fresh)
                    (togglePostLike 11 Sample.taco Sample.bob Sample.db_fresh)
                    Sample.taco Sample.db_fresh ∧
  toggle_http_table (handleTogglePostDislike 11 (Some Sample.bob) Sample.taco Sample.db_fresh)
                    (togglePostDislike 11 Sample.taco Sample.bob Sample.db_fresh)
                    Sample.taco Sample.db_fresh ∧
  handleTogglePostLike 11 None Sample.taco Sample.db_fresh
    = (not_authenticated, Sample.db_fresh) ∧
  handleTogglePostDislike 11 None Sample.taco Sample.db_fresh
    = (not_authenticated, Sample.db_fresh).
Proof.
  apply (toggle_routes 11 Sample.bob 2%N Sample.taco Sample.db_fresh).
  - reflexivity.
  - apply (bool_decide_unpack (posts_valid Sample.db_fresh)). vm_compute. exact I.
Defined.

(** ** The feed routes *)






(** A search the sample server refuses: the feed route answers 500. *)
Example feed_route_refused_search :
  handleGetPostsFeed SampleFeed.regexCompile
    (FeedQuery.mk None None None None (Some " taco ( ")) SampleFeed.db
  = (mkReply 500 internal_error, SampleFeed.db).
Proof. vm_compute. reflexivity. Qed.




(** ** The create route *)

Lemma ofString_nonempty s ty : PostType.ofString s = Some ty → JS.truthy s = true.
Proof. by destruct s. Qed.

Lemma or_undefined_truthy s : JS.truthy s = true → JS.or_undefined (Some s) = Some s.
Proof. intros H. unfold JS.or_undefined. by rewrite H. Qed.

Lemma handleCreatePost_run Buffer (upload : Buffer → UploadResult)
    now newId userId reqBody file url db :
  active_user db userId →
  create_body_ok reqBody →
  uploaded_url upload file = Some url →
  let req := create_request reqBody url in
  handleCreatePost Buffer upload now newId (Some userId) reqBody file db =
    if city_ok req && image_ok req
    then match posts db !! newId with
         | None => (mkReply 201 (createPost now newId userId req db).1,
                    (createPost now newId userId req db).2)
         | Some _ => (mkReply 500 internal_error, db)
         end
    else (mkReply 400 (createPost now newId userId req db).1, db).
Proof.
  intros (uid & u & Hu & Hl & Ha) (Hc & Hlen & s & ty & Hty & Hof) Hup req.
  pose proof (fromString_truthy _ _ Hu) as Tu.
  unfold handleCreatePost.
  rewrite (or_undefined_truthy _ Tu), Hc, Hty,
    (or_undefined_truthy _ (ofString_nonempty s ty Hof)), Hof.
  rewrite bool_decide_true by done. cbn [negb from_option id].
  destruct (Nat.ltb_spec 280 (String.length
              (JS.trim (default "" (CreateBody.content reqBody))))) as [|_]; [lia|].
  assert (Hup' : match file with
                 | Some imageFile =>
                     if negb (upload_success (upload imageFile))
                     then inl (mkReply 400
                                 (mkResponse false "Failed to upload image" None
                                    (upload_error (upload imageFile))))
                     else inr (upload_secureUrl (upload imageFile))
                 | None => inr None
                 end = inr url).
  { unfold uploaded_url in Hup. destruct file as [f|]; [|by injection Hup as <-].
    destruct (upload_success (upload f)); [|done]. simpl. by injection Hup as <-. }
  rewrite Hup'.
  assert (Hreq : CreatePostRequest.mk
                   (JS.trim (default "" (CreateBody.content reqBody))) s url
                   (CreateBody.city reqBody) = req)
    by (unfold req, create_request; by rewrite Hty).
  rewrite Hreq.
  assert (Hct : JS.truthy (JS.trim (CreatePostRequest.content req)) = true).
  { unfold req, create_request. simpl. rewrite trim_idem.
    unfold JS.truthy_trim in Hc. by destruct (CreateBody.content reqBody). }
  assert (Hcl : (String.length (JS.trim (CreatePostRequest.content req)) ≤ 280)%nat).
  { unfold req, create_request. simpl. by rewrite trim_idem. }
  assert (Hpt : PostType.ofString (CreatePostRequest.postType req) = Some ty)
    by (unfold req, create_request; simpl; by rewrite Hty).
  rewrite (createPost_guarded now newId userId req uid u ty db) by done.
  rewrite created_doc_errors_eq by done.
  destruct (image_ok req), (city_ok req); simpl; try done.
  by destruct (posts db !! newId).
Qed.

(** The create route, for an existing active caller.  Blank content, a
    post type that is none of the four, and content over 280 characters
    are answered 400 in that order, and so is a failed upload, with the
    upload's own error; none of them stores anything.  Past these, the
    answer is 201 with the stored post when the request has a city, the
    uploaded URL (if any) is an image URL and the [_id] is unused; 400 when
    the city is missing or the URL is no image URL; 500 when the [_id] is
    taken; only the 201 writes. *)
Theorem create_route Buffer (upload : Buffer → UploadResult)
    now newId userId reqBody file db :
  active_user db userId →
  let r := handleCreatePost Buffer upload now newId (Some userId) reqBody file db in
  (JS.truthy_trim (CreateBody.content reqBody) = false →
     r = (mkReply 400 (failure "Post content is required" "Missing post content"),
          db)) ∧
  (JS.truthy_trim (CreateBody.content reqBody) = true →
   create_type reqBody = None →
     r = (mkReply 400
            (failure "Valid post type is required (recommend, help, update, event)"
                     "Invalid post type"), db)) ∧
  (JS.truthy_trim (CreateBody.content reqBody) = true →
   is_Some (create_type reqBody) →
   (280 < String.length (JS.trim (default "" (CreateBody.content reqBody))))%nat →
     r = (mkReply 400 (failure "Post content cannot exceed 280 characters"
                               "Content too long"), db)) ∧
  (create_body_ok reqBody →
     (∀ f, file = Some f → upload_success (upload f) = false →
        r = (mkReply 400 (mkResponse false "Failed to upload image" None
                            (upload_error (upload f))), db)) ∧
     (∀ url, uploaded_url upload file = Some url →
        let req := create_request reqBody url in
        (city_ok req && image_ok req = true → posts db !! newId = None →
           status r.1 = 201%N ∧ success (body r.1) = true ∧
           ∃ P, r.2 = mkDB (users db) (<[newId := P]> (posts db)) ∧
                Post.content P = JS.trim (default "" (CreateBody.content reqBody))) ∧
        (city_ok req && image_ok req = false →
           status r.1 = 400%N ∧ message (body r.1) = "Validation failed" ∧
           r.2 = db) ∧
        (city_ok req && image_ok req = true → is_Some (posts db !! newId) →
           r = (mkReply 500 internal_error, db)))).
Proof.
  intros Hact r. split; [|split; [|split]].
  - intros Hc. subst r. unfold handleCreatePost.
    destruct Hact as (uid & u & Hu & _).
    rewrite (or_undefined_truthy _ (fromString_truthy _ _ Hu)). by rewrite Hc.
  - intros Hc Hty. subst r. unfold handleCreatePost.
    destruct Hact as (uid & u & Hu & _).
    rewrite (or_undefined_truthy _ (fromString_truthy _ _ Hu)), Hc.
    unfold create_type in Hty. cbn [negb].
    destruct (CreateBody.postType reqBody) as [s|]; [|done]. simpl in Hty.
    unfold JS.or_undefined. destruct (JS.truthy s); [|done].
    rewrite Hty. by rewrite bool_decide_false by (intros [? ?]; done).
  - intros Hc [ty Hty] Hlen. subst r. unfold handleCreatePost.
    destruct Hact as (uid & u & Hu & _).
    rewrite (or_undefined_truthy _ (fromString_truthy _ _ Hu)), Hc.
    unfold create_type in Hty. cbn [negb].
    destruct (CreateBody.postType reqBody) as [s|]; [|done]. simpl in Hty.
    rewrite (or_undefined_truthy _ (ofString_nonempty s ty Hty)), Hty.
    rewrite bool_decide_true by done. cbn [negb].
    by destruct (Nat.ltb_spec 280 (String.length
                   (JS.trim (default "" (CreateBody.content reqBody)))));
      [|lia].
  - intros Hok. split.
    + intros f -> Hf. subst r.
      destruct Hact as (uid & u & Hu & _).
      destruct Hok as (Hc & Hlen & s & ty & Hty & Hof).
      unfold handleCreatePost.
      rewrite (or_undefined_truthy _ (fromString_truthy _ _ Hu)), Hc, Hty,
        (or_undefined_truthy _ (ofString_nonempty s ty Hof)), Hof.
      rewrite bool_decide_true by done. cbn [negb from_option id].
      destruct (Nat.ltb_spec 280 (String.length
                  (JS.trim (default "" (CreateBody.content reqBody))))) as [|_];
        [lia|].
      by rewrite Hf.
    + intros url Hup req.
      assert (Hr : r = handleCreatePost Buffer upload now newId (Some userId)
                         reqBody file db) by done.
      rewrite (handleCreatePost_run Buffer upload now newId userId reqBody file url db)
        in Hr by done.
      fold req in Hr.
      destruct Hact as (uid & u & Hu & Hl & Ha).
      destruct Hok as (Hc & Hlen & s & ty & Hty & Hof).
      assert (Hct : JS.truthy (JS.trim (CreatePostRequest.content req)) = true).
      { unfold req, create_request. simpl. rewrite trim_idem.
        unfold JS.truthy_trim in Hc. by destruct (CreateBody.content reqBody). }
      assert (Hcl : (String.length (JS.trim (CreatePostRequest.content req)) ≤ 280)%nat).
      { unfold req, create_request. simpl. by rewrite trim_idem. }
      assert (Hpt : PostType.ofString (CreatePostRequest.postType req) = Some ty)
        by (unfold req, create_request; simpl; by rewrite Hty).
      pose proof (createPost_guarded now newId userId req uid u ty db
                    Hu Hl Ha Hct Hpt Hcl) as Hg.
      rewrite created_doc_errors_eq in Hg by done.
      split; [|split].
      * intros Hci Hfresh. rewrite Hci, Hfresh in Hr.
        apply andb_true_iff in Hci as [Hcity Himg].
        rewrite Himg, Hcity, Hfresh in Hg. simpl in Hg.
        rewrite Hr, Hg. simpl. split; [done|]. split; [done|].
        eexists. split; [done|]. simpl. unfold req, create_request. simpl.
        by rewrite !trim_idem.
      * intros Hci. rewrite Hci in Hr. rewrite Hr. simpl.
        split; [done|]. split; [|done]. rewrite Hg.
        apply andb_false_iff in Hci.
        by destruct (image_ok req), (city_ok req); simpl; destruct Hci.
      * intros Hci [P HP]. by rewrite Hci, HP in Hr.
Qed.

Lemma create_route_witness :
  let r := handleCreatePost unit SampleUpload.upload 7 200 (Some Sample.bob)
             SampleUpload.body (Some tt) Sample.db_fresh in
  (JS.truthy_trim (CreateBody.content SampleUpload.body) = false →
     r = (mkReply 400 (failure "Post content is required" "Missing post content"),
          Sample.db_fresh)) ∧
  (JS.truthy_trim (CreateBody.content SampleUpload.body) = true →
   create_type SampleUpload.body = None →
     r = (mkReply 400
            (failure "Valid post type is required (recommend, help, update, event)"
                     "Invalid post type"), Sample.db_fresh)) ∧
  (JS.truthy_trim (CreateBody.content SampleUpload.body) = true →
   is_Some (create_type SampleUpload.body) →
   (280 < String.length
            (JS.trim (default "" (CreateBody.content SampleUpload.body))))%nat →
     r = (mkReply 400 (failure "Post content cannot exceed 280 characters"
                               "Content too long"), Sample.db_fresh)) ∧
  (create_body_ok SampleUpload.body →
     (∀ f, Some tt = Some f → upload_success (SampleUpload.upload f) = false →
        r = (mkReply 400 (mkResponse false "Failed to upload image" None
                            (upload_error (SampleUpload.upload f))),
             Sample.db_fresh)) ∧
     (∀ url, uploaded_url SampleUpload.upload (Some tt) = Some url →
        let req := create_request SampleUpload.body url in
        (city_ok req && image_ok req = true →
         posts Sample.db_fresh !! 200%N = None →
           status r.1 = 201%N ∧ success (body r.1) = true ∧
           ∃ P, r.2 = mkDB (users Sample.db_fresh)
                        (<[200%N := P]> (posts Sample.db_fresh)) ∧
                Post.content P
                  = JS.trim (default "" (CreateBody.content SampleUpload.body))) ∧
        (city_ok req && image_ok req = false →
           status r.1 = 400%N ∧ message (body r.1) = "Validation failed" ∧
           r.2 = Sample.db_fresh) ∧
        (city_ok req && image_ok req = true →
         is_Some (posts Sample.db_fresh !! 200%N) →
           r = (mkReply 500 internal_error, Sample.db_fresh)))).
Proof.
  apply (create_route unit SampleUpload.upload 7 200 Sample.bob SampleUpload.body
           (Some tt) Sample.db_fresh).
  exists 2%N, (Sample.user "bob" "Austin" true).
  split; [reflexivity|]. split; [vm_compute; reflexivity|reflexivity].
Defined.
